(** * vsgenptvs.interpreter: discovery and registration of Python interpreters

    A shallow embedding of [src/vsgenptvs/interpreter.py].  The class
    [PTVSInterpreter] becomes a record, its keyword dictionary a typed record
    of optional entries, and the effects of the module (the Windows registry,
    the identity generator, exceptions) a state-and-exception monad.  The
    filesystem, the child processes and the configuration reader are read-only
    parts of the environment.

    The module is read as Python 3.8 or later runs it: [filter] makes an
    iterator, [WindowsError] and [IOError] are names of [OSError], and
    [os.path.abspath(None)] raises a [TypeError].  A [str] is a string of the
    code points U+0000 to U+00FF, one character each; [lower], [strip] and
    [int] treat them as Python does. *)

From Stdlib Require Import Ascii String.
From stdpp Require Import gmap strings list.

Local Open Scope string_scope.

(** ** Python [str] operations used by the module *)

Module Str.

(** The backslash, written by its code so that no literal ends in it. *)
Definition bslash : ascii := Ascii.ascii_of_nat 92.

(** [c.isspace()], the characters [strip] and [rstrip] remove: tab, line
    feed, vertical tab, form feed, carriage return, the four separators
    U+001C to U+001F, the space, the next-line control U+0085 and the
    no-break space U+00A0. *)
Definition is_space (c : ascii) : bool :=
  let n := Ascii.nat_of_ascii c in
  ((9 <=? n)%nat && (n <=? 13)%nat) || ((28 <=? n)%nat && (n <=? 32)%nat)
  || (n =? 133)%nat || (n =? 160)%nat.

(** [c.lower()]: the letters [A] to [Z] and the capital letters U+00C0 to
    U+00DE, the multiplication sign U+00D7 apart, move up by 32. *)
Definition lower_char (c : ascii) : ascii :=
  let n := Ascii.nat_of_ascii c in
  if ((65 <=? n)%nat && (n <=? 90)%nat)
     || ((192 <=? n)%nat && (n <=? 222)%nat && negb (n =? 215)%nat)
  then Ascii.ascii_of_nat (n + 32) else c.

(** [s.lower()] *)
Fixpoint lower (s : string) : string :=
  match s with
  | EmptyString => EmptyString
  | String c s' => String (lower_char c) (lower s')
  end.

(** [s.lstrip(chars)], the characters given as a predicate *)
Fixpoint lstrip_by (p : ascii → bool) (s : string) : string :=
  match s with
  | EmptyString => EmptyString
  | String c s' => if p c then lstrip_by p s' else s
  end.

(** [s.rstrip(chars)] *)
Fixpoint rstrip_by (p : ascii → bool) (s : string) : string :=
  match s with
  | EmptyString => EmptyString
  | String c s' =>
      match rstrip_by p s' with
      | EmptyString => if p c then EmptyString else String c EmptyString
      | r => String c r
      end
  end.

(** [s.rstrip()] and [s.strip()] *)
Definition rstrip (s : string) : string := rstrip_by is_space s.
Definition strip (s : string) : string := lstrip_by is_space (rstrip_by is_space s).

(** [c in s] *)
Fixpoint contains (c : ascii) (s : string) : bool :=
  match s with
  | EmptyString => false
  | String a s' => Ascii.eqb a c || contains c s'
  end.

(** [s.partition(c)]: the text before the first [c] and the text after it;
    [(s, "")] when [c] does not occur. *)
Fixpoint partition (c : ascii) (s : string) : string * string :=
  match s with
  | EmptyString => (EmptyString, EmptyString)
  | String a s' =>
      if Ascii.eqb a c then (EmptyString, s')
      else let '(k, v) := partition c s' in (String a k, v)
  end.

(** [s.replace(a, b)] for single characters *)
Fixpoint replace_char (a b : ascii) (s : string) : string :=
  match s with
  | EmptyString => EmptyString
  | String c s' => String (if Ascii.eqb c a then b else c) (replace_char a b s')
  end.

(** [s.split(c)]: never empty, one more piece than occurrences of [c] *)
Fixpoint split (c : ascii) (s : string) : list string :=
  match s with
  | EmptyString => [EmptyString]
  | String a s' =>
      match split c s' with
      | [] => [EmptyString]
      | w :: ws => if Ascii.eqb a c then EmptyString :: w :: ws else String a w :: ws
      end
  end.

(** [sep.join(l)] *)
Fixpoint join (sep : string) (l : list string) : string :=
  match l with
  | [] => EmptyString
  | [w] => w
  | w :: ws => w +:+ sep +:+ join sep ws
  end.

(** [s[-1:]] as an optional character *)
Fixpoint last (s : string) : option ascii :=
  match s with
  | EmptyString => None
  | String c EmptyString => Some c
  | String _ s' => last s'
  end.

(** [s[1:-1]] *)
Definition strip_ends (s : string) : string :=
  match s with
  | EmptyString => EmptyString
  | String _ s' => String.substring 0 (String.length s' - 1)%nat s'
  end.

End Str.

(** ** [os.path] on Windows ([ntpath])

    The functions of [ntpath] the module calls, for paths with an optional
    drive letter.  UNC shares and device paths are outside this model. *)

Module ntpath.

Definition sep : string := String Str.bslash EmptyString.

(** [c in '\\/'] *)
Definition is_sep (c : ascii) : bool := Ascii.eqb c Str.bslash || Ascii.eqb c "/".

(** [splitdrive(p)]: a drive is one character followed by a colon. *)
Definition splitdrive (p : string) : string * string :=
  match p with
  | String c1 (String c2 r) =>
      if Ascii.eqb c2 ":" then (String c1 (String c2 EmptyString), r) else (EmptyString, p)
  | _ => (EmptyString, p)
  end.

Definition starts_with_sep (s : string) : bool :=
  match s with
  | String c _ => is_sep c
  | EmptyString => false
  end.

Definition ends_with_sep (s : string) : bool :=
  match Str.last s with
  | Some c => is_sep c
  | None => false
  end.

(** [isabs(s)]: the part after the drive starts with a separator. *)
Definition isabs (s : string) : bool := starts_with_sep (snd (splitdrive s)).

(** One turn of the loop of [join]: the pair is [(result_drive, result_path)]. *)
Definition join_step (acc : string * string) (p : string) : string * string :=
  let '(result_drive, result_path) := acc in
  let '(p_drive, p_path) := splitdrive p in
  if starts_with_sep p_path then
    ((if negb (String.eqb p_drive "") || String.eqb result_drive "" then p_drive else result_drive),
     p_path)
  else if negb (String.eqb p_drive "") && negb (String.eqb p_drive result_drive)
          && negb (String.eqb (Str.lower p_drive) (Str.lower result_drive)) then
    (p_drive, p_path)
  else
    let result_drive :=
      if negb (String.eqb p_drive "") && negb (String.eqb p_drive result_drive)
      then p_drive else result_drive in
    let result_path :=
      if negb (String.eqb result_path "") && negb (ends_with_sep result_path)
      then result_path +:+ sep else result_path in
    (result_drive, result_path +:+ p_path).

(** [join(path, *paths)] *)
Definition join (path : string) (paths : list string) : string :=
  let '(result_drive, result_path) := fold_left join_step paths (splitdrive path) in
  result_drive +:+ result_path.

(** The component loop of [normpath], with the components kept so far held
    in reverse in [kept]: empty and [.] components are dropped, [..] removes
    the component before it, is dropped at a rooted start and is kept
    otherwise. *)
Fixpoint norm_comps (rooted : bool) (kept : list string) (comps : list string) : list string :=
  match comps with
  | [] => rev kept
  | c :: rest =>
      if String.eqb c "" || String.eqb c "." then norm_comps rooted kept rest
      else if String.eqb c ".." then
        match kept with
        | prev :: kept' =>
            if String.eqb prev ".." then norm_comps rooted (c :: kept) rest
            else norm_comps rooted kept' rest
        | [] =>
            if rooted then norm_comps rooted kept rest
            else norm_comps rooted (c :: kept) rest
        end
      else norm_comps rooted (c :: kept) rest
  end.

(** [normpath(path)] *)
Definition normpath (path : string) : string :=
  let path := Str.replace_char "/" Str.bslash path in
  let '(prefix, path) := splitdrive path in
  let rooted := starts_with_sep path in
  let prefix := if rooted then prefix +:+ sep else prefix in
  let path := if rooted then Str.lstrip_by (Ascii.eqb Str.bslash) path else path in
  let comps := norm_comps rooted [] (Str.split Str.bslash path) in
  let comps :=
    match prefix, comps with
    | EmptyString, [] => ["."]
    | _, _ => comps
    end in
  prefix +:+ Str.join sep comps.

(** [abspath(path)] for the working directory [cwd]:
    [normpath(join(os.getcwd(), path))]. *)
Definition abspath (cwd : string) (path : string) : string :=
  normpath (if isabs path then path else join cwd [path]).

(** The scan of [split] for the last separator: the head up to and including
    it, and the tail after it. *)
Fixpoint split_at_last_sep (p : string) : string * string :=
  match p with
  | EmptyString => (EmptyString, EmptyString)
  | String c p' =>
      let '(h, t) := split_at_last_sep p' in
      match h with
      | EmptyString => if is_sep c then (String c EmptyString, t) else (EmptyString, String c t)
      | _ => (String c h, t)
      end
  end.

(** [split(p)] *)
Definition split (p : string) : string * string :=
  let '(d, p) := splitdrive p in
  let '(head, tail) := split_at_last_sep p in
  let stripped := Str.rstrip_by is_sep head in
  let head := if String.eqb stripped "" then head else stripped in
  (d +:+ head, tail).

Definition basename (p : string) : string := snd (split p).
Definition dirname (p : string) : string := fst (split p).

End ntpath.

(** ** Exceptions and the state of the machine *)

(** The exceptions the module meets.  [WindowsError] is what [winreg]
    raises and [IOError] what [open] raises; both names are aliases of
    [OSError]. *)
Inductive exn : Type :=
| ValueError (msg : string)
| WindowsError
| IOError
| TypeError
| AttributeError
| UnboundLocalError (name : string)
| UnicodeDecodeError
| KeyboardInterrupt.

(** [except WindowsError], which is [except OSError] *)
Definition is_WindowsError (e : exn) : bool :=
  match e with
  | WindowsError | IOError => true
  | _ => false
  end.

(** [except BaseException] *)
Definition is_BaseException (e : exn) : bool := true.

(** A value of [GUID] or [BaseInterpreter]: a [uuid.UUID] object, held as its
    128-bit integer, or a [str]. *)
Inductive guid : Type :=
| UUID (int : N)
| Token (s : string).

(** A key of the registry under [HKEY_CURRENT_USER]: the names of its
    subkeys in enumeration order, and its named string values. *)
Record regkey : Type := RegKey {
  subkeys : list string;
  values : gmap string string
}.

(** What changes while the module runs: the registry, keyed by the full name
    of each key, and the clock [uuid.uuid1] draws identities from. *)
Record state : Type := State {
  registry : gmap string regkey;
  uuid_clock : N
}.

Inductive outcome (A : Type) : Type :=
| Return (a : A)
| Raise (e : exn).
Arguments Return {A} a.
Arguments Raise {A} e.

(** A computation: it reads and changes the state, then returns or raises.
    The state changes made before an exception stay. *)
Definition M (A : Type) : Type := state → state * outcome A.

Definition ret {A} (a : A) : M A := λ s, (s, Return a).

Definition bind {A B} (m : M A) (k : A → M B) : M B :=
  λ s, match m s with
       | (s', Return a) => k a s'
       | (s', Raise e) => (s', Raise e)
       end.

Definition raise {A} (e : exn) : M A := λ s, (s, Raise e).

(** [try: m  except <class>: h] *)
Definition try_except {A} (m : M A) (catches : exn → bool) (h : exn → M A) : M A :=
  λ s, match m s with
       | (s', Raise e) => if catches e then h e s' else (s', Raise e)
       | r => r
       end.

(** Runs [m] and hands its outcome to the caller as a value. *)
Definition attempt {A} (m : M A) : M (outcome A) :=
  λ s, let '(s', r) := m s in (s', Return r).

(** [x ← m; k] runs [m], binds its result and goes on with [k]. *)
Global Instance M_ret : MRet M := @ret.
Global Instance M_bind : MBind M := λ A B k m, bind m k.

(** ** The environment *)

Inductive fsnode : Type :=
| Directory
| File (lines : list string).

(** The calls of [winreg] the module makes, each on the full name of a key. *)
Inductive regop : Type :=
| RegOpen (key : string)
| RegCreate (key : string)
| RegQueryInfo (key : string)
| RegEnum (key : string) (index : nat)
| RegQuery (key : string) (name : string)
| RegSet (key : string) (name : string).

(** What the module only reads: the working directory, the files, what a
    child process prints (or the exception its launch raises), how bytes
    decode as UTF-8, and which registry calls the system refuses. *)
Record World : Type := {
  cwd : string;
  fs : gmap string fsnode;
  communicate : list string → outcome string;
  decode_utf8 : string → outcome string;
  refused : regop → bool
}.

(** The configuration reader of the host framework, a [ConfigParser]: the
    name of its default section, the sections it lists, its directory lists
    and its plain options, [None] where an option is not set. *)
Record Config : Type := {
  default_section : string;
  sections : list string;
  dirs_option : string → string → option (list string);
  plain_option : string → string → option string
}.

(** [section in config]: the default section, which [sections()] does not
    list, or a listed one *)
Definition in_config (config : Config) (section : string) : bool :=
  String.eqb section (default_section config) || bool_decide (section ∈ sections config).

(** [config.getdirs(section, option, fallback=...)] and
    [config.get(section, option, fallback=...)] *)
Definition getdirs (config : Config) (section option : string) (fallback : list string)
  : list string :=
  default fallback (dirs_option config section option).
Definition get (config : Config) (section option : string) (fallback : string) : string :=
  default fallback (plain_option config section option).

(** ** [os.path] and [open] in the environment *)

Definition abspath (w : World) (path : string) : string := ntpath.abspath (cwd w) path.

(** [os.path.exists(path)] *)
Definition exists_ (w : World) (path : string) : bool :=
  match fs w !! path with
  | Some _ => true
  | None => false
  end.

(** [open(path)] and the iteration over its lines *)
Definition open (w : World) (path : string) : M (list string) :=
  match fs w !! path with
  | Some (File lines) => ret lines
  | _ => raise IOError
  end.

(** ** [winreg] *)

Module winreg.

(** The name of a key without its last part, and that last part. *)
Fixpoint rsplit (s : string) : option (string * string) :=
  match s with
  | EmptyString => None
  | String a s' =>
      match rsplit s' with
      | Some (h, t) => Some (String a h, t)
      | None => if Ascii.eqb a Str.bslash then Some (EmptyString, s') else None
      end
  end.

Definition add_subkey (leaf : string) (k : regkey) : regkey :=
  RegKey (subkeys k ++ [leaf]) (values k).

(** Creates the key and the keys above it that are missing; an existing key
    is left as it is. *)
Fixpoint create_key (fuel : nat) (name : string) (reg : gmap string regkey)
  : gmap string regkey :=
  match reg !! name with
  | Some _ => reg
  | None =>
      let reg :=
        match fuel, rsplit name with
        | S fuel', Some (parent, leaf) =>
            alter (add_subkey leaf) parent (create_key fuel' parent reg)
        | _, _ => reg
        end in
      <[name := RegKey [] ∅]> reg
  end.

Definition set_value (key name value : string) (reg : gmap string regkey)
  : gmap string regkey :=
  alter (λ k, RegKey (subkeys k) (<[name := value]> (values k))) key reg.

(** A handle is the full name of the key it was opened on. *)
Definition OpenKey (w : World) (key : string) : M string :=
  λ s, if refused w (RegOpen key) then (s, Raise WindowsError)
       else match registry s !! key with
            | Some _ => (s, Return key)
            | None => (s, Raise WindowsError)
            end.

Definition CreateKey (w : World) (key : string) : M string :=
  λ s, if refused w (RegCreate key) then (s, Raise WindowsError)
       else (State (create_key (String.length key) key (registry s)) (uuid_clock s),
             Return key).

(** [QueryInfoKey(key)[0]]: the number of subkeys *)
Definition QueryInfoKey (w : World) (key : string) : M nat :=
  λ s, if refused w (RegQueryInfo key) then (s, Raise WindowsError)
       else match registry s !! key with
            | Some k => (s, Return (length (subkeys k)))
            | None => (s, Raise WindowsError)
            end.

Definition EnumKey (w : World) (key : string) (index : nat) : M string :=
  λ s, if refused w (RegEnum key index) then (s, Raise WindowsError)
       else match registry s !! key with
            | Some k =>
                match subkeys k !! index with
                | Some name => (s, Return name)
                | None => (s, Raise WindowsError)
                end
            | None => (s, Raise WindowsError)
            end.

(** [QueryValueEx(key, name)[0]] *)
Definition QueryValueEx (w : World) (key name : string) : M string :=
  λ s, if refused w (RegQuery key name) then (s, Raise WindowsError)
       else match registry s !! key with
            | Some k =>
                match values k !! name with
                | Some v => (s, Return v)
                | None => (s, Raise WindowsError)
                end
            | None => (s, Raise WindowsError)
            end.

(** [SetValueEx(key, name, 0, REG_SZ, value)] *)
Definition SetValueEx (w : World) (key name value : string) : M unit :=
  λ s, if refused w (RegSet key name) then (s, Raise WindowsError)
       else match registry s !! key with
            | Some _ => (State (set_value key name value (registry s)) (uuid_clock s),
                         Return tt)
            | None => (s, Raise WindowsError)
            end.

Definition CloseKey (key : string) : M unit := ret tt.

End winreg.

(** ** [uuid] *)

Module uuid.

Definition hex_digit (n : N) : ascii :=
  match n with
  | 0 => "0" | 1 => "1" | 2 => "2" | 3 => "3" | 4 => "4" | 5 => "5" | 6 => "6"
  | 7 => "7" | 8 => "8" | 9 => "9" | 10 => "a" | 11 => "b" | 12 => "c"
  | 13 => "d" | 14 => "e" | _ => "f"
  end%N%char.

Fixpoint hex_of (digits : nat) (n : N) (acc : string) : string :=
  match digits with
  | O => acc
  | S d => hex_of d (n / 16)%N (String (hex_digit (n mod 16)%N) acc)
  end.

(** [str(u)]: the 32 hexadecimal digits in groups of 8-4-4-4-12 *)
Definition str (int : N) : string :=
  let h := hex_of 32 int "" in
  String.substring 0 8 h +:+ "-" +:+ String.substring 8 4 h +:+ "-" +:+
  String.substring 12 4 h +:+ "-" +:+ String.substring 16 4 h +:+ "-" +:+
  String.substring 20 12 h.

Definition digit_value (c : ascii) : option N :=
  let n := Ascii.N_of_ascii c in
  if (48 <=? n)%N && (n <=? 57)%N then Some (n - 48)%N
  else if (97 <=? n)%N && (n <=? 102)%N then Some (n - 87)%N
  else if (65 <=? n)%N && (n <=? 70)%N then Some (n - 55)%N
  else None.

(** The blanks [int] skips around a number: the ASCII blanks, and the
    spaces above U+007F, which it takes for a space. *)
Definition int_space (c : ascii) : bool :=
  let n := Ascii.nat_of_ascii c in
  ((9 <=? n)%nat && (n <=? 13)%nat) || (n =? 32)%nat || (n =? 133)%nat || (n =? 160)%nat.

(** [s[:1] == c] and [s[1:]] *)
Definition head_is (c : ascii) (s : string) : bool :=
  match s with
  | String a _ => Ascii.eqb a c
  | EmptyString => false
  end.
Definition tail (s : string) : string :=
  match s with
  | String _ s' => s'
  | EmptyString => EmptyString
  end.

(** The scan of [int] over digits and underscores: it stops at the first
    character that is neither, with the value read and the text left, and
    fails on two underscores in a row and on an underscore at the end.
    [prev] is the character before. *)
Fixpoint digits16 (acc : N) (prev : ascii) (s : string) : option (N * string) :=
  match s with
  | EmptyString => if Ascii.eqb prev "_" then None else Some (acc, s)
  | String c s' =>
      if Ascii.eqb c "_" then
        if Ascii.eqb prev "_" then None else digits16 acc c s'
      else
        match digit_value c with
        | Some d => digits16 (acc * 16 + d)%N c s'
        | None => if Ascii.eqb prev "_" then None else Some (acc, s)
        end
  end.

(** [int(hex, 16)]: blanks, a sign, the prefix [0x] with one underscore after
    it, digits with single underscores between them, blanks; [None] for the
    [ValueError]. *)
Definition int16 (hex : string) : option Z :=
  let s := Str.lstrip_by int_space hex in
  let negative := head_is "-" s in
  let s := if head_is "+" s || head_is "-" s then tail s else s in
  let s :=
    if head_is "0" s && (head_is "x" (tail s) || head_is "X" (tail s)) then
      let r := tail (tail s) in
      if head_is "_" r then tail r else r
    else s in
  if head_is "_" s then None
  else
    match digits16 0 Ascii.zero s with
    | Some (n, rest) =>
        if String.eqb rest s then None
        else if String.eqb (Str.lstrip_by int_space rest) "" then
          Some (if negative then - Z.of_N n else Z.of_N n)%Z
        else None
    | None => None
    end.

(** [s.replace(pat, '')] for a pattern that is not empty; [skip] counts the
    characters of a match still to drop. *)
Fixpoint remove (pat : string) (skip : nat) (s : string) : string :=
  match s with
  | EmptyString => EmptyString
  | String c s' =>
      match skip with
      | S k => remove pat k s'
      | O =>
          if String.prefix pat s then remove pat (String.length pat - 1)%nat s'
          else String c (remove pat 0%nat s')
      end
  end.

Definition is_brace (c : ascii) : bool := Ascii.eqb c "{" || Ascii.eqb c "}".

(** [uuid.UUID(hex)] *)
Definition UUID_of (hex : string) : outcome N :=
  let hex := remove "uuid:" 0%nat (remove "urn:" 0%nat hex) in
  let hex := remove "-" 0%nat (Str.lstrip_by is_brace (Str.rstrip_by is_brace hex)) in
  if negb (String.length hex =? 32)%nat
  then Raise (ValueError "badly formed hexadecimal UUID string")
  else match int16 hex with
       | Some int =>
           if (0 <=? int)%Z && (int <? 2 ^ 128)%Z then Return (Z.to_N int)
           else Raise (ValueError "int is out of range (need a 128-bit value)")
       | None => Raise (ValueError "invalid literal for int() with base 16")
       end.

(** [uuid.UUID(value)]: only a string has the [replace] the constructor calls. *)
Definition UUID_ (value : guid) : M guid :=
  match value with
  | Token hex =>
      match UUID_of hex with
      | Return int => ret (UUID int)
      | Raise e => raise e
      end
  | UUID _ => raise AttributeError
  end.

(** [uuid.uuid1()]: the next identity of the clock *)
Definition uuid1 : M guid :=
  λ s, (State (registry s) (uuid_clock s + 1)%N, Return (UUID (uuid_clock s))).

End uuid.

(** ** The base class [VSGRegisterable]

    [text] and [lower] come from the host framework: the conversion of a
    value to a string, and that string in lower case. *)

Definition text (value : guid) : string :=
  match value with
  | UUID int => uuid.str int
  | Token s => s
  end.

Definition lower (value : guid) : string := Str.lower (text value).

(** ** The keyword dictionary

    The keyword arguments of the constructor and of the factories: the keys
    [_import] reads, each absent or holding a value of the type the class
    documents for it. *)

Record kwargs : Type := Kwargs {
  kw_Id : option guid;
  kw_BaseInterpreter : option guid;
  kw_Architecture : option string;
  kw_Version : option string;
  kw_Path : option string;
  kw_Description : option string;
  kw_InterpreterPath : option string;
  kw_InterpreterAbsPath : option string;
  kw_WindowsInterpreterPath : option string;
  kw_WindowsInterpreterAbsPath : option string;
  kw_PathEnvironmentVariable : option string;
  kw_VSVersion : option string
}.

(** [{}] *)
Definition no_kwargs : kwargs :=
  Kwargs None None None None None None None None None None None None.

(** [args[key] = value], key by key *)
Definition set_Id (v : guid) (a : kwargs) : kwargs :=
  Kwargs (Some v) (kw_BaseInterpreter a) (kw_Architecture a) (kw_Version a) (kw_Path a)
    (kw_Description a) (kw_InterpreterPath a) (kw_InterpreterAbsPath a)
    (kw_WindowsInterpreterPath a) (kw_WindowsInterpreterAbsPath a)
    (kw_PathEnvironmentVariable a) (kw_VSVersion a).
Definition set_BaseInterpreter (v : guid) (a : kwargs) : kwargs :=
  Kwargs (kw_Id a) (Some v) (kw_Architecture a) (kw_Version a) (kw_Path a)
    (kw_Description a) (kw_InterpreterPath a) (kw_InterpreterAbsPath a)
    (kw_WindowsInterpreterPath a) (kw_WindowsInterpreterAbsPath a)
    (kw_PathEnvironmentVariable a) (kw_VSVersion a).
Definition set_Architecture (v : string) (a : kwargs) : kwargs :=
  Kwargs (kw_Id a) (kw_BaseInterpreter a) (Some v) (kw_Version a) (kw_Path a)
    (kw_Description a) (kw_InterpreterPath a) (kw_InterpreterAbsPath a)
    (kw_WindowsInterpreterPath a) (kw_WindowsInterpreterAbsPath a)
    (kw_PathEnvironmentVariable a) (kw_VSVersion a).
Definition set_Version (v : string) (a : kwargs) : kwargs :=
  Kwargs (kw_Id a) (kw_BaseInterpreter a) (kw_Architecture a) (Some v) (kw_Path a)
    (kw_Description a) (kw_InterpreterPath a) (kw_InterpreterAbsPath a)
    (kw_WindowsInterpreterPath a) (kw_WindowsInterpreterAbsPath a)
    (kw_PathEnvironmentVariable a) (kw_VSVersion a).
Definition set_Path (v : string) (a : kwargs) : kwargs :=
  Kwargs (kw_Id a) (kw_BaseInterpreter a) (kw_Architecture a) (kw_Version a) (Some v)
    (kw_Description a) (kw_InterpreterPath a) (kw_InterpreterAbsPath a)
    (kw_WindowsInterpreterPath a) (kw_WindowsInterpreterAbsPath a)
    (kw_PathEnvironmentVariable a) (kw_VSVersion a).
Definition set_Description (v : string) (a : kwargs) : kwargs :=
  Kwargs (kw_Id a) (kw_BaseInterpreter a) (kw_Architecture a) (kw_Version a) (kw_Path a)
    (Some v) (kw_InterpreterPath a) (kw_InterpreterAbsPath a)
    (kw_WindowsInterpreterPath a) (kw_WindowsInterpreterAbsPath a)
    (kw_PathEnvironmentVariable a) (kw_VSVersion a).
Definition set_InterpreterPath (v : string) (a : kwargs) : kwargs :=
  Kwargs (kw_Id a) (kw_BaseInterpreter a) (kw_Architecture a) (kw_Version a) (kw_Path a)
    (kw_Description a) (Some v) (kw_InterpreterAbsPath a)
    (kw_WindowsInterpreterPath a) (kw_WindowsInterpreterAbsPath a)
    (kw_PathEnvironmentVariable a) (kw_VSVersion a).
Definition set_WindowsInterpreterPath (v : string) (a : kwargs) : kwargs :=
  Kwargs (kw_Id a) (kw_BaseInterpreter a) (kw_Architecture a) (kw_Version a) (kw_Path a)
    (kw_Description a) (kw_InterpreterPath a) (kw_InterpreterAbsPath a)
    (Some v) (kw_WindowsInterpreterAbsPath a)
    (kw_PathEnvironmentVariable a) (kw_VSVersion a).
Definition set_PathEnvironmentVariable (v : string) (a : kwargs) : kwargs :=
  Kwargs (kw_Id a) (kw_BaseInterpreter a) (kw_Architecture a) (kw_Version a) (kw_Path a)
    (kw_Description a) (kw_InterpreterPath a) (kw_InterpreterAbsPath a)
    (kw_WindowsInterpreterPath a) (kw_WindowsInterpreterAbsPath a)
    (Some v) (kw_VSVersion a).

(** [args.setdefault('Description', value)] *)
Definition setdefault_Description (v : string) (a : kwargs) : kwargs :=
  match kw_Description a with
  | Some _ => a
  | None => set_Description v a
  end.

(** The names [from_registry_key] reads and [register] writes. *)
Inductive value_name : Type :=
| NArchitecture
| NDescription
| NInterpreterPath
| NVersion
| NWindowsInterpreterPath
| NPathEnvironmentVariable.

Definition name_of (k : value_name) : string :=
  match k with
  | NArchitecture => "Architecture"
  | NDescription => "Description"
  | NInterpreterPath => "InterpreterPath"
  | NVersion => "Version"
  | NWindowsInterpreterPath => "WindowsInterpreterPath"
  | NPathEnvironmentVariable => "PathEnvironmentVariable"
  end.

(** [args[k] = value] for one of those names *)
Definition set_named (k : value_name) (v : string) (a : kwargs) : kwargs :=
  match k with
  | NArchitecture => set_Architecture v a
  | NDescription => set_Description v a
  | NInterpreterPath => set_InterpreterPath v a
  | NVersion => set_Version v a
  | NWindowsInterpreterPath => set_WindowsInterpreterPath v a
  | NPathEnvironmentVariable => set_PathEnvironmentVariable v a
  end.

(** ** The class [PTVSInterpreter] *)

Record PTVSInterpreter : Type := Interpreter {
  GUID : guid;
  BaseInterpreter : guid;
  Architecture : string;
  Version : string;
  Path : string;
  Description : string;
  InterpreterPath : string;
  InterpreterAbsPath : string;
  WindowsInterpreterPath : string;
  WindowsInterpreterAbsPath : string;
  PathEnvironmentVariable : string;
  VSVersion : option string
}.

(** [self.Description = value] *)
Definition with_Description (v : string) (self : PTVSInterpreter) : PTVSInterpreter :=
  Interpreter (GUID self) (BaseInterpreter self) (Architecture self) (Version self)
    (Path self) v (InterpreterPath self) (InterpreterAbsPath self)
    (WindowsInterpreterPath self) (WindowsInterpreterAbsPath self)
    (PathEnvironmentVariable self) (VSVersion self).

(** [self.GUID = value; self.BaseInterpreter = self.GUID] *)
Definition with_identity (v : guid) (self : PTVSInterpreter) : PTVSInterpreter :=
  Interpreter v v (Architecture self) (Version self)
    (Path self) (Description self) (InterpreterPath self) (InterpreterAbsPath self)
    (WindowsInterpreterPath self) (WindowsInterpreterAbsPath self)
    (PathEnvironmentVariable self) (VSVersion self).

(** The truth value of a string or [None] *)
Definition truthy (v : option string) : bool :=
  match v with
  | Some s => negb (String.eqb s "")
  | None => false
  end.

(** [_regkey_name.format(VSVersion=version)] *)
Definition _regkey_name (version : string) : string :=
  "Software\Microsoft\VisualStudio" +:+ ntpath.sep +:+ version +:+ "\PythonTools\Interpreters".

(** [_import]: [fresh] is the value of [uuid.uuid1()], which Python evaluates
    before the lookup of ['Id']. *)
Definition _import (w : World) (fresh : guid) (datadict : kwargs) : PTVSInterpreter :=
  let GUID := default fresh (kw_Id datadict) in
  let BaseInterpreter := default GUID (kw_BaseInterpreter datadict) in
  let Architecture := default "" (kw_Architecture datadict) in
  let Version := default "" (kw_Version datadict) in
  let Path := default "" (kw_Path datadict) in
  let Description := default "" (kw_Description datadict) in
  let InterpreterPath := default "" (kw_InterpreterPath datadict) in
  let InterpreterAbsPath :=
    default (if ntpath.isabs InterpreterPath then InterpreterPath
             else abspath w (ntpath.join Path [InterpreterPath]))
            (kw_InterpreterAbsPath datadict) in
  let WindowsInterpreterPath := default "" (kw_WindowsInterpreterPath datadict) in
  let WindowsInterpreterAbsPath :=
    default (if ntpath.isabs WindowsInterpreterPath then WindowsInterpreterPath
             else abspath w (ntpath.join Path [WindowsInterpreterPath]))
            (kw_WindowsInterpreterAbsPath datadict) in
  let PathEnvironmentVariable := default "PYTHONPATH" (kw_PathEnvironmentVariable datadict) in
  let VSVersion := kw_VSVersion datadict in
  Interpreter GUID BaseInterpreter Architecture Version Path Description InterpreterPath
    InterpreterAbsPath WindowsInterpreterPath WindowsInterpreterAbsPath
    PathEnvironmentVariable VSVersion.

(** The constructor: a call of the class with the keyword arguments [args] *)
Definition __init__ (w : World) (args : kwargs) : M PTVSInterpreter :=
  fresh ← uuid.uuid1; mret (_import w fresh args).

(** An outcome taken as a computation that leaves the state alone *)
Definition lift {A} (r : outcome A) : M A := λ s, (s, r).

Definition architecture_code : string :=
  "import platform;print('x64' if '64bit' in platform.architecture() else 'x86')".
Definition version_code : string :=
  "import sys;print '.'.join(str(s) for s in sys.version_info[:2])".

(** [python_architecture]: the answer is a string or [None]. *)
Definition python_architecture (w : World) (interpreter : string) : M (option string) :=
  try_except
    (out ← lift (communicate w [interpreter; "-c"; architecture_code]);
     decoded ← lift (decode_utf8 w out);
     mret (Some (Str.rstrip decoded)))
    is_BaseException
    (λ _, mret None).

(** [python_version] *)
Definition python_version (w : World) (interpreter : string) : M (option string) :=
  try_except
    (out ← lift (communicate w [interpreter; "-c"; version_code]);
     decoded ← lift (decode_utf8 w out);
     mret (Some (Str.rstrip decoded)))
    is_BaseException
    (λ _, mret None).

(** Modelled from the spec: the line that opens the loop of
    [from_registry_key] is missing from the source (its body, line 211,
    stands alone); the names it ranges over are the fields section 4.6 lists,
    which are the names [register] writes. *)
Definition value_names : list value_name :=
  [NArchitecture; NDescription; NInterpreterPath; NVersion; NWindowsInterpreterPath;
   NPathEnvironmentVariable].

(** The loop of [from_registry_key] inside its [try]: a [WindowsError] ends
    it, and [args] keeps the entries stored so far. *)
Fixpoint read_values (w : World) (regkey : string) (names : list value_name) (args : kwargs)
  : M kwargs :=
  match names with
  | [] => mret args
  | k :: rest =>
      r ← attempt (winreg.QueryValueEx w regkey (name_of k));
      match r with
      | Return v => read_values w regkey rest (set_named k v args)
      | Raise e => if is_WindowsError e then mret args else raise e
      end
  end.

(** [from_registry_key] *)
Definition from_registry_key (w : World) (keyname : string) : M (option PTVSInterpreter) :=
  args ← (r ← attempt (winreg.OpenKey w keyname);
          match r with
          | Return regkey =>
              args ← read_values w regkey value_names no_kwargs;
              winreg.CloseKey regkey;; mret args
          | Raise e => if is_WindowsError e then mret no_kwargs else raise e
          end);
  match kw_InterpreterPath args with
  | Some path =>
      let args := set_Path (ntpath.dirname path) args in
      let args := set_Id (Token (Str.strip_ends (ntpath.basename keyname))) args in
      interpreter ← __init__ w args;
      mret (Some interpreter)
  | None => mret None
  end.

(** The loop of [resolve] over the indexes [range(reginfo[0])] *)
Fixpoint resolve_loop (w : World) (self : PTVSInterpreter) (regkey_name regkey : string)
    (range : list nat) : M PTVSInterpreter :=
  match range with
  | [] => mret self
  | i :: rest =>
      name ← winreg.EnumKey w regkey i;
      let interpreter_regkey_name := regkey_name +:+ ntpath.sep +:+ name in
      interpreter ← from_registry_key w interpreter_regkey_name;
      match interpreter with
      | Some interpreter =>
          if String.eqb (Str.lower (InterpreterAbsPath interpreter))
                        (Str.lower (InterpreterAbsPath self))
          then
            guid ← uuid.UUID_ (GUID interpreter);
            mret (with_identity guid self)
          else resolve_loop w self regkey_name regkey rest
      | None => resolve_loop w self regkey_name regkey rest
      end
  end.

(** [resolve]: the interpreter after the call is the result. *)
Definition resolve (w : World) (self : PTVSInterpreter) : M PTVSInterpreter :=
  if negb (truthy (VSVersion self)) then
    raise (ValueError "Cannot resolve interpreter with invalid Visual Studio Version")
  else
    let version := default "" (VSVersion self) in
    let regkey_name := _regkey_name version in
    let vs_regkey_name := ntpath.dirname regkey_name in
    try_except (winreg.OpenKey w vs_regkey_name) is_WindowsError
      (λ _, raise (ValueError ("Cannot resolve the registry path HKCU" +:+ ntpath.sep +:+
                               vs_regkey_name +:+ " for Visual Studio " +:+ version +:+
                               "'s PTVS.  Is PTVS installed?")));;
    regkey ← winreg.CreateKey w regkey_name;
    try_except
      (reginfo ← winreg.QueryInfoKey w regkey;
       resolve_loop w self regkey_name regkey (seq 0 reginfo))
      is_WindowsError
      (λ _, mret self).

(** The key [register] writes the interpreter under *)
Definition interpreter_regkey_name (self : PTVSInterpreter) : string :=
  _regkey_name (default "" (VSVersion self)) +:+ ntpath.sep +:+ "{" +:+ lower (GUID self) +:+ "}".

(** [register] *)
Definition register (w : World) (self : PTVSInterpreter) : M bool :=
  if negb (truthy (VSVersion self)) then
    raise (ValueError "Cannot register interpreter with invalid Visual Studio Version")
  else
    let version := default "" (VSVersion self) in
    let regkey_name := _regkey_name version in
    let vs_regkey_name := ntpath.dirname regkey_name in
    try_except (winreg.OpenKey w vs_regkey_name) is_WindowsError
      (λ _, raise (ValueError ("Cannot register interpreter with Visual Studio " +:+ version +:+
                               " that is not installed.")));;
    let interpreter_regkey_name := interpreter_regkey_name self in
    try_except
      (regkey ← winreg.CreateKey w interpreter_regkey_name;
       winreg.SetValueEx w regkey "Architecture" (Architecture self);;
       winreg.SetValueEx w regkey "Description" (Description self);;
       winreg.SetValueEx w regkey "InterpreterPath" (InterpreterAbsPath self);;
       winreg.SetValueEx w regkey "Version" (Version self);;
       winreg.SetValueEx w regkey "WindowsInterpreterPath" (WindowsInterpreterAbsPath self);;
       winreg.SetValueEx w regkey "PathEnvironmentVariable" (PathEnvironmentVariable self);;
       winreg.CloseKey regkey;;
       mret true)
      is_WindowsError
      (λ _, mret false).

(** The keyword arguments both factories fill in after the probes:
    a probe's answer is stored only when it is a string that is not empty. *)
Definition with_probe (set : string → kwargs → kwargs) (answer : option string) (args : kwargs)
  : kwargs :=
  if truthy answer then set (default "" answer) args else args.

(** [from_python_installation] *)
Definition from_python_installation (w : World) (directory : string) (kw : kwargs)
  : M (option PTVSInterpreter) :=
  let root := abspath w directory in
  let python := abspath w (ntpath.join root ["python.exe"]) in
  if negb (exists_ w python) then mret None
  else
    let args := kw in
    let args := set_Path root args in
    let args := set_InterpreterPath "python.exe" args in
    let args := setdefault_Description (ntpath.basename root) args in
    let args :=
      if exists_ w (ntpath.join root ["pythonw.exe"])
      then set_WindowsInterpreterPath "pythonw.exe" args else args in
    version ← python_version w python;
    let args := with_probe set_Version version args in
    architecture ← python_architecture w python;
    let args := with_probe set_Architecture architecture args in
    interpreter ← __init__ w args;
    interpreter ← resolve w interpreter;
    mret (Some interpreter).

(** A local variable: not yet assigned, or bound to a value. *)
Inductive local (A : Type) : Type :=
| Unbound
| Bound (a : A).
Arguments Unbound {A}.
Arguments Bound {A} a.

(** The loop over the lines of [pyvenv.cfg] (lines 132-138) *)
Definition read_home (lines : list string) (basedir : local (option string))
  : local (option string) :=
  fold_left
    (λ basedir line,
       if Str.contains "=" line then
         let '(key, value) := Str.partition "=" line in
         let key := Str.lower (Str.strip key) in
         let value := Str.strip value in
         if String.eqb key "home" then Bound (Some value) else basedir
       else basedir)
    lines basedir.

(** Lines 126-138 of [from_virtual_environment]: what [basedir] holds after
    the two files were read.  [next(..., None)] gives [None] for an empty
    file. *)
Definition locate_basedir (w : World) (origprefix pyvenvcfg : string)
  : M (local (option string)) :=
  basedir ← (if exists_ w origprefix then
               f ← open w origprefix;
               mret (Bound (match f with
                            | line :: _ => Some (Str.rstrip line)
                            | [] => None
                            end))
             else mret Unbound);
  if exists_ w pyvenvcfg then
    f ← open w pyvenvcfg;
    mret (read_home f basedir)
  else mret basedir.

(** Lines 140-163 of [from_virtual_environment]: the descriptor built on the
    installation [basedir] names.  Reading a name that was never assigned
    raises; [os.path.abspath(None)] raises a [TypeError]. *)
Definition from_basedir (w : World) (root python : string) (kw : kwargs)
    (basedir : local (option string)) : M (option PTVSInterpreter) :=
  baseinterpretter ←
    match basedir with
    | Unbound => raise (UnboundLocalError "basedir")
    | Bound None => raise TypeError
    | Bound (Some directory) => from_python_installation w directory kw
    end;
  match baseinterpretter with
  | None => mret None
  | Some baseinterpretter =>
      let args := kw in
      let args := set_Path root args in
      let args := set_BaseInterpreter (GUID baseinterpretter) args in
      let args := set_InterpreterPath (ntpath.join "Scripts" ["python.exe"]) args in
      let args :=
        setdefault_Description
          (ntpath.basename root +:+ " (" +:+ Description baseinterpretter +:+ ")") args in
      let args :=
        if exists_ w (ntpath.join root ["Scripts"; "pythonw.exe"])
        then set_WindowsInterpreterPath (ntpath.join "Scripts" ["pythonw.exe"]) args
        else args in
      version ← python_version w python;
      let args := with_probe set_Version version args in
      architecture ← python_architecture w python;
      let args := with_probe set_Architecture architecture args in
      interpreter ← __init__ w args;
      mret (Some interpreter)
  end.

(** [from_virtual_environment] *)
Definition from_virtual_environment (w : World) (directory : string) (kw : kwargs)
  : M (option PTVSInterpreter) :=
  let root := abspath w directory in
  let python := abspath w (ntpath.join root ["Scripts"; "python.exe"]) in
  if negb (exists_ w python) then mret None
  else
    let origprefix := abspath w (ntpath.join root ["Lib"; "orig-prefix.txt"]) in
    let pyvenvcfg := abspath w (ntpath.join root ["pyvenv.cfg"]) in
    if negb (exists_ w origprefix) && negb (exists_ w pyvenvcfg) then mret None
    else
      basedir ← locate_basedir w origprefix pyvenvcfg;
      from_basedir w root python kw basedir.

(** [[f(p) for p in paths]]: the calls run in order, and the first exception
    ends the comprehension. *)
Fixpoint comprehension {A B} (f : A → M B) (paths : list A) : M (list B) :=
  match paths with
  | [] => mret []
  | p :: rest =>
      x ← f p;
      xs ← comprehension f rest;
      mret (x :: xs)
  end.

(** What [from_section] hands back: a list, or the iterator [filter] makes
    over a list.  The iterator holds the list it runs over and the position
    it has reached; it yields the objects of that list that are not [None],
    each once.  The list stays in the model after the iterator has come to its
    end, so that what a loop did to its objects can be stated; the iterator
    itself gives them out no more. *)
Inductive sequence : Type :=
| PyList (items : list PTVSInterpreter)
| PyFilter (source : list (option PTVSInterpreter)) (position : nat).

(** [filter(None, l)] *)
Definition filter_None (l : list (option PTVSInterpreter)) : sequence := PyFilter l 0.

(** The descriptors the sequence was made over *)
Definition objects (r : sequence) : list PTVSInterpreter :=
  match r with
  | PyList items => items
  | PyFilter source _ => omap id source
  end.

(** [list(r)]: what the sequence yields from where it stands *)
Definition remaining (r : sequence) : list PTVSInterpreter :=
  match r with
  | PyList items => items
  | PyFilter source position => omap id (drop position source)
  end.

(** [for i in r: body], for a body that assigns to attributes of [i]: a list
    is walked and stays a list; an iterator is run to its end, and the
    objects it yields on the way are changed where they are. *)
Definition for_each (body : PTVSInterpreter → PTVSInterpreter) (r : sequence) : sequence :=
  match r with
  | PyList items => PyList (map body items)
  | PyFilter source position =>
      PyFilter (take position source ++ map (fmap body) (drop position source))%list
               (length source)
  end.

(** [from_section] *)
Definition from_section (w : World) (config : Config) (section : string) (kw : kwargs)
  : M sequence :=
  if negb (in_config config section) then
    raise (ValueError ("Section [" +:+ section +:+ "] not found in [" +:+
                       Str.join ", " (sections config) +:+ "]"))
  else
    let interpreter_paths := getdirs config section "interpreter_paths" [] in
    let environment_paths := getdirs config section "environment_paths" [] in
    interpreters ←
      match interpreter_paths, environment_paths with
      | _ :: _, _ =>
          l ← comprehension (λ p, from_python_installation w p kw) interpreter_paths;
          mret (filter_None l)
      | [], _ :: _ =>
          l ← comprehension (λ p, from_virtual_environment w p kw) environment_paths;
          mret (filter_None l)
      | [], [] => mret (PyList [])
      end;
    mret (for_each (λ i, with_Description (get config section "description" (Description i)) i)
                   interpreters).

(** ** A sample machine

    A working directory on drive [C:], an installation [C:\Python39] with
    both binaries, a virtual environment with a [pyvenv.cfg], one with both
    marker files, one with a [pyvenv.cfg] that names no home, and a registry
    in which Visual Studio 15.0 has the Python tools installed. *)

Module Sample.

Definition nl : string := String (Ascii.ascii_of_nat 10) EmptyString.

Definition files : gmap string fsnode :=
  list_to_map
    [("C:\Python39", Directory);
     ("C:\Python39\python.exe", File []);
     ("C:\Python39\pythonw.exe", File []);
     ("C:\Python27", Directory);
     ("C:\Python27\python.exe", File []);
     ("C:\envs\myenv\Scripts\python.exe", File []);
     ("C:\envs\myenv\pyvenv.cfg",
      File ["Home = C:\Python39" +:+ nl; "version = 3.9.1" +:+ nl]);
     ("C:\envs\both\Scripts\python.exe", File []);
     ("C:\envs\both\Lib\orig-prefix.txt", File ["C:\Python27" +:+ nl]);
     ("C:\envs\both\pyvenv.cfg", File ["home=C:\Python39" +:+ nl]);
     ("C:\envs\nohome\Scripts\python.exe", File []);
     ("C:\envs\nohome\pyvenv.cfg", File ["version = 3.9.1" +:+ nl]);
     ("C:\envs\orphan\Scripts\python.exe", File []);
     ("C:\envs\lost\Scripts\python.exe", File []);
     ("C:\envs\lost\pyvenv.cfg", File ["home = C:\Gone" +:+ nl])].

(** The child prints the version when asked for it, the architecture
    otherwise; an interpreter under [C:\Python27] cannot be launched. *)
Definition child (args : list string) : outcome string :=
  match args with
  | interpreter :: _ :: code :: _ =>
      if String.prefix "C:\Python27" interpreter then Raise WindowsError
      else if String.eqb code version_code then Return ("3.9" +:+ nl)
      else Return ("x64" +:+ nl)
  | _ => Raise TypeError
  end.

Definition world : World :=
  {| cwd := "C:\work";
     fs := files;
     communicate := child;
     decode_utf8 := Return;
     refused := λ _, false |}.

(** The same machine with a registry that refuses every write of a value. *)
Definition read_only : World :=
  {| cwd := "C:\work";
     fs := files;
     communicate := child;
     decode_utf8 := Return;
     refused := λ op, match op with RegSet _ _ => true | _ => false end |}.

(** The same machine with a registry in which no key can be created or
    opened for writing. *)
Definition no_create : World :=
  {| cwd := "C:\work";
     fs := files;
     communicate := child;
     decode_utf8 := Return;
     refused := λ op, match op with RegCreate _ => true | _ => false end |}.

Definition known : string := "6ba7b810-9dad-11d1-80b4-00c04fd430c8".

Definition tools : string := "Software\Microsoft\VisualStudio\15.0\PythonTools".

(** No Visual Studio at all *)
Definition bare : state := State ∅ 1.

(** The Python tools installed, no interpreter registered *)
Definition installed : state :=
  State (list_to_map [(tools, RegKey [] ∅)]) 1.

(** One interpreter registered, its path in another case *)
Definition registered : state :=
  State (list_to_map
           [(tools, RegKey ["Interpreters"] ∅);
            (tools +:+ "\Interpreters", RegKey ["{" +:+ known +:+ "}"] ∅);
            (tools +:+ "\Interpreters\{" +:+ known +:+ "}",
             RegKey [] (list_to_map [("Architecture", "x64");
                                     ("Description", "Python39");
                                     ("InterpreterPath", "c:\python39\PYTHON.EXE");
                                     ("Version", "3.9");
                                     ("WindowsInterpreterPath", "c:\python39\pythonw.exe");
                                     ("PathEnvironmentVariable", "PYTHONPATH")]))])
        1.

(** An entry whose name is no identity holds the path of the installation. *)
Definition misnamed : state :=
  State (list_to_map
           [(tools, RegKey ["Interpreters"] ∅);
            (tools +:+ "\Interpreters", RegKey ["Python39"] ∅);
            (tools +:+ "\Interpreters\Python39",
             RegKey [] (list_to_map [("Architecture", "x64");
                                     ("Description", "Python39");
                                     ("InterpreterPath", "C:\Python39\python.exe");
                                     ("Version", "3.9");
                                     ("WindowsInterpreterPath", "C:\Python39\pythonw.exe");
                                     ("PathEnvironmentVariable", "PYTHONPATH")]))])
        1.

Definition vs15 : kwargs :=
  Kwargs None None None None None None None None None None None (Some "15.0").

(** The descriptor of [C:\Python27], which has no [pythonw.exe] and whose
    probes fail *)
Definition python27 : PTVSInterpreter :=
  _import world (UUID 1)
    (Kwargs None None None None (Some "C:\Python27") (Some "Python27") (Some "python.exe")
       None None None None (Some "15.0")).

(** The descriptor of [C:\Python39] before reconciliation *)
Definition python39 : PTVSInterpreter :=
  _import world (UUID 1)
    (Kwargs None None (Some "x64") (Some "3.9") (Some "C:\Python39") (Some "Python39")
       (Some "python.exe") None (Some "pythonw.exe") None None (Some "15.0")).

Definition config : Config :=
  {| default_section := "DEFAULT";
     sections := ["vsgen.ptvs"; "empty"; "envs"];
     dirs_option := λ section option,
       if String.eqb section "vsgen.ptvs" && String.eqb option "interpreter_paths"
       then Some ["C:\Python39"; "C:\Missing"]
       else if String.eqb section "vsgen.ptvs" && String.eqb option "environment_paths"
       then Some ["C:\envs\myenv"]
       else if String.eqb section "envs" && String.eqb option "interpreter_paths"
       then Some []
       else if String.eqb section "envs" && String.eqb option "environment_paths"
       then Some ["C:\envs\myenv"; "C:\envs\orphan"]
       else None;
     plain_option := λ section option,
       if String.eqb section "envs" && String.eqb option "description"
       then Some "Team environment" else None |}.

End Sample.

(** ** What the specification calls the home of an environment

    The words of section 4.3: [pyvenv.cfg] holds [key = value] lines, the keys
    compared without case; the home is the value of the key [home]. *)

Definition home_of_line (line : string) : option string :=
  if Str.contains "=" line then
    let '(key, value) := Str.partition "=" line in
    if String.eqb (Str.lower (Str.strip key)) "home" then Some (Str.strip value) else None
  else None.

(** The value of the last line that sets [home], if a line does *)
Definition home_value (lines : list string) : option string :=
  last (omap home_of_line lines).

(** ** The calls of the write phase of [register] *)

Definition write_ops (self : PTVSInterpreter) : list regop :=
  let key := interpreter_regkey_name self in
  [RegCreate key; RegSet key "Architecture"; RegSet key "Description";
   RegSet key "InterpreterPath"; RegSet key "Version"; RegSet key "WindowsInterpreterPath";
   RegSet key "PathEnvironmentVariable"].

(** The system lets every call of the write phase through. *)
Definition writes_allowed (w : World) (self : PTVSInterpreter) : bool :=
  forallb (λ op, negb (refused w op)) (write_ops self).

(** ** Paths with a drive, paths that end in a name *)

(** The path starts with a drive, as [os.getcwd()] does on Windows. *)
Definition has_drive (p : string) : bool :=
  negb (String.eqb (fst (ntpath.splitdrive p)) "").

(** The string is not empty and its last character is no separator. *)
Definition ends_plain (s : string) : bool :=
  match Str.last s with
  | Some c => negb (ntpath.is_sep c)
  | None => false
  end.

(** ** The entries of the catalog as [resolve] sees them *)

(** What the turn [i] of the loop of [resolve] finds under the key
    [regkey_name] of the registry [reg]: the descriptor loaded from the
    subkey at that index, [None] when the subkey holds no interpreter path,
    or the exception of the enumeration. *)
Definition entry_at (w : World) (reg : gmap string regkey) (regkey_name : string) (i : nat)
  : outcome (option PTVSInterpreter) :=
  snd ((name ← winreg.EnumKey w regkey_name i;
        from_registry_key w (regkey_name +:+ ntpath.sep +:+ name)) (State reg 0)).

(** The comparison of line 263 *)
Definition same_path (self interpreter : PTVSInterpreter) : bool :=
  String.eqb (Str.lower (InterpreterAbsPath interpreter)) (Str.lower (InterpreterAbsPath self)).

(** The entry was read and is not the interpreter of [self]. *)
Definition is_miss (self : PTVSInterpreter) (e : outcome (option PTVSInterpreter)) : bool :=
  match e with
  | Return None => true
  | Return (Some interpreter) => negb (same_path self interpreter)
  | Raise _ => false
  end.

(** The loop of [resolve] over entries already read *)
Fixpoint scan (self : PTVSInterpreter) (entries : list (outcome (option PTVSInterpreter)))
  : outcome PTVSInterpreter :=
  match entries with
  | [] => Return self
  | Raise e :: _ => Raise e
  | Return None :: rest => scan self rest
  | Return (Some interpreter) :: rest =>
      if same_path self interpreter then
        match GUID interpreter with
        | Token hex =>
            match uuid.UUID_of hex with
            | Return int => Return (with_identity (UUID int) self)
            | Raise e => Raise e
            end
        | UUID _ => Raise AttributeError
        end
      else scan self rest
  end.

(** The registry once [resolve] has opened the key of the interpreters *)
Definition catalog (s : state) (regkey_name : string) : gmap string regkey :=
  winreg.create_key (String.length regkey_name) regkey_name (registry s).

(** The entries [resolve] enumerates for [self] in the state [s] *)
Definition entries (w : World) (self : PTVSInterpreter) (s : state)
  : list (outcome (option PTVSInterpreter)) :=
  let regkey_name := _regkey_name (default "" (VSVersion self)) in
  let reg := catalog s regkey_name in
  match reg !! regkey_name with
  | Some k => map (entry_at w reg regkey_name) (seq 0 (length (subkeys k)))
  | None => []
  end.

(** A computation that reads the registry without changing it, and draws
    identities without its result depending on them. *)
Definition reads_catalog {A} (m : M A) : Prop :=
  ∀ reg, ∃ r n, ∀ clock, m (State reg clock) = (State reg (clock + n)%N, r).

(** ** The command line ([__main__.py]) *)

Module entry_point.

(** [l.insert(i, x)] for an index that is not negative: an index past the
    end appends. *)
Definition insert {A} (i : nat) (x : A) (l : list A) : list A :=
  (take i l ++ x :: drop i l)%list.

(** [main(argv)]: [sys_argv] is [sys.argv], taken when [argv] is [None], and
    [vsgen_main] is the main function of the host framework.  The list is
    changed in place: the first component is the list as the call leaves it,
    the second what [main] returns. *)
Definition main {R} (vsgen_main : list string → R) (sys_argv : list string)
    (argv : option (list string)) : list string * R :=
  let argv := default sys_argv argv in
  let argv := insert 1 "auto" argv in
  let argv := insert 2 "ptvs" argv in
  (argv, vsgen_main argv).

(** [l.index(x)]: the first position of [x], [None] for the [ValueError] *)
Fixpoint index (x : string) (l : list string) : option nat :=
  match l with
  | [] => None
  | y :: l' => if String.eqb y x then Some 0%nat else S <$> index x l'
  end.

(** The block under [if __name__ == "__main__"] that puts the package on the
    module search path; [package_path] is the normalised parent of the
    directory of the module. *)
Definition correct_sys_path (package_path : string) (sys_path : list string) : list string :=
  match index package_path sys_path with
  | Some i => <[i := package_path]> sys_path
  | None => (sys_path ++ [package_path])%list
  end.

End entry_point.

(** ** What a computation keeps *)

(** Every run of [m] from a state in [I] ends in a state in [I], whether it
    returns or raises. *)
Definition preserves {A} (I : state → Prop) (m : M A) : Prop :=
  ∀ s, I s → I (fst (m s)).

(** The keys of [reg] other than those in [skip] are still in [reg'], each
    with the values it had. *)
Definition values_kept (skip : string → bool) (reg reg' : gmap string regkey) : Prop :=
  ∀ key k, skip key = false → reg !! key = Some k →
           ∃ k', reg' !! key = Some k' ∧ values k' = values k.

(** The calls of [register] after [CreateKey] (lines 289-295) and its
    [return True] *)
Definition writes (w : World) (self : PTVSInterpreter) (regkey : string) : M bool :=
  winreg.SetValueEx w regkey "Architecture" (Architecture self);;
  winreg.SetValueEx w regkey "Description" (Description self);;
  winreg.SetValueEx w regkey "InterpreterPath" (InterpreterAbsPath self);;
  winreg.SetValueEx w regkey "Version" (Version self);;
  winreg.SetValueEx w regkey "WindowsInterpreterPath" (WindowsInterpreterAbsPath self);;
  winreg.SetValueEx w regkey "PathEnvironmentVariable" (PathEnvironmentVariable self);;
  winreg.CloseKey regkey;;
  mret true.

(** A separator occurs in the string. *)
Fixpoint has_sep (s : string) : bool :=
  match s with
  | EmptyString => false
  | String c s' => ntpath.is_sep c || has_sep s'
  end.

(** ** The characters of an identity *)

(** The number a string of hexadecimal digits stands for, read from the
    left on top of [acc] *)
Fixpoint hex_value (acc : N) (hex : string) : option N :=
  match hex with
  | EmptyString => Some acc
  | String c hex' =>
      match uuid.digit_value c with
      | Some d => hex_value (acc * 16 + d)%N hex'
      | None => None
      end
  end.

(** Every character of the string passes the test. *)
Fixpoint all_chars (P : ascii → bool) (s : string) : bool :=
  match s with
  | EmptyString => true
  | String c s' => P c && all_chars P s'
  end.

(** A digit or one of the letters [a] to [f] *)
Definition is_lower_hex (c : ascii) : bool :=
  let n := Ascii.N_of_ascii c in
  ((48 <=? n)%N && (n <=? 57)%N) || ((97 <=? n)%N && (n <=? 102)%N).

(** A character of the text of a [uuid.UUID] *)
Definition is_uuid_char (c : ascii) : bool := is_lower_hex c || Ascii.eqb c "-".

(** The text is empty or its last character is no whitespace. *)
Definition ends_plain_text (s : string) : bool :=
  match Str.last s with
  | Some c => negb (Str.is_space c)
  | None => true
  end.

(** ** Proof tools *)

Ltac unfold_M :=
  unfold mbind, M_bind, mret, M_ret, bind, ret, raise, try_except, attempt, lift in *.

(** Decides the tests whose condition is now a constant. *)
Ltac decide_tests := cbn [negb andb orb]; cbv beta iota.

Lemma read_home_step (line : string) (lines : list string) (basedir : local (option string)) :
  read_home (line :: lines) basedir =
  read_home lines (match home_of_line line with
                   | Some v => Bound (Some v)
                   | None => basedir
                   end).
Proof.
  unfold read_home, home_of_line. simpl.
  destruct (Str.contains "=" line); [|reflexivity].
  destruct (Str.partition "=" line) as [key value].
  destruct (String.eqb _ "home"); reflexivity.
Qed.

(** The loop over [pyvenv.cfg] leaves [basedir] at the home the file names
    and does not touch it when the file names none. *)
Lemma read_home_value (lines : list string) (basedir : local (option string)) :
  read_home lines basedir =
  match home_value lines with
  | Some v => Bound (Some v)
  | None => basedir
  end.
Proof.
  revert basedir. induction lines as [|line lines IH]; intros basedir; [reflexivity|].
  rewrite read_home_step, IH. unfold home_value.
  change (omap home_of_line (line :: lines))
    with (match home_of_line line with
          | Some v => v :: omap home_of_line lines
          | None => omap home_of_line lines
          end).
  destruct (home_of_line line) as [v|]; [|reflexivity].
  destruct (omap home_of_line lines) as [|v' vs]; [reflexivity|].
  change (last (v :: v' :: vs)) with (last (v' :: vs)).
  destruct (last (v' :: vs)) eqn:E'; [reflexivity|].
  apply last_None in E'. discriminate.
Qed.

(** The probes return; they never raise. *)
Lemma python_version_returns (w : World) (interpreter : string) (s : state) :
  ∃ answer, python_version w interpreter s = (s, Return answer).
Proof.
  unfold python_version. unfold_M.
  destruct (communicate w _) as [out|e]; [|eauto].
  destruct (decode_utf8 w out) as [decoded|e]; eauto.
Qed.

Lemma python_architecture_returns (w : World) (interpreter : string) (s : state) :
  ∃ answer, python_architecture w interpreter s = (s, Return answer).
Proof.
  unfold python_architecture. unfold_M.
  destruct (communicate w _) as [out|e]; [|eauto].
  destruct (decode_utf8 w out) as [decoded|e]; eauto.
Qed.

(** ** The probes *)

(** [rstrip] cuts a string after its last character that is not to be
    stripped: what it drops is made of such characters only, and what it
    keeps does not end in one. *)
Lemma rstrip_by_cut (p : ascii → bool) (s : string) :
  ∃ dropped,
    s = Str.rstrip_by p s +:+ dropped
    ∧ all_chars p dropped = true
    ∧ match Str.last (Str.rstrip_by p s) with
      | Some c => p c = false
      | None => True
      end.
Proof.
  induction s as [|c s (dropped & Hs & Hdropped & Hlast)].
  - exists "". repeat split.
  - cbn [Str.rstrip_by]. destruct (Str.rstrip_by p s) as [|a r] eqn:E.
    + destruct (p c) eqn:Hc.
      * exists (String c dropped). split; [rewrite Hs at 1; reflexivity|].
        split; [|exact I]. cbn [all_chars]. rewrite Hc, Hdropped. reflexivity.
      * exists dropped. split; [rewrite Hs at 1; reflexivity|].
        split; [exact Hdropped | exact Hc].
    + exists dropped. split; [rewrite Hs at 1; reflexivity|].
      split; [exact Hdropped | exact Hlast].
Qed.

(** C8. The architecture probe and the version probe return for every
    interpreter path and never raise: when the launch of the child, the
    exchange with it or the decoding of its output raises, the answer is
    [None]; otherwise it is the child's standard output with its trailing
    whitespace removed: the output is the answer followed by whitespace
    only, and the answer does not end in whitespace. *)
Theorem probes_never_raise (w : World) (interpreter : string) (s : state) :
  let answer code :=
    match communicate w [interpreter; "-c"; code] with
    | Raise _ => None
    | Return out =>
        match decode_utf8 w out with
        | Raise _ => None
        | Return decoded => Some decoded
        end
    end in
  ∃ architecture version,
    python_architecture w interpreter s = (s, Return architecture)
    ∧ python_version w interpreter s = (s, Return version)
    ∧ (answer architecture_code = None → architecture = None)
    ∧ (answer version_code = None → version = None)
    ∧ (∀ decoded, answer architecture_code = Some decoded →
         ∃ stripped blanks,
           architecture = Some stripped
           ∧ decoded = stripped +:+ blanks
           ∧ all_chars Str.is_space blanks = true
           ∧ ends_plain_text stripped = true)
    ∧ (∀ decoded, answer version_code = Some decoded →
         ∃ stripped blanks,
           version = Some stripped
           ∧ decoded = stripped +:+ blanks
           ∧ all_chars Str.is_space blanks = true
           ∧ ends_plain_text stripped = true).
Proof.
  intros answer. subst answer. cbv beta.
  unfold python_architecture, python_version. unfold_M.
  assert (Hcut : ∀ decoded : string,
            ∃ stripped blanks,
              Some (Str.rstrip decoded) = Some stripped
              ∧ decoded = stripped +:+ blanks
              ∧ all_chars Str.is_space blanks = true
              ∧ ends_plain_text stripped = true).
  { intros decoded. destruct (rstrip_by_cut Str.is_space decoded) as (blanks & H1 & H2 & H3).
    exists (Str.rstrip decoded), blanks. split; [reflexivity|]. split; [exact H1|].
    split; [exact H2|]. unfold ends_plain_text. fold (Str.rstrip decoded) in H3.
    destruct (Str.last (Str.rstrip decoded)); [rewrite H3|]; reflexivity. }
  destruct (communicate w [interpreter; "-c"; architecture_code]) as [out|e];
    [destruct (decode_utf8 w out) as [decoded|e]|];
    (destruct (communicate w [interpreter; "-c"; version_code]) as [out'|e'];
     [destruct (decode_utf8 w out') as [decoded'|e']|]);
    cbn [is_BaseException];
    (eexists _, _; split; [reflexivity|]; split; [reflexivity|]);
    (split; [first [discriminate | reflexivity]|]);
    (split; [first [discriminate | reflexivity]|]);
    (split; intros d Hd; first [discriminate Hd | injection Hd as <-; apply Hcut]).
Qed.

Lemma probes_never_raise_witness :
  python_version Sample.world "C:\Python39\python.exe" Sample.installed =
    (Sample.installed, Return (Some "3.9"))
  ∧ python_architecture Sample.world "C:\Python27\python.exe" Sample.installed =
    (Sample.installed, Return None).
Proof.
  split.
  - destruct (probes_never_raise Sample.world "C:\Python39\python.exe" Sample.installed)
      as (architecture & version & _ & Hrun & _ & _ & _ & Hversion).
    destruct (Hversion ("3.9" +:+ Sample.nl) eq_refl) as (stripped & blanks & -> & _).
    rewrite Hrun. vm_compute in Hrun. congruence.
  - destruct (probes_never_raise Sample.world "C:\Python27\python.exe" Sample.installed)
      as (architecture & version & Hrun & _ & Harchitecture & _).
    rewrite Hrun, (Harchitecture eq_refl). reflexivity.
Defined.

(** ** Virtual environments *)

(** The descriptor of an environment follows the resolution of its base:
    what that raises is raised, no base gives no descriptor, and a base gives
    a descriptor that names it. *)
Lemma from_basedir_follows (w : World) (root python : string) (kw : kwargs) (home : string)
    (s : state) :
  match from_python_installation w home kw s with
  | (s1, Raise e) => from_basedir w root python kw (Bound (Some home)) s = (s1, Raise e)
  | (s1, Return None) => from_basedir w root python kw (Bound (Some home)) s = (s1, Return None)
  | (s1, Return (Some base)) =>
      ∃ s2 interpreter,
        from_basedir w root python kw (Bound (Some home)) s = (s2, Return (Some interpreter))
        ∧ BaseInterpreter interpreter = GUID base
  end.
Proof.
  unfold from_basedir.
  destruct (from_python_installation w home kw s) as [s1 [[base|]|e]] eqn:Hbase;
    unfold mbind, M_bind, bind at 1; rewrite Hbase; [|reflexivity ..].
  destruct (python_version_returns w python s1) as [version Hversion].
  destruct (python_architecture_returns w python s1) as [architecture Harch].
  unfold bind at 1. rewrite Hversion. unfold bind at 1. rewrite Harch.
  unfold __init__, uuid.uuid1, with_probe, setdefault_Description, _import. unfold_M.
  destruct (truthy architecture), (truthy version),
    (exists_ w (ntpath.join root ["Scripts"; "pythonw.exe"]));
    destruct kw as [? ? ? ? ? [description|] ? ? ? ? ? ?];
    (do 2 eexists; split; reflexivity).
Qed.

(** C6. For an environment directory that holds [Scripts\python.exe]: when
    [Lib\orig-prefix.txt] and [pyvenv.cfg] both exist and [pyvenv.cfg] names a
    home, the base installation is the one [from_python_installation]
    resolves from that home, whatever the first line of [orig-prefix.txt]
    says: what that resolution raises is raised, when it finds no
    installation there is no descriptor, and when it returns a base the
    environment's descriptor names that base.  When neither file exists no
    descriptor is produced. *)
Theorem pyvenv_home_takes_precedence (w : World) (directory : string) (kw : kwargs)
    (s : state) :
  let root := abspath w directory in
  let python := abspath w (ntpath.join root ["Scripts"; "python.exe"]) in
  let origprefix := abspath w (ntpath.join root ["Lib"; "orig-prefix.txt"]) in
  let pyvenvcfg := abspath w (ntpath.join root ["pyvenv.cfg"]) in
  exists_ w python = true →
  (∀ legacy modern home,
     fs w !! origprefix = Some (File legacy) →
     fs w !! pyvenvcfg = Some (File modern) →
     home_value modern = Some home →
     match from_python_installation w home kw s with
     | (s1, Raise e) => from_virtual_environment w directory kw s = (s1, Raise e)
     | (s1, Return None) => from_virtual_environment w directory kw s = (s1, Return None)
     | (s1, Return (Some base)) =>
         ∃ s2 interpreter,
           from_virtual_environment w directory kw s = (s2, Return (Some interpreter))
           ∧ BaseInterpreter interpreter = GUID base
     end)
  ∧ (fs w !! origprefix = None →
     fs w !! pyvenvcfg = None →
     from_virtual_environment w directory kw s = (s, Return None)).
Proof.
  intros root python origprefix pyvenvcfg Hpy. split.
  - intros legacy modern home Ho Hc Hh.
    assert (Hloc : locate_basedir w origprefix pyvenvcfg s = (s, Return (Bound (Some home)))).
    { unfold locate_basedir, exists_, open. rewrite Ho, Hc. unfold_M.
      rewrite read_home_value, Hh. reflexivity. }
    assert (Hfrom : from_virtual_environment w directory kw s =
                    from_basedir w root python kw (Bound (Some home)) s).
    { unfold from_virtual_environment. fold root. fold python. fold origprefix.
      fold pyvenvcfg. rewrite Hpy. decide_tests.
      unfold exists_ at 1 2. rewrite Ho, Hc. decide_tests.
      unfold mbind, M_bind, bind. rewrite Hloc. reflexivity. }
    rewrite Hfrom. apply from_basedir_follows.
  - intros Ho Hc. unfold from_virtual_environment.
    fold root. fold python. fold origprefix. fold pyvenvcfg.
    rewrite Hpy. unfold exists_. rewrite Ho, Hc. reflexivity.
Qed.

Lemma pyvenv_home_takes_precedence_witness :
  (∃ s2 interpreter,
     from_virtual_environment Sample.world "C:\envs\both" Sample.vs15 Sample.installed =
       (s2, Return (Some interpreter))
     ∧ BaseInterpreter interpreter = GUID Sample.python39)
  ∧ from_virtual_environment Sample.world "C:\envs\orphan" Sample.vs15 Sample.installed =
    (Sample.installed, Return None).
Proof.
  split.
  - destruct (pyvenv_home_takes_precedence Sample.world "C:\envs\both" Sample.vs15
                Sample.installed) as [H _]; [reflexivity|].
    specialize (H ["C:\Python27" +:+ Sample.nl] ["home=C:\Python39" +:+ Sample.nl]
                  "C:\Python39").
    assert (Hbase : from_python_installation Sample.world "C:\Python39" Sample.vs15
                      Sample.installed =
                    (fst (from_python_installation Sample.world "C:\Python39" Sample.vs15
                            Sample.installed),
                     Return (Some Sample.python39))) by (vm_compute; reflexivity).
    rewrite Hbase in H. apply H; vm_compute; reflexivity.
  - destruct (pyvenv_home_takes_precedence Sample.world "C:\envs\orphan" Sample.vs15
                Sample.installed) as [_ H]; [reflexivity|].
    apply H; vm_compute; reflexivity.
Defined.

(** C9. For an environment directory that holds [Scripts\python.exe], has no
    [Lib\orig-prefix.txt] and has a [pyvenv.cfg] in which no line sets [home],
    [from_virtual_environment] raises the error of a local variable read
    before assignment, for [basedir]; it does not return [None]. *)
Theorem pyvenv_without_home_raises (w : World) (directory : string) (kw : kwargs)
    (s : state) (modern : list string) :
  let root := abspath w directory in
  exists_ w (abspath w (ntpath.join root ["Scripts"; "python.exe"])) = true →
  fs w !! abspath w (ntpath.join root ["Lib"; "orig-prefix.txt"]) = None →
  fs w !! abspath w (ntpath.join root ["pyvenv.cfg"]) = Some (File modern) →
  home_value modern = None →
  from_virtual_environment w directory kw s = (s, Raise (UnboundLocalError "basedir")).
Proof.
  intros root Hpy Ho Hc Hh. unfold from_virtual_environment. fold root.
  rewrite Hpy. unfold locate_basedir, exists_, open. rewrite Ho, Hc.
  decide_tests. unfold_M.
  rewrite read_home_value, Hh. reflexivity.
Qed.

Lemma pyvenv_without_home_raises_witness :
  from_virtual_environment Sample.world "C:\envs\nohome" Sample.vs15 Sample.installed =
    (Sample.installed, Raise (UnboundLocalError "basedir")).
Proof.
  apply (pyvenv_without_home_raises Sample.world "C:\envs\nohome" Sample.vs15
           Sample.installed ["version = 3.9.1" +:+ Sample.nl]);
    vm_compute; reflexivity.
Defined.

(** C7. For an environment directory that holds [Scripts\python.exe] and
    whose base directory [home] was located: when the base directory resolves
    to no installation descriptor, the environment has none either; when it
    resolves to the descriptor [base], the environment's descriptor has
    [BaseInterpreter] equal to the [GUID] of [base] and, unless a description
    was passed in, the description ["<name of the directory> (<description of
    base>)"]. *)
Theorem environment_follows_its_base (w : World) (directory : string) (kw : kwargs)
    (s : state) (home : string) :
  let root := abspath w directory in
  let python := abspath w (ntpath.join root ["Scripts"; "python.exe"]) in
  let origprefix := abspath w (ntpath.join root ["Lib"; "orig-prefix.txt"]) in
  let pyvenvcfg := abspath w (ntpath.join root ["pyvenv.cfg"]) in
  exists_ w python = true →
  exists_ w origprefix || exists_ w pyvenvcfg = true →
  locate_basedir w origprefix pyvenvcfg s = (s, Return (Bound (Some home))) →
  (∀ s1, from_python_installation w home kw s = (s1, Return None) →
         from_virtual_environment w directory kw s = (s1, Return None))
  ∧ (∀ s1 base,
       from_python_installation w home kw s = (s1, Return (Some base)) →
       ∃ s2 interpreter,
         from_virtual_environment w directory kw s = (s2, Return (Some interpreter))
         ∧ BaseInterpreter interpreter = GUID base
         ∧ (kw_Description kw = None →
            Description interpreter =
              ntpath.basename root +:+ " (" +:+ Description base +:+ ")")).
Proof.
  intros root python origprefix pyvenvcfg Hpy Hmarker Hloc.
  assert (Hfrom : from_virtual_environment w directory kw s =
                  from_basedir w root python kw (Bound (Some home)) s).
  { unfold from_virtual_environment.
    fold root. fold python. fold origprefix. fold pyvenvcfg.
    rewrite Hpy. destruct (exists_ w origprefix), (exists_ w pyvenvcfg);
      try discriminate Hmarker; decide_tests;
      unfold mbind, M_bind, bind; rewrite Hloc; reflexivity. }
  rewrite Hfrom. unfold from_basedir. split.
  - intros s1 Hbase. unfold mbind, M_bind, bind. rewrite Hbase. reflexivity.
  - intros s1 base Hbase. unfold mbind, M_bind, bind at 1. rewrite Hbase.
    destruct (python_version_returns w python s1) as [version Hversion].
    destruct (python_architecture_returns w python s1) as [architecture Harch].
    unfold bind at 1. rewrite Hversion. unfold bind at 1. rewrite Harch.
    unfold __init__, uuid.uuid1, with_probe, setdefault_Description, _import. unfold_M.
    destruct (truthy architecture), (truthy version),
      (exists_ w (ntpath.join root ["Scripts"; "pythonw.exe"]));
      destruct kw as [? ? ? ? ? [description|] ? ? ? ? ? ?];
      (do 2 eexists; split; [reflexivity|];
       split; [reflexivity | intros Hd; first [discriminate Hd | reflexivity]]).
Qed.

Lemma environment_follows_its_base_witness :
  from_virtual_environment Sample.world "C:\envs\lost" Sample.vs15 Sample.installed =
    (Sample.installed, Return None)
  ∧ ∃ s2 interpreter,
      from_virtual_environment Sample.world "C:\envs\myenv" Sample.vs15 Sample.installed =
        (s2, Return (Some interpreter))
      ∧ BaseInterpreter interpreter = UUID 1
      ∧ Description interpreter = "myenv (Python39)".
Proof.
  split.
  - destruct (environment_follows_its_base Sample.world "C:\envs\lost" Sample.vs15
                Sample.installed "C:\Gone") as [H _];
      [reflexivity | reflexivity | vm_compute; reflexivity |].
    apply H. vm_compute. reflexivity.
  - destruct (environment_follows_its_base Sample.world "C:\envs\myenv" Sample.vs15
                Sample.installed "C:\Python39") as [_ H];
      [reflexivity | reflexivity | vm_compute; reflexivity |].
    destruct (H (fst (from_python_installation Sample.world "C:\Python39" Sample.vs15
                        Sample.installed))
                (_import Sample.world (UUID 1)
                   (Kwargs None None (Some "x64") (Some "3.9") (Some "C:\Python39")
                      (Some "Python39") (Some "python.exe") None (Some "pythonw.exe") None
                      None (Some "15.0"))))
      as (s2 & interpreter & Hrun & Hbase & Hdescription); [vm_compute; reflexivity|].
    exists s2, interpreter. split; [exact Hrun|]. split; [exact Hbase|].
    apply Hdescription. reflexivity.
Defined.

(** ** Installations *)

(** What reconciliation may change in a descriptor is its identity. *)
Lemma resolve_loop_result (w : World) (self : PTVSInterpreter) (regkey_name regkey : string)
    (range : list nat) (s s' : state) (d : PTVSInterpreter) :
  resolve_loop w self regkey_name regkey range s = (s', Return d) →
  d = self ∨ ∃ g, d = with_identity g self.
Proof.
  revert s. induction range as [|i rest IH]; intros s H.
  - left. unfold resolve_loop in H. unfold_M. congruence.
  - simpl in H. unfold mbind, M_bind, bind in H.
    destruct (winreg.EnumKey w regkey i s) as [s1 [name|e]]; [|discriminate].
    destruct (from_registry_key w _ s1) as [s2 [[it|]|e]]; [| |discriminate].
    + destruct (String.eqb _ _).
      * destruct (uuid.UUID_ (GUID it) s2) as [s3 [g|e]]; [|discriminate].
        right. exists g. unfold mret, M_ret, ret in H. congruence.
      * eauto.
    + eauto.
Qed.

Lemma resolve_result (w : World) (self : PTVSInterpreter) (s s' : state)
    (d : PTVSInterpreter) :
  resolve w self s = (s', Return d) →
  d = self ∨ ∃ g, d = with_identity g self.
Proof.
  unfold resolve. destruct (truthy (VSVersion self)); decide_tests; [|discriminate].
  unfold mbind, M_bind, bind, try_except.
  destruct (winreg.OpenKey w _ s) as [s1 [h|e]]; [|destruct (is_WindowsError e); discriminate].
  destruct (winreg.CreateKey w _ s1) as [s2 [regkey|e]]; [|discriminate].
  destruct (winreg.QueryInfoKey w regkey s2) as [s3 [n|e]].
  - destruct (resolve_loop w self _ regkey (seq 0 n) s3) as [s4 [d'|e]] eqn:E.
    + intros H. apply resolve_loop_result in E. injection H as _ <-. exact E.
    + destruct (is_WindowsError e); [|discriminate]. unfold mret, M_ret, ret. left. congruence.
  - destruct (is_WindowsError e); [|discriminate]. unfold mret, M_ret, ret. left. congruence.
Qed.




(** ** Sections of the configuration *)

Lemma comprehension_length {A B} (f : A → M B) (paths : list A) (s s' : state)
    (l : list B) :
  comprehension f paths s = (s', Return l) → length l = length paths.
Proof.
  revert s l. induction paths as [|p rest IH]; intros s l H.
  - unfold comprehension in H. unfold_M. injection H as _ <-. reflexivity.
  - simpl in H. unfold mbind, M_bind, bind in H.
    destruct (f p s) as [s1 [x|e]]; [|discriminate].
    destruct (comprehension f rest s1) as [s2 [xs|e]] eqn:E; [|discriminate].
    unfold mret, M_ret, ret in H. injection H as <- <-. simpl. f_equal.
    exact (IH _ _ E).
Qed.

(** The objects of a list that are not [None], after a change made to each *)
Lemma omap_fmap {A} (f : A → A) (l : list (option A)) :
  omap id (map (fmap f) l) = map f (omap id l).
Proof.
  induction l as [|[x|] l IH]; [reflexivity| |exact IH].
  cbn [map fmap option_fmap option_map omap list_omap id]. simpl. f_equal. exact IH.
Qed.

(** A loop over a fresh [filter] changes every object of its list and leaves
    nothing to yield. *)
Lemma for_each_filter (body : PTVSInterpreter → PTVSInterpreter)
    (l : list (option PTVSInterpreter)) :
  objects (for_each body (filter_None l)) = map body (omap id l)
  ∧ remaining (for_each body (filter_None l)) = [].
Proof.
  unfold filter_None, for_each, objects, remaining.
  rewrite take_0, drop_0. cbn [app]. split; [apply omap_fmap|].
  rewrite drop_ge by (rewrite length_map; lia). reflexivity.
Qed.

(** The run of [from_section] on a section the configuration holds *)
Lemma from_section_present (w : World) (config : Config) (section : string) (kw : kwargs)
    (s : state) :
  in_config config section = true →
  let body := λ i, with_Description (get config section "description" (Description i)) i in
  from_section w config section kw s =
    match getdirs config section "interpreter_paths" [],
          getdirs config section "environment_paths" [] with
    | path :: paths, _ =>
        match comprehension (λ p, from_python_installation w p kw) (path :: paths) s with
        | (s', Return l) => (s', Return (for_each body (filter_None l)))
        | (s', Raise e) => (s', Raise e)
        end
    | [], path :: paths =>
        match comprehension (λ p, from_virtual_environment w p kw) (path :: paths) s with
        | (s', Return l) => (s', Return (for_each body (filter_None l)))
        | (s', Raise e) => (s', Raise e)
        end
    | [], [] => (s, Return (PyList []))
    end.
Proof.
  intros Hin body. unfold from_section. rewrite Hin. decide_tests.
  destruct (getdirs config section "interpreter_paths" []) as [|p ps].
  - destruct (getdirs config section "environment_paths" []) as [|p ps]; [reflexivity|].
    unfold mbind, M_bind, bind.
    destruct (comprehension _ (p :: ps) s) as [s' [l|e]]; reflexivity.
  - unfold mbind, M_bind, bind.
    destruct (comprehension _ (p :: ps) s) as [s' [l|e]]; reflexivity.
Qed.

(** C1, as the code has it.  For every configuration and section name: when
    the section is absent, neither the default section nor a listed one,
    [from_section] raises a [ValueError] that names it.  Otherwise the paths
    are those of the installation list when it is not empty and those of the
    environment list when the installation list is absent or empty; they are
    resolved in order, one result per path.  An exception raised by a
    resolution is raised by [from_section]; when every resolution returns,
    [from_section] returns, and the descriptors its answer was made over are
    those of the paths that resolved, in order, each with the description of
    the section when the section sets one and with its own otherwise. *)
Theorem from_section_outcomes (w : World) (config : Config) (section : string)
    (kw : kwargs) (s : state) :
  (in_config config section = false →
   from_section w config section kw s =
     (s, Raise (ValueError ("Section [" +:+ section +:+ "] not found in [" +:+
                            Str.join ", " (sections config) +:+ "]"))))
  ∧ (in_config config section = true →
     let interpreter_paths := getdirs config section "interpreter_paths" [] in
     let environment_paths := getdirs config section "environment_paths" [] in
     let paths :=
       match interpreter_paths with
       | _ :: _ => interpreter_paths
       | [] => environment_paths
       end in
     let factory :=
       match interpreter_paths with
       | _ :: _ => from_python_installation w
       | [] => from_virtual_environment w
       end in
     match comprehension (λ p, factory p kw) paths s with
     | (s', Return l) =>
         length l = length paths
         ∧ ∃ r, from_section w config section kw s = (s', Return r)
                ∧ objects r =
                  map (λ i, with_Description
                              (default (Description i)
                                 (plain_option config section "description")) i)
                      (omap id l)
     | (s', Raise e) => from_section w config section kw s = (s', Raise e)
     end).
Proof.
  split.
  - intros Hin. unfold from_section. rewrite Hin. reflexivity.
  - intros Hin interpreter_paths environment_paths paths factory.
    rewrite (from_section_present w config section kw s Hin). cbv zeta.
    fold interpreter_paths. fold environment_paths.
    subst paths factory. unfold get.
    destruct interpreter_paths as [|p ps].
    + destruct environment_paths as [|p ps].
      * unfold comprehension. unfold_M. split; [reflexivity|].
        eexists. split; reflexivity.
      * destruct (comprehension _ (p :: ps) s) as [s' [l|e]] eqn:E; [|reflexivity].
        split; [exact (comprehension_length _ _ _ _ _ E)|].
        eexists. split; [reflexivity|]. apply for_each_filter.
    + destruct (comprehension _ (p :: ps) s) as [s' [l|e]] eqn:E; [|reflexivity].
      split; [exact (comprehension_length _ _ _ _ _ E)|].
      eexists. split; [reflexivity|]. apply for_each_filter.
Qed.

Lemma from_section_outcomes_witness :
  (∃ msg, from_section Sample.world Sample.config "nope" Sample.vs15 Sample.installed =
          (Sample.installed, Raise (ValueError msg)))
  ∧ match comprehension (λ p, from_virtual_environment Sample.world p Sample.vs15)
            ["C:\envs\myenv"; "C:\envs\orphan"] Sample.installed with
    | (s', Return l) =>
        ∃ r, from_section Sample.world Sample.config "envs" Sample.vs15 Sample.installed =
               (s', Return r)
             ∧ objects r = map (with_Description "Team environment") (omap id l)
    | (s', Raise e) =>
        from_section Sample.world Sample.config "envs" Sample.vs15 Sample.installed =
          (s', Raise e)
    end.
Proof.
  split.
  - destruct (from_section_outcomes Sample.world Sample.config "nope" Sample.vs15
                Sample.installed) as [H _].
    eexists. apply H. vm_compute. reflexivity.
  - destruct (from_section_outcomes Sample.world Sample.config "envs" Sample.vs15
                Sample.installed) as [_ H].
    specialize (H ltac:(vm_compute; reflexivity)).
    cbv zeta in H.
    change (getdirs Sample.config "envs" "interpreter_paths" []) with (@nil string) in H.
    change (getdirs Sample.config "envs" "environment_paths" [])
      with ["C:\envs\myenv"; "C:\envs\orphan"] in H.
    cbv beta iota in H.
    destruct (comprehension _ _ Sample.installed) as [s' [l|e]]; [|exact H].
    destruct H as [_ H]. exact H.
Defined.

(** Two inputs at which the specification's wording fails: a section that is present
    and yet no sequence is returned, because a resolution raises; and a
    section whose installation list is present but empty, for which the
    descriptors are made from the environment list. *)
Lemma from_section_raises_or_falls_back :
  (in_config Sample.config "vsgen.ptvs" = true
   ∧ snd (from_section Sample.world Sample.config "vsgen.ptvs" no_kwargs Sample.installed) =
     Raise (ValueError "Cannot resolve interpreter with invalid Visual Studio Version"))
  ∧ (in_config Sample.config "envs" = true
     ∧ dirs_option Sample.config "envs" "interpreter_paths" = Some []
     ∧ Path <$> from_option objects [] (match snd (from_section Sample.world Sample.config
                                                     "envs" Sample.vs15 Sample.installed) with
                                        | Return r => Some r
                                        | Raise _ => None
                                        end) = ["C:\envs\myenv"]).
Proof.
  split; [split|split; [|split]]; vm_compute; reflexivity.
Qed.

(** ** Registration *)

Lemma create_key_lookup (fuel : nat) (name : string) (reg : gmap string regkey) :
  is_Some (winreg.create_key fuel name reg !! name).
Proof.
  destruct fuel; simpl; destruct (reg !! name) eqn:E;
    rewrite ?E; try (eexists; reflexivity); rewrite lookup_insert_eq; eexists; reflexivity.
Qed.

Lemma set_value_lookup (key name value : string) (reg : gmap string regkey) (k : regkey) :
  reg !! key = Some k →
  winreg.set_value key name value reg !! key =
    Some (RegKey (subkeys k) (<[name := value]> (values k))).
Proof.
  intros H. unfold winreg.set_value. rewrite lookup_alter_eq, H. reflexivity.
Qed.

Lemma SetValueEx_allowed (w : World) (key name value : string) (reg : gmap string regkey)
    (clock : N) (k : regkey) :
  refused w (RegSet key name) = false →
  reg !! key = Some k →
  winreg.SetValueEx w key name value (State reg clock) =
    (State (winreg.set_value key name value reg) clock, Return tt).
Proof.
  intros Hr Hk. unfold winreg.SetValueEx. rewrite Hr. simpl. rewrite Hk. reflexivity.
Qed.

Lemma SetValueEx_refused (w : World) (key name value : string) (s : state) :
  refused w (RegSet key name) = true →
  winreg.SetValueEx w key name value s = (s, Raise WindowsError).
Proof. intros Hr. unfold winreg.SetValueEx. rewrite Hr. reflexivity. Qed.

(** The run of [register] once its preconditions hold *)
Lemma register_run (w : World) (self : PTVSInterpreter) (s : state) :
  let version := default "" (VSVersion self) in
  let key := interpreter_regkey_name self in
  truthy (VSVersion self) = true →
  refused w (RegOpen (ntpath.dirname (_regkey_name version))) = false →
  is_Some (registry s !! ntpath.dirname (_regkey_name version)) →
  ∃ s',
    register w self s = (s', Return (writes_allowed w self))
    ∧ (writes_allowed w self = true →
       ∃ entry,
         registry s' !! key = Some entry
         ∧ values entry !! "Architecture" = Some (Architecture self)
         ∧ values entry !! "Description" = Some (Description self)
         ∧ values entry !! "InterpreterPath" = Some (InterpreterAbsPath self)
         ∧ values entry !! "Version" = Some (Version self)
         ∧ values entry !! "WindowsInterpreterPath" = Some (WindowsInterpreterAbsPath self)
         ∧ values entry !! "PathEnvironmentVariable" = Some (PathEnvironmentVariable self)).
Proof.
  intros version key Hv Hopen [root Hroot].
  unfold register. rewrite Hv. decide_tests. fold version. fold key.
  unfold writes_allowed, write_ops. fold key. cbn [forallb].
  unfold mbind, M_bind, bind, try_except.
  unfold winreg.OpenKey at 1. rewrite Hopen, Hroot.
  unfold winreg.CreateKey at 1.
  destruct (refused w (RegCreate key)) eqn:Hc; [eexists; split; [reflexivity|discriminate]|].
  destruct (create_key_lookup (String.length key) key (registry s)) as [k0 Hk0].
  destruct (refused w (RegSet key "Architecture")) eqn:H1;
    [rewrite (SetValueEx_refused _ _ _ _ _ H1); eexists; split; [reflexivity|discriminate]|].
  rewrite (SetValueEx_allowed _ _ _ _ _ _ _ H1 Hk0).
  pose proof (set_value_lookup key "Architecture" (Architecture self) _ _ Hk0) as Hk1.
  destruct (refused w (RegSet key "Description")) eqn:H2;
    [rewrite (SetValueEx_refused _ _ _ _ _ H2); eexists; split; [reflexivity|discriminate]|].
  rewrite (SetValueEx_allowed _ _ _ _ _ _ _ H2 Hk1).
  pose proof (set_value_lookup key "Description" (Description self) _ _ Hk1) as Hk2.
  destruct (refused w (RegSet key "InterpreterPath")) eqn:H3;
    [rewrite (SetValueEx_refused _ _ _ _ _ H3); eexists; split; [reflexivity|discriminate]|].
  rewrite (SetValueEx_allowed _ _ _ _ _ _ _ H3 Hk2).
  pose proof (set_value_lookup key "InterpreterPath" (InterpreterAbsPath self) _ _ Hk2) as Hk3.
  destruct (refused w (RegSet key "Version")) eqn:H4;
    [rewrite (SetValueEx_refused _ _ _ _ _ H4); eexists; split; [reflexivity|discriminate]|].
  rewrite (SetValueEx_allowed _ _ _ _ _ _ _ H4 Hk3).
  pose proof (set_value_lookup key "Version" (Version self) _ _ Hk3) as Hk4.
  destruct (refused w (RegSet key "WindowsInterpreterPath")) eqn:H5;
    [rewrite (SetValueEx_refused _ _ _ _ _ H5); eexists; split; [reflexivity|discriminate]|].
  rewrite (SetValueEx_allowed _ _ _ _ _ _ _ H5 Hk4).
  pose proof (set_value_lookup key "WindowsInterpreterPath" (WindowsInterpreterAbsPath self)
                _ _ Hk4) as Hk5.
  destruct (refused w (RegSet key "PathEnvironmentVariable")) eqn:H6;
    [rewrite (SetValueEx_refused _ _ _ _ _ H6); eexists; split; [reflexivity|discriminate]|].
  rewrite (SetValueEx_allowed _ _ _ _ _ _ _ H6 Hk5).
  pose proof (set_value_lookup key "PathEnvironmentVariable" (PathEnvironmentVariable self)
                _ _ Hk5) as Hk6.
  eexists. split; [reflexivity|]. intros _.
  eexists. split; [exact Hk6|]. cbn [values subkeys].
  repeat split.
  - do 5 (rewrite lookup_insert_ne by discriminate). apply lookup_insert_eq.
  - do 4 (rewrite lookup_insert_ne by discriminate). apply lookup_insert_eq.
  - do 3 (rewrite lookup_insert_ne by discriminate). apply lookup_insert_eq.
  - do 2 (rewrite lookup_insert_ne by discriminate). apply lookup_insert_eq.
  - rewrite lookup_insert_ne by discriminate. apply lookup_insert_eq.
  - apply lookup_insert_eq.
Qed.


(** A registration that returned [True] wrote the windowed path. *)
Lemma register_true_windowed (w : World) (self : PTVSInterpreter) (s s' : state) :
  register w self s = (s', Return true) →
  ∃ entry,
    registry s' !! interpreter_regkey_name self = Some entry
    ∧ values entry !! "WindowsInterpreterPath" = Some (WindowsInterpreterAbsPath self).
Proof.
  intros Hrun.
  destruct (truthy (VSVersion self)) eqn:Hv;
    [|unfold register in Hrun; rewrite Hv in Hrun; discriminate Hrun].
  destruct (refused w (RegOpen (ntpath.dirname (_regkey_name (default "" (VSVersion self))))))
    eqn:Hopen.
  { unfold register in Hrun. rewrite Hv in Hrun. revert Hrun. decide_tests.
    unfold mbind, M_bind, bind, try_except. unfold winreg.OpenKey at 1. rewrite Hopen.
    discriminate. }
  destruct (registry s !! ntpath.dirname (_regkey_name (default "" (VSVersion self))))
    as [root|] eqn:Hroot.
  - destruct (register_run w self s Hv Hopen (ex_intro _ root Hroot))
      as (s'' & Hrun' & Hentry).
    rewrite Hrun in Hrun'. injection Hrun' as <- Hallowed.
    destruct (Hentry (eq_sym Hallowed)) as (entry & Hkey & _ & _ & _ & _ & Hwindowed & _).
    exists entry. split; assumption.
  - unfold register in Hrun. rewrite Hv in Hrun. revert Hrun. decide_tests.
    unfold mbind, M_bind, bind, try_except. unfold winreg.OpenKey at 1.
    rewrite Hopen, Hroot. discriminate.
Qed.

(** C5. For every descriptor whose Visual Studio version is set and whose
    Python tools key opens: the entry key is the catalog root of the version
    followed by the identity in lower case within braces; [register] returns
    a boolean and does not raise; it returns [True] exactly when the system
    lets every call of the write phase through, and the entry then holds the
    six fields of the descriptor as string values; it returns [False] when a
    call of the write phase is refused. *)
Theorem register_writes_the_descriptor (w : World) (self : PTVSInterpreter) (s : state) :
  let version := default "" (VSVersion self) in
  let key := interpreter_regkey_name self in
  truthy (VSVersion self) = true →
  refused w (RegOpen (ntpath.dirname (_regkey_name version))) = false →
  is_Some (registry s !! ntpath.dirname (_regkey_name version)) →
  key = _regkey_name version +:+ ntpath.sep +:+ "{" +:+ Str.lower (text (GUID self)) +:+ "}"
  ∧ ∃ s',
      register w self s = (s', Return (writes_allowed w self))
      ∧ (writes_allowed w self = true →
         ∃ entry,
           registry s' !! key = Some entry
           ∧ values entry !! "Architecture" = Some (Architecture self)
           ∧ values entry !! "Description" = Some (Description self)
           ∧ values entry !! "InterpreterPath" = Some (InterpreterAbsPath self)
           ∧ values entry !! "Version" = Some (Version self)
           ∧ values entry !! "WindowsInterpreterPath" = Some (WindowsInterpreterAbsPath self)
           ∧ values entry !! "PathEnvironmentVariable" = Some (PathEnvironmentVariable self)).
Proof.
  intros version key Hv Hopen Hroot. split; [reflexivity|].
  exact (register_run w self s Hv Hopen Hroot).
Qed.

Lemma register_writes_the_descriptor_witness :
  (∃ s' entry,
     register Sample.world Sample.python27 Sample.installed = (s', Return true)
     ∧ registry s' !! interpreter_regkey_name Sample.python27 = Some entry
     ∧ values entry !! "InterpreterPath" = Some "C:\Python27\python.exe"
     ∧ values entry !! "Description" = Some "Python27")
  ∧ ∃ s', register Sample.read_only Sample.python27 Sample.installed = (s', Return false).
Proof.
  split.
  - destruct (register_writes_the_descriptor Sample.world Sample.python27 Sample.installed)
      as [_ (s' & Hrun & Hentry)];
      [reflexivity | reflexivity | vm_compute; eexists; reflexivity |].
    destruct (Hentry eq_refl) as (entry & Hkey & _ & Hdescription & Hpath & _).
    exists s', entry. split; [exact Hrun|]. split; [exact Hkey|].
    split; [exact Hpath | exact Hdescription].
  - destruct (register_writes_the_descriptor Sample.read_only Sample.python27
                Sample.installed)
      as [_ (s' & Hrun & _)];
      [reflexivity | reflexivity | vm_compute; eexists; reflexivity |].
    exists s'. exact Hrun.
Defined.

(** ** The preconditions of [resolve] and [register] *)

(** C3, as the code has it.  On every descriptor, [resolve] and [register]
    fail with a [ValueError] about the Visual Studio version when [VSVersion]
    is unset (or empty), and with a [ValueError] about the missing Python
    tools when [VSVersion] is set and the key of the Python tools of that
    version, the parent of the catalog root, is not in the registry.  Neither
    failure changes the state.  When that parent key opens, a catalog root
    that is not in the registry is no error: [register] returns its boolean,
    and [resolve], when the system lets it create the root, creates it empty
    and returns the descriptor as it is. *)
Theorem resolve_register_preconditions (w : World) (self : PTVSInterpreter) (s : state) :
  let version := default "" (VSVersion self) in
  let root := _regkey_name version in
  let tools := ntpath.dirname root in
  (truthy (VSVersion self) = false →
   resolve w self s =
     (s, Raise (ValueError "Cannot resolve interpreter with invalid Visual Studio Version"))
   ∧ register w self s =
     (s, Raise (ValueError "Cannot register interpreter with invalid Visual Studio Version")))
  ∧ (truthy (VSVersion self) = true →
     registry s !! tools = None →
     resolve w self s =
       (s, Raise (ValueError
                    ("Cannot resolve the registry path HKCU" +:+ ntpath.sep +:+ tools +:+
                     " for Visual Studio " +:+ version +:+ "'s PTVS.  Is PTVS installed?")))
     ∧ register w self s =
       (s, Raise (ValueError
                    ("Cannot register interpreter with Visual Studio " +:+ version +:+
                     " that is not installed."))))
  ∧ (truthy (VSVersion self) = true →
     is_Some (registry s !! tools) →
     refused w (RegOpen tools) = false →
     registry s !! root = None →
     (∃ s', register w self s = (s', Return (writes_allowed w self)))
     ∧ (refused w (RegCreate root) = false →
        ∃ s', resolve w self s = (s', Return self)
              ∧ registry s' !! root = Some (RegKey [] ∅))).
Proof.
  intros version root tools. split; [|split].
  - intros Hv. unfold resolve, register. rewrite Hv. split; reflexivity.
  - intros Hv Hroot. unfold resolve, register. rewrite Hv. decide_tests.
    fold version. fold root. fold tools.
    unfold_M. unfold winreg.OpenKey. rewrite Hroot.
    destruct (refused w _); split; reflexivity.
  - intros Hv Htools Hopen Hroot. split.
    + destruct (register_run w self s Hv Hopen Htools) as (s' & Hrun & _).
      exists s'. exact Hrun.
    + intros Hcreate. destruct Htools as [k Htools].
      unfold resolve. rewrite Hv. decide_tests. fold version. fold root. fold tools.
      unfold mbind, M_bind, bind, try_except.
      unfold winreg.OpenKey at 1. rewrite Hopen, Htools.
      unfold winreg.CreateKey at 1. rewrite Hcreate.
      assert (Hnew : winreg.create_key (String.length root) root (registry s) !! root =
                     Some (RegKey [] ∅)).
      { destruct (String.length root); cbn [winreg.create_key]; rewrite Hroot;
          apply lookup_insert_eq. }
      unfold winreg.QueryInfoKey at 1. cbn [registry]. rewrite Hnew.
      destruct (refused w (RegQueryInfo root)).
      * cbn [is_WindowsError]. unfold mret, M_ret, ret.
        eexists. split; [reflexivity|exact Hnew].
      * cbn [subkeys length seq resolve_loop]. unfold mret, M_ret, ret.
        eexists. split; [reflexivity|exact Hnew].
Qed.

Lemma resolve_register_preconditions_witness :
  (∃ e, snd (resolve Sample.world (_import Sample.world (UUID 7) no_kwargs) Sample.bare)
        = Raise (ValueError e))
  ∧ (∃ e, snd (register Sample.world (_import Sample.world (UUID 7) Sample.vs15) Sample.bare)
          = Raise (ValueError e))
  ∧ (∃ s', resolve Sample.world Sample.python39 Sample.installed =
           (s', Return Sample.python39)).
Proof.
  split; [|split].
  - destruct (resolve_register_preconditions Sample.world
                (_import Sample.world (UUID 7) no_kwargs) Sample.bare) as [H _].
    destruct H as [H _]; [reflexivity|]. rewrite H. eexists. reflexivity.
  - destruct (resolve_register_preconditions Sample.world
                (_import Sample.world (UUID 7) Sample.vs15) Sample.bare) as (_ & H & _).
    destruct H as [_ H]; [reflexivity|vm_compute; reflexivity|]. rewrite H. eexists. reflexivity.
  - destruct (resolve_register_preconditions Sample.world Sample.python39 Sample.installed)
      as (_ & _ & H).
    destruct H as [_ H];
      [reflexivity | vm_compute; eexists; reflexivity | reflexivity | vm_compute; reflexivity |].
    destruct (H eq_refl) as (s' & Hrun & _). exists s'. exact Hrun.
Defined.

(** An input at which the specification's wording fails: the version is set
    and the catalog root of that version, the key of the interpreters, is not
    in the registry, only the key of the Python tools above it; [resolve]
    returns the descriptor and [register] returns [True]. *)
Lemma absent_catalog_root_is_no_error :
  truthy (VSVersion Sample.python39) = true
  ∧ registry Sample.installed !! _regkey_name (default "" (VSVersion Sample.python39)) = None
  ∧ snd (resolve Sample.world Sample.python39 Sample.installed) = Return Sample.python39
  ∧ snd (register Sample.world Sample.python39 Sample.installed) = Return true.
Proof.
  split; [reflexivity|]. split; [vm_compute; reflexivity|].
  split; vm_compute; reflexivity.
Qed.

(** ** Facts about paths *)

Section PathFacts.

Lemma str_app_cons (a : ascii) (s t : string) : String a s +:+ t = String a (s +:+ t).
Proof. reflexivity. Qed.

Lemma str_app_nil_r (s : string) : s +:+ "" = s.
Proof. induction s as [|a s IH]; [reflexivity|]. rewrite str_app_cons, IH. reflexivity. Qed.

Lemma str_app_assoc (s t u : string) : (s +:+ t) +:+ u = s +:+ (t +:+ u).
Proof.
  induction s as [|a s IH]; [reflexivity|]. rewrite !str_app_cons, IH. reflexivity.
Qed.

Lemma splitdrive_app (p : string) :
  fst (ntpath.splitdrive p) +:+ snd (ntpath.splitdrive p) = p.
Proof.
  destruct p as [|c1 [|c2 r]]; try reflexivity.
  unfold ntpath.splitdrive. destruct (Ascii.eqb c2 ":"); reflexivity.
Qed.

Lemma drive_shape (p : string) :
  fst (ntpath.splitdrive p) = "" ∨ ∃ c, fst (ntpath.splitdrive p) = String c (String ":" "").
Proof.
  destruct p as [|c1 [|c2 r]]; try (left; reflexivity).
  unfold ntpath.splitdrive. destruct (Ascii.eqb c2 ":") eqn:E; [|left; reflexivity].
  right. exists c1. apply Ascii.eqb_eq in E. subst. reflexivity.
Qed.

Lemma splitdrive_of_drive (c : ascii) (r : string) :
  ntpath.splitdrive (String c (String ":" "") +:+ r) = (String c (String ":" ""), r).
Proof. reflexivity. Qed.

Lemma splitdrive_app_sep (p : string) :
  snd (ntpath.splitdrive p) ≠ "" →
  ntpath.splitdrive (p +:+ ntpath.sep) =
    (fst (ntpath.splitdrive p), snd (ntpath.splitdrive p) +:+ ntpath.sep).
Proof.
  destruct p as [|c1 [|c2 r]]; intros H.
  - destruct H. reflexivity.
  - reflexivity.
  - rewrite !str_app_cons. unfold ntpath.splitdrive. destruct (Ascii.eqb c2 ":"); reflexivity.
Qed.

Lemma ends_plain_nonempty (s : string) : ends_plain s = true → s ≠ "".
Proof. intros H ->. discriminate H. Qed.

Lemma ends_plain_test (s : string) :
  negb (String.eqb s "") && negb (ntpath.ends_with_sep s) = ends_plain s.
Proof.
  unfold ends_plain, ntpath.ends_with_sep. destruct s as [|a s]; [reflexivity|].
  change (String.eqb (String a s) "") with false.
  destruct (Str.last (String a s)) eqn:E; [reflexivity|].
  exfalso. revert a E. induction s as [|b s IH]; intros a E; [discriminate|].
  exact (IH b E).
Qed.

Lemma last_app_plain (s t : string) : t ≠ "" → Str.last (s +:+ t) = Str.last t.
Proof.
  intros Ht. induction s as [|a s IH]; [reflexivity|].
  rewrite str_app_cons. simpl. destruct (s +:+ t) eqn:E; [|exact IH].
  destruct s; [|discriminate E]. destruct Ht. exact E.
Qed.

Lemma ends_plain_app (s t : string) : ends_plain t = true → ends_plain (s +:+ t) = true.
Proof.
  intros H. unfold ends_plain. rewrite last_app_plain by exact (ends_plain_nonempty _ H).
  exact H.
Qed.

Lemma starts_with_sep_app (s t : string) :
  s ≠ "" → ntpath.starts_with_sep (s +:+ t) = ntpath.starts_with_sep s.
Proof. destruct s; [congruence|reflexivity]. Qed.

Lemma replace_app (a b : ascii) (s t : string) :
  Str.replace_char a b (s +:+ t) = Str.replace_char a b s +:+ Str.replace_char a b t.
Proof.
  induction s as [|c s IH]; [reflexivity|].
  rewrite str_app_cons. simpl. rewrite IH. reflexivity.
Qed.

Lemma is_sep_replace (c : ascii) :
  ntpath.is_sep (if Ascii.eqb c "/" then Str.bslash else c) = ntpath.is_sep c.
Proof.
  destruct (Ascii.eqb c "/") eqn:E; [|reflexivity].
  apply Ascii.eqb_eq in E. subst. reflexivity.
Qed.

Lemma last_replace (s : string) :
  Str.last (Str.replace_char "/" Str.bslash s) =
  (λ c, if Ascii.eqb c "/" then Str.bslash else c) <$> Str.last s.
Proof.
  induction s as [|a s IH]; [reflexivity|].
  simpl. destruct s as [|b s]; [reflexivity|]. exact IH.
Qed.

Lemma ends_plain_replace (s : string) :
  ends_plain (Str.replace_char "/" Str.bslash s) = ends_plain s.
Proof.
  unfold ends_plain. rewrite last_replace. destruct (Str.last s) as [c|]; [|reflexivity].
  simpl. rewrite is_sep_replace. reflexivity.
Qed.

Lemma splitdrive_replace (y : string) :
  ntpath.splitdrive (Str.replace_char "/" Str.bslash y) =
    (Str.replace_char "/" Str.bslash (fst (ntpath.splitdrive y)),
     Str.replace_char "/" Str.bslash (snd (ntpath.splitdrive y))).
Proof.
  destruct y as [|c1 [|c2 r]]; try reflexivity.
  simpl. destruct (Ascii.eqb c2 "/") eqn:E.
  - apply Ascii.eqb_eq in E. subst. reflexivity.
  - destruct (Ascii.eqb c2 ":"); simpl; rewrite ?E; reflexivity.
Qed.

Lemma lstrip_app (s t : string) :
  ends_plain s = true →
  Str.lstrip_by (Ascii.eqb Str.bslash) (s +:+ t) = Str.lstrip_by (Ascii.eqb Str.bslash) s +:+ t
  ∧ ends_plain (Str.lstrip_by (Ascii.eqb Str.bslash) s) = true.
Proof.
  induction s as [|a s IH]; intros H; [discriminate H|].
  rewrite str_app_cons. cbn [Str.lstrip_by]. destruct (Ascii.eqb Str.bslash a) eqn:E.
  - apply IH. destruct s as [|b s]; [|exact H].
    apply Ascii.eqb_eq in E. subst. discriminate H.
  - split; [reflexivity|exact H].
Qed.

Lemma split_nonempty (c : ascii) (s : string) : Str.split c s ≠ [].
Proof.
  destruct s as [|a s]; simpl; [discriminate|].
  destruct (Str.split c s); [discriminate|]. destruct (Ascii.eqb a c); discriminate.
Qed.

Lemma split_app_sep (q : string) :
  Str.split Str.bslash (q +:+ ntpath.sep) = (Str.split Str.bslash q ++ [""])%list.
Proof.
  induction q as [|a q IH]; [reflexivity|].
  rewrite str_app_cons. cbn [Str.split]. rewrite IH.
  pose proof (split_nonempty Str.bslash q) as Hne.
  destruct (Str.split Str.bslash q) as [|w ws]; [congruence|].
  cbn [app]. destruct (Ascii.eqb a Str.bslash); reflexivity.
Qed.

Lemma norm_comps_app_empty (rooted : bool) (kept comps : list string) :
  ntpath.norm_comps rooted kept (comps ++ [""])%list = ntpath.norm_comps rooted kept comps.
Proof.
  revert kept. induction comps as [|c rest IH]; intros kept; [reflexivity|].
  simpl. destruct (String.eqb c "" || String.eqb c "."); [apply IH|].
  destruct (String.eqb c "..").
  - destruct kept as [|prev kept'].
    + destruct rooted; apply IH.
    + destruct (String.eqb prev ".."); apply IH.
  - apply IH.
Qed.

(** [normpath] does not see a separator that ends a path. *)
Lemma normpath_trailing_sep (y : string) :
  ends_plain (snd (ntpath.splitdrive y)) = true →
  ntpath.normpath (y +:+ ntpath.sep) = ntpath.normpath y.
Proof.
  intros H. unfold ntpath.normpath.
  rewrite replace_app. change (Str.replace_char "/" Str.bslash ntpath.sep) with ntpath.sep.
  pose proof (splitdrive_replace y) as Hy.
  rewrite <- ends_plain_replace in H.
  destruct (ntpath.splitdrive (Str.replace_char "/" Str.bslash y)) as [d r] eqn:E.
  injection Hy as Hd Hr. rewrite <- Hr in H.
  rewrite splitdrive_app_sep; rewrite E; cbn [fst snd];
    [|exact (ends_plain_nonempty _ H)].
  rewrite starts_with_sep_app by exact (ends_plain_nonempty _ H).
  destruct (ntpath.starts_with_sep r).
  - destruct (lstrip_app r ntpath.sep H) as [-> _].
    rewrite split_app_sep, norm_comps_app_empty. reflexivity.
  - rewrite split_app_sep, norm_comps_app_empty. reflexivity.
Qed.

(** [join(p, '')] adds a separator to a path that ends in a name and
    returns any other path as it is. *)
Lemma join_empty (p : string) :
  ntpath.join p [""] =
  if ends_plain (snd (ntpath.splitdrive p)) then p +:+ ntpath.sep else p.
Proof.
  unfold ntpath.join. simpl fold_left.
  destruct (ntpath.splitdrive p) as [d r] eqn:E.
  unfold ntpath.join_step.
  change (ntpath.splitdrive "") with (EmptyString, EmptyString).
  cbv beta iota. change (ntpath.starts_with_sep "") with false.
  change (String.eqb "" "") with true. decide_tests.
  rewrite ends_plain_test. cbn [fst snd].
  pose proof (splitdrive_app p) as Hp. rewrite E in Hp. simpl in Hp.
  destruct (ends_plain r).
  - rewrite str_app_nil_r, <- str_app_assoc, Hp. reflexivity.
  - rewrite str_app_nil_r. exact Hp.
Qed.

(** Joined to a working directory that has a drive, a relative path with a
    separator added is the joined path with the separator added, and the
    joined path ends in a name when the relative path does. *)
Lemma join_cwd_trailing_sep (cwd p : string) :
  has_drive cwd = true →
  ntpath.isabs p = false →
  ends_plain (snd (ntpath.splitdrive p)) = true →
  ntpath.join cwd [p +:+ ntpath.sep] = ntpath.join cwd [p] +:+ ntpath.sep
  ∧ ends_plain (snd (ntpath.splitdrive (ntpath.join cwd [p]))) = true.
Proof.
  unfold has_drive, ntpath.isabs, ntpath.join. intros Hcwd Habs Hplain. simpl fold_left.
  unfold ntpath.join_step.
  rewrite (splitdrive_app_sep p) by exact (ends_plain_nonempty _ Hplain).
  destruct (drive_shape cwd) as [Hc|[c Hc]]; [rewrite Hc in Hcwd; discriminate Hcwd|].
  destruct (ntpath.splitdrive cwd) as [cd cp]. simpl in Hc. subst cd.
  destruct (drive_shape p) as [Hd|[c' Hd]];
    destruct (ntpath.splitdrive p) as [pd pp]; simpl in Hd, Habs, Hplain; subst pd;
    cbn [fst snd];
    rewrite (starts_with_sep_app pp ntpath.sep) by exact (ends_plain_nonempty _ Hplain);
    rewrite Habs.
  - change (String.eqb "" "") with true. decide_tests.
    destruct (negb (String.eqb cp "") && negb (ntpath.ends_with_sep cp)).
    + rewrite <- !str_app_assoc. split; [reflexivity|].
      rewrite !str_app_assoc, splitdrive_of_drive. cbn [fst snd].
      rewrite <- str_app_assoc. apply ends_plain_app. exact Hplain.
    + rewrite <- !str_app_assoc. split; [reflexivity|].
      rewrite !str_app_assoc, splitdrive_of_drive. cbn [fst snd].
      apply ends_plain_app. exact Hplain.
  - change (String.eqb (String c' (String ":" "")) "") with false. decide_tests.
    repeat match goal with
           | |- context [String.eqb ?a ?b] => destruct (String.eqb a b)
           | |- context [ntpath.ends_with_sep ?a] => destruct (ntpath.ends_with_sep a)
           end;
      decide_tests;
      (rewrite <- ?str_app_assoc; split; [reflexivity|]);
      rewrite ?str_app_assoc, splitdrive_of_drive; cbn [fst snd];
      rewrite <- ?str_app_assoc;
      first [exact Hplain | apply ends_plain_app; exact Hplain].
Qed.

(** In a working directory that has a drive, the absolute path of a
    directory joined with the empty string is the absolute path of the
    directory. *)
Lemma abspath_join_empty (cwd p : string) :
  has_drive cwd = true →
  ntpath.abspath cwd (ntpath.join p [""]) = ntpath.abspath cwd p.
Proof.
  intros Hcwd. rewrite join_empty.
  destruct (ends_plain (snd (ntpath.splitdrive p))) eqn:Hplain; [|reflexivity].
  unfold ntpath.abspath.
  assert (Habs : ntpath.isabs (p +:+ ntpath.sep) = ntpath.isabs p).
  { unfold ntpath.isabs.
    rewrite splitdrive_app_sep by exact (ends_plain_nonempty _ Hplain). cbn [fst snd].
    apply starts_with_sep_app. exact (ends_plain_nonempty _ Hplain). }
  rewrite Habs. destruct (ntpath.isabs p) eqn:E.
  - apply normpath_trailing_sep. exact Hplain.
  - destruct (join_cwd_trailing_sep cwd p Hcwd E Hplain) as [-> Hjoined].
    apply normpath_trailing_sep. exact Hjoined.
Qed.

End PathFacts.

(** ** The windowed interpreter *)

(** C10. On a machine whose working directory has a drive, every descriptor
    built from keyword arguments that hold no windowed interpreter path has
    the empty [WindowsInterpreterPath], and its [WindowsInterpreterAbsPath]
    is the absolute path of the installation root joined with that empty
    string, which is the absolute path of the installation root itself.  A
    registration of the descriptor that succeeds stores that directory as the
    [WindowsInterpreterPath] value of the entry.  In particular the
    descriptor [from_python_installation] returns for a root without
    [pythonw.exe] holds the root where the windowed interpreter should be. *)
Theorem windowed_path_defaults_to_root (w : World) (kw : kwargs) :
  has_drive (cwd w) = true →
  kw_WindowsInterpreterPath kw = None →
  kw_WindowsInterpreterAbsPath kw = None →
  (∀ fresh,
     let self := _import w fresh kw in
     WindowsInterpreterPath self = ""
     ∧ WindowsInterpreterAbsPath self = abspath w (ntpath.join (Path self) [""])
     ∧ WindowsInterpreterAbsPath self = abspath w (Path self)
     ∧ ∀ s s',
         register w self s = (s', Return true) →
         ∃ entry,
           registry s' !! interpreter_regkey_name self = Some entry
           ∧ values entry !! "WindowsInterpreterPath" = Some (abspath w (Path self)))
  ∧ (∀ directory s s' interpreter,
       exists_ w (ntpath.join (abspath w directory) ["pythonw.exe"]) = false →
       from_python_installation w directory kw s = (s', Return (Some interpreter)) →
       WindowsInterpreterPath interpreter = ""
       ∧ WindowsInterpreterAbsPath interpreter = abspath w (abspath w directory)).
Proof.
  intros Hcwd Hrel Habs.
  assert (Himport : ∀ fresh args,
            kw_WindowsInterpreterPath args = None →
            kw_WindowsInterpreterAbsPath args = None →
            WindowsInterpreterPath (_import w fresh args) = ""
            ∧ WindowsInterpreterAbsPath (_import w fresh args) =
              abspath w (ntpath.join (Path (_import w fresh args)) [""])).
  { intros fresh args H1 H2. unfold _import. cbn [WindowsInterpreterPath
      WindowsInterpreterAbsPath Path]. rewrite H1, H2. split; reflexivity. }
  split.
  - intros fresh self. destruct (Himport fresh kw Hrel Habs) as [H1 H2]. fold self in H1, H2.
    assert (H3 : WindowsInterpreterAbsPath self = abspath w (Path self)).
    { rewrite H2. unfold abspath. apply abspath_join_empty. exact Hcwd. }
    split; [exact H1|]. split; [exact H2|]. split; [exact H3|].
    intros s s' Hrun. rewrite <- H3. exact (register_true_windowed w self s s' Hrun).
  - intros directory s s' interpreter Hnow Hrun.
    unfold from_python_installation in Hrun. rewrite Hnow in Hrun.
    destruct (exists_ w (abspath w (ntpath.join (abspath w directory) ["python.exe"])));
      revert Hrun; decide_tests; [|unfold mret, M_ret, ret; discriminate].
    destruct (python_version_returns w
                (abspath w (ntpath.join (abspath w directory) ["python.exe"])) s)
      as [version Hversion].
    destruct (python_architecture_returns w
                (abspath w (ntpath.join (abspath w directory) ["python.exe"])) s)
      as [architecture Harch].
    unfold __init__, uuid.uuid1. unfold_M.
    rewrite Hversion. cbv beta iota. rewrite Harch. cbv beta iota.
    destruct (resolve w _ _) as [s1 [d|e]] eqn:E; [|discriminate].
    intros Hrun. injection Hrun as _ <-.
    match type of E with
    | resolve w (_import w ?fresh ?args) _ = _ =>
        assert (Hargs : kw_WindowsInterpreterPath args = None
                        ∧ kw_WindowsInterpreterAbsPath args = None
                        ∧ kw_Path args = Some (abspath w directory));
        [|destruct Hargs as (Ha1 & Ha2 & Ha3);
          destruct (Himport fresh args Ha1 Ha2) as [H1 H2];
          assert (H3 : Path (_import w fresh args) = abspath w directory)
            by (unfold _import; cbn [Path]; rewrite Ha3; reflexivity)]
    end.
    { unfold with_probe, setdefault_Description.
      destruct (truthy architecture), (truthy version), kw as [? ? ? ? ? [?|] ? ? ? ? ? ?];
        simpl in Hrel, Habs; subst; repeat split; reflexivity. }
    rewrite H3 in H2. unfold abspath in H2 |- *.
    rewrite abspath_join_empty in H2 by exact Hcwd.
    apply resolve_result in E. destruct E as [->|[g ->]]; split; assumption.
Qed.

Lemma windowed_path_defaults_to_root_witness :
  WindowsInterpreterPath Sample.python27 = ""
  ∧ WindowsInterpreterAbsPath Sample.python27 = "C:\Python27"
  ∧ ∃ s' entry,
      register Sample.world Sample.python27 Sample.installed = (s', Return true)
      ∧ registry s' !! interpreter_regkey_name Sample.python27 = Some entry
      ∧ values entry !! "WindowsInterpreterPath" = Some "C:\Python27".
Proof.
  destruct (windowed_path_defaults_to_root Sample.world
              (Kwargs None None None None (Some "C:\Python27") (Some "Python27")
                 (Some "python.exe") None None None None (Some "15.0")))
    as [H _]; [reflexivity ..|].
  destruct (H (UUID 1)) as (Hrel & _ & Habs & Hreg).
  split; [exact Hrel|]. split; [exact Habs|].
  destruct (Hreg Sample.installed
              (fst (register Sample.world Sample.python27 Sample.installed)))
    as (entry & Hkey & Hvalue); [vm_compute; reflexivity|].
  exists (fst (register Sample.world Sample.python27 Sample.installed)), entry.
  split; [vm_compute; reflexivity|]. split; [exact Hkey | exact Hvalue].
Defined.

(** ** Reconciliation *)

Section Reconciliation.

Context (w : World).

Lemma bind_assoc {A B C} (m : M A) (f : A → M B) (g : B → M C) (s : state) :
  ((m ≫= f) ≫= g) s = (m ≫= (λ x, f x ≫= g)) s.
Proof.
  unfold mbind, M_bind, bind. destruct (m s) as [s' [a|e]]; reflexivity.
Qed.

Lemma reads_catalog_ret {A} (a : A) : reads_catalog (mret a).
Proof.
  intros reg. exists (Return a), 0%N. intros clock.
  unfold mret, M_ret, ret. rewrite N.add_0_r. reflexivity.
Qed.

Lemma reads_catalog_raise {A} (e : exn) : reads_catalog (@raise A e).
Proof.
  intros reg. exists (Raise e), 0%N. intros clock.
  unfold raise. rewrite N.add_0_r. reflexivity.
Qed.

Lemma reads_catalog_bind {A B} (m : M A) (k : A → M B) :
  reads_catalog m → (∀ a, reads_catalog (k a)) → reads_catalog (m ≫= k).
Proof.
  intros Hm Hk reg. destruct (Hm reg) as ([a|e] & n & Hr).
  - destruct (Hk a reg) as (r' & n' & Hr'). exists r', (n + n')%N. intros clock.
    unfold mbind, M_bind, bind. rewrite Hr, Hr', N.add_assoc. reflexivity.
  - exists (Raise e), n. intros clock. unfold mbind, M_bind, bind. rewrite Hr. reflexivity.
Qed.

Lemma reads_catalog_attempt {A} (m : M A) : reads_catalog m → reads_catalog (attempt m).
Proof.
  intros Hm reg. destruct (Hm reg) as (r & n & Hr). exists (Return r), n. intros clock.
  unfold attempt. rewrite Hr. reflexivity.
Qed.

Lemma reads_catalog_OpenKey (key : string) : reads_catalog (winreg.OpenKey w key).
Proof.
  intros reg. unfold winreg.OpenKey. cbn [registry].
  destruct (refused w (RegOpen key)); [|destruct (reg !! key)];
    eexists _, 0%N; intros clock; rewrite N.add_0_r; reflexivity.
Qed.

Lemma reads_catalog_EnumKey (key : string) (i : nat) : reads_catalog (winreg.EnumKey w key i).
Proof.
  intros reg. unfold winreg.EnumKey. cbn [registry].
  destruct (refused w (RegEnum key i)); [|destruct (reg !! key) as [k|];
    [destruct (subkeys k !! i)|]];
    eexists _, 0%N; intros clock; rewrite N.add_0_r; reflexivity.
Qed.

Lemma reads_catalog_QueryValueEx (key name : string) :
  reads_catalog (winreg.QueryValueEx w key name).
Proof.
  intros reg. unfold winreg.QueryValueEx. cbn [registry].
  destruct (refused w (RegQuery key name)); [|destruct (reg !! key) as [k|];
    [destruct (values k !! name)|]];
    eexists _, 0%N; intros clock; rewrite N.add_0_r; reflexivity.
Qed.

Lemma reads_catalog_read_values (regkey : string) (names : list value_name) (args : kwargs) :
  reads_catalog (read_values w regkey names args).
Proof.
  revert args. induction names as [|k rest IH]; intros args; [apply reads_catalog_ret|].
  cbn [read_values]. apply reads_catalog_bind.
  - apply reads_catalog_attempt, reads_catalog_QueryValueEx.
  - intros [v|e]; [apply IH|].
    destruct (is_WindowsError e); [apply reads_catalog_ret | apply reads_catalog_raise].
Qed.

(** With the identity given, the constructor's result does not depend on the
    identity it draws. *)
Lemma reads_catalog_init (args : kwargs) (g : guid) :
  kw_Id args = Some g → reads_catalog (__init__ w args).
Proof.
  intros Hid reg. exists (Return (_import w (UUID 0) args)), 1%N. intros clock.
  unfold __init__, uuid.uuid1. unfold_M. unfold _import. rewrite Hid. reflexivity.
Qed.

Lemma reads_catalog_from_registry_key (keyname : string) :
  reads_catalog (from_registry_key w keyname).
Proof.
  unfold from_registry_key. apply reads_catalog_bind.
  - apply reads_catalog_bind; [apply reads_catalog_attempt, reads_catalog_OpenKey|].
    intros [regkey|e].
    + apply reads_catalog_bind; [apply reads_catalog_read_values|].
      intros args. apply reads_catalog_bind; [apply reads_catalog_ret|].
      intros _. apply reads_catalog_ret.
    + destruct (is_WindowsError e); [apply reads_catalog_ret | apply reads_catalog_raise].
  - intros args. destruct (kw_InterpreterPath args) as [path|]; [|apply reads_catalog_ret].
    apply reads_catalog_bind; [|intros; apply reads_catalog_ret].
    eapply reads_catalog_init. reflexivity.
Qed.

(** One turn of the loop finds what [entry_at] says, whatever the clock. *)
Lemma entry_at_run (reg : gmap string regkey) (regkey_name : string) (i : nat) :
  ∃ n, ∀ clock,
    (name ← winreg.EnumKey w regkey_name i;
     from_registry_key w (regkey_name +:+ ntpath.sep +:+ name)) (State reg clock) =
    (State reg (clock + n)%N, entry_at w reg regkey_name i).
Proof.
  assert (H : reads_catalog
                (name ← winreg.EnumKey w regkey_name i;
                 from_registry_key w (regkey_name +:+ ntpath.sep +:+ name))).
  { apply reads_catalog_bind; [apply reads_catalog_EnumKey|].
    intros name. apply reads_catalog_from_registry_key. }
  destruct (H reg) as (r & n & Hr). exists n. intros clock.
  unfold entry_at. rewrite (Hr 0%N), (Hr clock). reflexivity.
Qed.

(** The loop of [resolve] is the scan of the entries it enumerates. *)
Lemma resolve_loop_scan (self : PTVSInterpreter) (regkey_name : string) (range : list nat)
    (reg : gmap string regkey) (clock : N) :
  ∃ n, resolve_loop w self regkey_name regkey_name range (State reg clock) =
       (State reg (clock + n)%N, scan self (map (entry_at w reg regkey_name) range)).
Proof.
  revert clock. induction range as [|i rest IH]; intros clock.
  - exists 0%N. rewrite N.add_0_r. reflexivity.
  - destruct (entry_at_run reg regkey_name i) as (n & Hrun).
    cbn [resolve_loop map scan]. rewrite <- bind_assoc.
    unfold mbind at 1, M_bind at 1, bind at 1. rewrite Hrun.
    destruct (entry_at w reg regkey_name i) as [[interpreter|]|e].
    + fold (same_path self interpreter). destruct (same_path self interpreter).
      * exists n. unfold uuid.UUID_. destruct (GUID interpreter) as [int|hex]; [reflexivity|].
        destruct (uuid.UUID_of hex); reflexivity.
      * destruct (IH (clock + n)%N) as (n' & ->). exists (n + n')%N.
        rewrite N.add_assoc. reflexivity.
    + destruct (IH (clock + n)%N) as (n' & ->). exists (n + n')%N.
      rewrite N.add_assoc. reflexivity.
    + exists n. reflexivity.
Qed.

Lemma scan_misses (self : PTVSInterpreter) (misses rest : list (outcome (option PTVSInterpreter))) :
  forallb (is_miss self) misses = true → scan self (misses ++ rest) = scan self rest.
Proof.
  induction misses as [|e misses IH]; intros H; [reflexivity|].
  cbn [forallb] in H. apply andb_prop in H. destruct H as [He H].
  cbn [app scan]. destruct e as [[interpreter|]|e]; cbn [is_miss] in He.
  - destruct (same_path self interpreter); [discriminate He|]. exact (IH H).
  - exact (IH H).
  - discriminate He.
Qed.

(** The run of [resolve] once its preconditions hold and the key of the
    interpreters opens. *)
Lemma resolve_run (self : PTVSInterpreter) (s : state) :
  let regkey_name := _regkey_name (default "" (VSVersion self)) in
  truthy (VSVersion self) = true →
  refused w (RegOpen (ntpath.dirname regkey_name)) = false →
  is_Some (registry s !! ntpath.dirname regkey_name) →
  refused w (RegCreate regkey_name) = false →
  ∃ clock,
    resolve w self s =
      (State (catalog s regkey_name) clock,
       if refused w (RegQueryInfo regkey_name) then Return self
       else match scan self (entries w self s) with
            | Raise e => if is_WindowsError e then Return self else Raise e
            | Return d => Return d
            end).
Proof.
  intros regkey_name Hv Hopen [root Hroot] Hcreate.
  unfold resolve. rewrite Hv. decide_tests. fold regkey_name.
  unfold mbind, M_bind, bind, try_except.
  unfold winreg.OpenKey at 1. rewrite Hopen, Hroot.
  unfold winreg.CreateKey at 1. rewrite Hcreate. fold (catalog s regkey_name).
  unfold winreg.QueryInfoKey at 1. cbn [registry].
  destruct (refused w (RegQueryInfo regkey_name)); [eexists; reflexivity|].
  unfold entries. fold regkey_name.
  destruct (create_key_lookup (String.length regkey_name) regkey_name (registry s))
    as [k Hk].
  fold (catalog s regkey_name) in Hk. rewrite Hk.
  destruct (resolve_loop_scan self regkey_name (seq 0 (length (subkeys k)))
              (catalog s regkey_name) (uuid_clock s)) as (n & ->).
  destruct (scan self _) as [d|e]; [eexists; reflexivity|].
  destruct (is_WindowsError e); eexists; reflexivity.
Qed.

End Reconciliation.

(** [uuid.UUID] raises nothing but a [ValueError]. *)
Lemma UUID_of_raises (hex : string) (e : exn) :
  uuid.UUID_of hex = Raise e → is_WindowsError e = false.
Proof.
  unfold uuid.UUID_of. cbv zeta.
  destruct (negb _); [intros H; injection H as <-; reflexivity|].
  destruct (uuid.int16 _) as [int|]; [|intros H; injection H as <-; reflexivity].
  destruct (_ && _); [discriminate|]. intros H. injection H as <-. reflexivity.
Qed.

(** C4, as the code has it.  For every descriptor whose Visual Studio version
    is set and whose Python tools key opens: when the key of the interpreters
    cannot be created or opened, the [WindowsError] of that call leaves
    [resolve].  Otherwise reconciliation enumerates the entries under that
    key in order.  At the first entry whose absolute interpreter path equals
    the descriptor's without regard to case, when the name of the entry reads
    as an identity, both [GUID] and [BaseInterpreter] become that identity
    and no later entry is looked at; when the name does not read as one, the
    [ValueError] of [uuid.UUID] leaves [resolve].  When no entry matches the
    descriptor is left as it is.  An error raised by the enumeration before
    any match is swallowed, and the descriptor left as it is, when it is a
    [WindowsError]; an error of another kind leaves [resolve]. *)
Theorem resolve_adopts_first_match (w : World) (self : PTVSInterpreter) (s : state) :
  let regkey_name := _regkey_name (default "" (VSVersion self)) in
  truthy (VSVersion self) = true →
  refused w (RegOpen (ntpath.dirname regkey_name)) = false →
  is_Some (registry s !! ntpath.dirname regkey_name) →
  (refused w (RegCreate regkey_name) = true → resolve w self s = (s, Raise WindowsError))
  ∧ (refused w (RegCreate regkey_name) = false →
     (refused w (RegQueryInfo regkey_name) = true → snd (resolve w self s) = Return self)
     ∧ (refused w (RegQueryInfo regkey_name) = false →
        (∀ misses interpreter hex int rest,
           entries w self s = (misses ++ Return (Some interpreter) :: rest)%list →
           forallb (is_miss self) misses = true →
           same_path self interpreter = true →
           GUID interpreter = Token hex →
           uuid.UUID_of hex = Return int →
           ∃ d, snd (resolve w self s) = Return d
                ∧ d = with_identity (UUID int) self
                ∧ GUID d = UUID int
                ∧ BaseInterpreter d = UUID int)
        ∧ (∀ misses interpreter hex e rest,
             entries w self s = (misses ++ Return (Some interpreter) :: rest)%list →
             forallb (is_miss self) misses = true →
             same_path self interpreter = true →
             GUID interpreter = Token hex →
             uuid.UUID_of hex = Raise e →
             snd (resolve w self s) = Raise e)
        ∧ (forallb (is_miss self) (entries w self s) = true →
           snd (resolve w self s) = Return self)
        ∧ (∀ misses e rest,
             entries w self s = (misses ++ Raise e :: rest)%list →
             forallb (is_miss self) misses = true →
             snd (resolve w self s) = if is_WindowsError e then Return self else Raise e))).
Proof.
  intros regkey_name Hv Hopen Hroot. split.
  - intros Hcreate. destruct Hroot as [root Hroot].
    unfold resolve. rewrite Hv. decide_tests. fold regkey_name.
    unfold mbind, M_bind, bind, try_except.
    unfold winreg.OpenKey at 1. rewrite Hopen, Hroot.
    unfold winreg.CreateKey at 1. rewrite Hcreate. reflexivity.
  - intros Hcreate.
    destruct (resolve_run w self s Hv Hopen Hroot Hcreate) as (clock & Hrun).
    fold regkey_name in Hrun. rewrite Hrun. cbn [snd]. split.
    + intros ->. reflexivity.
    + intros ->. split; [|split; [|split]].
      * intros misses interpreter hex int rest Hentries Hmisses Hsame Hguid Hint.
        rewrite Hentries, (scan_misses self misses _ Hmisses).
        cbn [scan]. rewrite Hsame, Hguid, Hint.
        eexists. split; [reflexivity|]. split; [reflexivity|]. split; reflexivity.
      * intros misses interpreter hex e rest Hentries Hmisses Hsame Hguid Hint.
        rewrite Hentries, (scan_misses self misses _ Hmisses).
        cbn [scan]. rewrite Hsame, Hguid, Hint, (UUID_of_raises hex e Hint). reflexivity.
      * intros Hmisses.
        rewrite <- (app_nil_r (entries w self s)), (scan_misses self _ [] Hmisses).
        reflexivity.
      * intros misses e rest Hentries Hmisses.
        rewrite Hentries, (scan_misses self misses _ Hmisses). reflexivity.
Qed.

Lemma resolve_adopts_first_match_witness :
  (∃ d, snd (resolve Sample.world Sample.python39 Sample.registered) = Return d
        ∧ GUID d = UUID 143098242404177361603877621312831893704
        ∧ BaseInterpreter d = UUID 143098242404177361603877621312831893704)
  ∧ snd (resolve Sample.world Sample.python39 Sample.installed) = Return Sample.python39
  ∧ snd (resolve Sample.world Sample.python39 Sample.misnamed) =
    Raise (ValueError "badly formed hexadecimal UUID string")
  ∧ resolve Sample.no_create Sample.python39 Sample.installed =
    (Sample.installed, Raise WindowsError).
Proof.
  split; [|split; [|split]].
  - destruct (resolve_adopts_first_match Sample.world Sample.python39 Sample.registered)
      as [_ H]; [reflexivity | reflexivity | vm_compute; eexists; reflexivity |].
    destruct (H eq_refl) as [_ H']. destruct (H' eq_refl) as [H1 _].
    destruct (H1 []
                (_import Sample.world (UUID 0)
                   (Kwargs (Some (Token Sample.known)) None (Some "x64") (Some "3.9")
                      (Some "c:\python39") (Some "Python39") (Some "c:\python39\PYTHON.EXE")
                      None (Some "c:\python39\pythonw.exe") None (Some "PYTHONPATH") None))
                Sample.known 143098242404177361603877621312831893704%N [])
      as (d & Hrun & _ & Hguid & Hbase);
      [vm_compute; reflexivity | reflexivity | vm_compute; reflexivity | reflexivity
      | vm_compute; reflexivity |].
    exists d. split; [exact Hrun|]. split; [exact Hguid | exact Hbase].
  - destruct (resolve_adopts_first_match Sample.world Sample.python39 Sample.installed)
      as [_ H]; [reflexivity | reflexivity | vm_compute; eexists; reflexivity |].
    destruct (H eq_refl) as [_ H']. destruct (H' eq_refl) as (_ & _ & H2 & _).
    apply H2. vm_compute. reflexivity.
  - destruct (resolve_adopts_first_match Sample.world Sample.python39 Sample.misnamed)
      as [_ H]; [reflexivity | reflexivity | vm_compute; eexists; reflexivity |].
    destruct (H eq_refl) as [_ H']. destruct (H' eq_refl) as (_ & H2 & _).
    apply (H2 []
             (_import Sample.world (UUID 0)
                (Kwargs (Some (Token "ython3")) None (Some "x64") (Some "3.9")
                   (Some "C:\Python39") (Some "Python39") (Some "C:\Python39\python.exe")
                   None (Some "C:\Python39\pythonw.exe") None (Some "PYTHONPATH") None))
             "ython3" _ []);
      [vm_compute; reflexivity | reflexivity | vm_compute; reflexivity | reflexivity
      | vm_compute; reflexivity].
  - destruct (resolve_adopts_first_match Sample.no_create Sample.python39 Sample.installed)
      as [H _]; [reflexivity | reflexivity | vm_compute; eexists; reflexivity |].
    exact (H eq_refl).
Defined.

(** Two inputs at which the specification's wording fails, the preconditions
    holding in both.  An error raised during the enumeration that is not
    swallowed: an entry whose name is not an identity holds the path of the
    descriptor, and [resolve] raises the [ValueError] of [uuid.UUID].  A
    catalog that cannot be read and is not taken for one without a match: the
    system refuses the key of the interpreters, and [resolve] raises the
    [WindowsError]. *)
Lemma resolve_raises_on_misnamed_entry :
  truthy (VSVersion Sample.python39) = true
  ∧ is_Some (registry Sample.misnamed !! Sample.tools)
  ∧ is_Some (registry Sample.installed !! Sample.tools)
  ∧ ntpath.dirname (_regkey_name (default "" (VSVersion Sample.python39))) = Sample.tools
  ∧ snd (resolve Sample.world Sample.python39 Sample.misnamed) =
    Raise (ValueError "badly formed hexadecimal UUID string")
  ∧ snd (resolve Sample.no_create Sample.python39 Sample.installed) = Raise WindowsError.
Proof.
  split; [reflexivity|]. split; [vm_compute; eexists; reflexivity|].
  split; [vm_compute; eexists; reflexivity|].
  split; [|split]; vm_compute; reflexivity.
Qed.

(** ** The command line *)

(** X1. [main] hands the host framework the argument list with ['auto'] and
    ['ptvs'] put in after its first element, the other arguments following in
    their order, and returns what the framework returns; an empty list has no
    first element and becomes [['auto', 'ptvs']].  The list is that of the
    caller, or [sys.argv] when none is given. *)
Theorem main_inserts_the_subcommand {R} (vsgen_main : list string → R)
    (sys_argv : list string) (argv : option (list string)) :
  let given := default sys_argv argv in
  let passed := (take 1 given ++ ["auto"; "ptvs"] ++ drop 1 given)%list in
  entry_point.main vsgen_main sys_argv argv = (passed, vsgen_main passed)
  ∧ length passed = S (S (length given)).
Proof.
  intros given passed. subst passed. unfold entry_point.main. fold given.
  destruct given as [|program rest]; split; reflexivity.
Qed.

Lemma index_found (x : string) (l : list string) (i : nat) :
  entry_point.index x l = Some i → l !! i = Some x.
Proof.
  revert i. induction l as [|y l IH]; intros i H; [discriminate H|].
  cbn [entry_point.index] in H. destruct (String.eqb y x) eqn:E.
  - apply String.eqb_eq in E. injection H as <-. subst. reflexivity.
  - destruct (entry_point.index x l) as [j|]; [|discriminate H].
    injection H as <-. exact (IH j eq_refl).
Qed.

Lemma index_missing (x : string) (l : list string) :
  entry_point.index x l = None → x ∉ l.
Proof.
  induction l as [|y l IH]; intros H; [apply not_elem_of_nil|].
  cbn [entry_point.index] in H. destruct (String.eqb y x) eqn:E; [discriminate H|].
  apply String.eqb_neq in E.
  destruct (entry_point.index x l); [discriminate H|].
  apply not_elem_of_cons. split; [congruence | exact (IH eq_refl)].
Qed.

(** X2. The start-up block leaves the package path on the module search
    path: a search path that holds it already is not changed, and otherwise
    the package path is added at its end. *)
Theorem correct_sys_path_adds_once (package_path : string) (sys_path : list string) :
  package_path ∈ entry_point.correct_sys_path package_path sys_path
  ∧ (package_path ∈ sys_path →
     entry_point.correct_sys_path package_path sys_path = sys_path)
  ∧ (package_path ∉ sys_path →
     entry_point.correct_sys_path package_path sys_path = (sys_path ++ [package_path])%list).
Proof.
  unfold entry_point.correct_sys_path.
  destruct (entry_point.index package_path sys_path) as [i|] eqn:E.
  - pose proof (index_found _ _ _ E) as Hi.
    rewrite (list_insert_id _ _ _ Hi).
    split; [exact (list_elem_of_lookup_2 _ _ _ Hi)|].
    split; [reflexivity|]. intros Hout. destruct Hout.
    exact (list_elem_of_lookup_2 _ _ _ Hi).
  - pose proof (index_missing _ _ E) as Hout.
    split; [apply elem_of_app; right; apply list_elem_of_singleton; reflexivity|].
    split; [intros Hin; destruct (Hout Hin) | reflexivity].
Qed.

Lemma correct_sys_path_adds_once_witness :
  entry_point.correct_sys_path "C:\src" ["C:\lib"; "C:\src"] = ["C:\lib"; "C:\src"]
  ∧ entry_point.correct_sys_path "C:\src" ["C:\lib"] = ["C:\lib"; "C:\src"].
Proof.
  split.
  - destruct (correct_sys_path_adds_once "C:\src" ["C:\lib"; "C:\src"]) as (_ & H & _).
    apply H. right. left.
  - destruct (correct_sys_path_adds_once "C:\src" ["C:\lib"]) as (_ & _ & H).
    apply H. intros Hin.
    apply elem_of_cons in Hin. destruct Hin as [Hin|Hin]; [discriminate Hin|].
    apply elem_of_nil in Hin. exact Hin.
Defined.

(** ** What the registry keeps *)

Section Frames.

Context (w : World).

Lemma preserves_ret {A} (I : state → Prop) (a : A) : preserves I (mret a).
Proof. intros s Hs. exact Hs. Qed.

Lemma preserves_raise {A} (I : state → Prop) (e : exn) : preserves I (@raise A e).
Proof. intros s Hs. exact Hs. Qed.

Lemma preserves_lift {A} (I : state → Prop) (r : outcome A) : preserves I (lift r).
Proof. intros s Hs. exact Hs. Qed.

Lemma preserves_bind {A B} (I : state → Prop) (m : M A) (k : A → M B) :
  preserves I m → (∀ a, preserves I (k a)) → preserves I (m ≫= k).
Proof.
  intros Hm Hk s Hs. specialize (Hm s Hs). unfold mbind, M_bind, bind.
  destruct (m s) as [s' [a|e]]; cbn [fst] in Hm |- *; [exact (Hk a s' Hm) | exact Hm].
Qed.

Lemma preserves_try_except {A} (I : state → Prop) (m : M A) (catches : exn → bool)
    (h : exn → M A) :
  preserves I m → (∀ e, preserves I (h e)) → preserves I (try_except m catches h).
Proof.
  intros Hm Hh s Hs. specialize (Hm s Hs). unfold try_except.
  destruct (m s) as [s' [a|e]]; cbn [fst] in Hm |- *; [exact Hm|].
  destruct (catches e); [exact (Hh e s' Hm) | exact Hm].
Qed.

Lemma preserves_attempt {A} (I : state → Prop) (m : M A) :
  preserves I m → preserves I (attempt m).
Proof.
  intros Hm s Hs. specialize (Hm s Hs). unfold attempt.
  destruct (m s) as [s' r]. exact Hm.
Qed.

Lemma preserves_comprehension {A B} (I : state → Prop) (f : A → M B) (paths : list A) :
  (∀ p, preserves I (f p)) → preserves I (comprehension f paths).
Proof.
  intros Hf. induction paths as [|p rest IH]; [apply preserves_ret|].
  cbn [comprehension]. apply preserves_bind; [apply Hf|]. intros x.
  apply preserves_bind; [exact IH|]. intros xs. apply preserves_ret.
Qed.

(** A property of the registry alone *)
Section Registry.

Context (P : gmap string regkey → Prop).

Let I : state → Prop := λ s, P (registry s).

Lemma preserves_reads {A} (m : M A) : reads_catalog m → preserves I m.
Proof.
  intros Hm [reg clock] Hs. destruct (Hm reg) as (r & n & Hr). rewrite Hr. exact Hs.
Qed.

Lemma preserves_init (args : kwargs) : preserves I (__init__ w args).
Proof. intros s Hs. exact Hs. Qed.

Lemma preserves_python_version (interpreter : string) :
  preserves I (python_version w interpreter).
Proof.
  intros s Hs. destruct (python_version_returns w interpreter s) as [answer ->]. exact Hs.
Qed.

Lemma preserves_python_architecture (interpreter : string) :
  preserves I (python_architecture w interpreter).
Proof.
  intros s Hs. destruct (python_architecture_returns w interpreter s) as [answer ->].
  exact Hs.
Qed.

Lemma preserves_open (path : string) : preserves I (open w path).
Proof.
  intros s Hs. unfold open. destruct (fs w !! path) as [[|lines]|]; exact Hs.
Qed.

Lemma preserves_QueryInfoKey (key : string) : preserves I (winreg.QueryInfoKey w key).
Proof.
  intros s Hs. unfold winreg.QueryInfoKey.
  destruct (refused w _); [exact Hs|]. destruct (registry s !! key); exact Hs.
Qed.

Lemma preserves_UUID_ (value : guid) : preserves I (uuid.UUID_ value).
Proof.
  intros s Hs. unfold uuid.UUID_. destruct value as [int|hex]; [exact Hs|].
  destruct (uuid.UUID_of hex); exact Hs.
Qed.

Lemma preserves_resolve_loop (self : PTVSInterpreter) (regkey_name regkey : string)
    (range : list nat) :
  preserves I (resolve_loop w self regkey_name regkey range).
Proof.
  induction range as [|i rest IH]; [apply preserves_ret|].
  cbn [resolve_loop]. apply preserves_bind.
  { apply preserves_reads, reads_catalog_EnumKey. }
  intros name. apply preserves_bind.
  { apply preserves_reads, reads_catalog_from_registry_key. }
  intros [interpreter|]; [|exact IH].
  destruct (String.eqb _ _); [|exact IH].
  apply preserves_bind; [apply preserves_UUID_|]. intros g. apply preserves_ret.
Qed.

(** The property holds again when missing keys are created. *)
Hypothesis P_create : ∀ fuel name reg, P reg → P (winreg.create_key fuel name reg).

Lemma preserves_CreateKey (key : string) : preserves I (winreg.CreateKey w key).
Proof.
  intros s Hs. unfold winreg.CreateKey. destruct (refused w _); [exact Hs|].
  apply P_create. exact Hs.
Qed.

Lemma preserves_resolve (self : PTVSInterpreter) : preserves I (resolve w self).
Proof.
  unfold resolve. destruct (negb (truthy (VSVersion self))); [apply preserves_raise|].
  cbv zeta. apply preserves_bind.
  { apply preserves_try_except; [apply preserves_reads, reads_catalog_OpenKey|].
    intros e. apply preserves_raise. }
  intros _. apply preserves_bind; [apply preserves_CreateKey|]. intros regkey.
  apply preserves_try_except; [|intros e; apply preserves_ret].
  apply preserves_bind; [apply preserves_QueryInfoKey|]. intros reginfo.
  apply preserves_resolve_loop.
Qed.

Lemma preserves_from_python_installation (directory : string) (kw : kwargs) :
  preserves I (from_python_installation w directory kw).
Proof.
  unfold from_python_installation. cbv zeta.
  destruct (negb (exists_ w _)); [apply preserves_ret|].
  apply preserves_bind; [apply preserves_python_version|]. intros version.
  apply preserves_bind; [apply preserves_python_architecture|]. intros architecture.
  apply preserves_bind; [apply preserves_init|]. intros interpreter.
  apply preserves_bind; [apply preserves_resolve|]. intros resolved.
  apply preserves_ret.
Qed.

Lemma preserves_from_virtual_environment (directory : string) (kw : kwargs) :
  preserves I (from_virtual_environment w directory kw).
Proof.
  unfold from_virtual_environment. cbv zeta.
  destruct (negb (exists_ w _)); [apply preserves_ret|].
  destruct (negb (exists_ w _) && negb (exists_ w _)); [apply preserves_ret|].
  apply preserves_bind.
  { unfold locate_basedir. apply preserves_bind.
    - destruct (exists_ w _); [|apply preserves_ret].
      apply preserves_bind; [apply preserves_open|]. intros f. apply preserves_ret.
    - intros basedir. destruct (exists_ w _); [|apply preserves_ret].
      apply preserves_bind; [apply preserves_open|]. intros f. apply preserves_ret. }
  intros basedir. unfold from_basedir. apply preserves_bind.
  { destruct basedir as [|[home|]]; try apply preserves_raise.
    apply preserves_from_python_installation. }
  intros [base|]; [|apply preserves_ret].
  apply preserves_bind; [apply preserves_python_version|]. intros version.
  apply preserves_bind; [apply preserves_python_architecture|]. intros architecture.
  apply preserves_bind; [apply preserves_init|]. intros interpreter.
  apply preserves_ret.
Qed.

Lemma preserves_from_section (config : Config) (section : string) (kw : kwargs) :
  preserves I (from_section w config section kw).
Proof.
  unfold from_section. destruct (negb (in_config _ _)); [apply preserves_raise|].
  cbv zeta. apply preserves_bind; [|intros l; apply preserves_ret].
  destruct (getdirs config section "interpreter_paths" []) as [|p ps].
  - destruct (getdirs config section "environment_paths" []) as [|p ps];
      [apply preserves_ret|].
    apply preserves_bind; [|intros l; apply preserves_ret].
    apply preserves_comprehension. intros q. apply preserves_from_virtual_environment.
  - apply preserves_bind; [|intros l; apply preserves_ret].
    apply preserves_comprehension. intros q. apply preserves_from_python_installation.
Qed.

End Registry.

Lemma values_kept_refl (skip : string → bool) (reg : gmap string regkey) :
  values_kept skip reg reg.
Proof. intros key k _ Hk. exists k. split; [exact Hk | reflexivity]. Qed.

Lemma create_key_keeps (fuel : nat) (name : string) (reg : gmap string regkey)
    (key : string) (k : regkey) :
  reg !! key = Some k →
  ∃ k', winreg.create_key fuel name reg !! key = Some k' ∧ values k' = values k.
Proof.
  revert name reg k. induction fuel as [|fuel IH]; intros name reg k Hk.
  - cbn [winreg.create_key]. destruct (reg !! name) eqn:E; [eauto|].
    exists k. rewrite lookup_insert_ne by congruence. eauto.
  - cbn [winreg.create_key]. destruct (reg !! name) eqn:E; [eauto|].
    assert (Hne : name ≠ key) by congruence.
    rewrite lookup_insert_ne by exact Hne.
    destruct (winreg.rsplit name) as [[parent leaf]|]; [|eauto].
    destruct (IH parent reg k Hk) as (k' & Hk' & Hv).
    destruct (decide (parent = key)) as [->|Hp].
    + rewrite lookup_alter_eq, Hk'. eexists. split; [reflexivity|exact Hv].
    + rewrite lookup_alter_ne by exact Hp. eauto.
Qed.

Lemma values_kept_create_key (skip : string → bool) (reg0 : gmap string regkey)
    (fuel : nat) (name : string) (reg : gmap string regkey) :
  values_kept skip reg0 reg → values_kept skip reg0 (winreg.create_key fuel name reg).
Proof.
  intros H key k Hskip Hk. destruct (H key k Hskip Hk) as (k' & Hk' & Hv).
  destruct (create_key_keeps fuel name reg key k' Hk') as (k'' & Hk'' & Hv').
  exists k''. split; [exact Hk''|congruence].
Qed.

End Frames.

(** X3. Reconciliation and the three factories never remove a key of the
    registry and never change a value stored in it, whether they return or
    raise: every key of the registry before the call is there after it with
    the values it had. *)
Theorem discovery_keeps_the_registry (w : World) (s : state) :
  (∀ self, values_kept (λ _, false) (registry s) (registry (fst (resolve w self s))))
  ∧ (∀ directory kw,
       values_kept (λ _, false) (registry s)
         (registry (fst (from_python_installation w directory kw s))))
  ∧ (∀ directory kw,
       values_kept (λ _, false) (registry s)
         (registry (fst (from_virtual_environment w directory kw s))))
  ∧ (∀ config section kw,
       values_kept (λ _, false) (registry s)
         (registry (fst (from_section w config section kw s)))).
Proof.
  pose proof (values_kept_create_key (λ _, false) (registry s)) as Hcreate.
  pose proof (values_kept_refl (λ _, false) (registry s)) as Hrefl.
  split; [|split; [|split]].
  - intros self. exact (preserves_resolve w _ Hcreate self s Hrefl).
  - intros directory kw.
    exact (preserves_from_python_installation w _ Hcreate directory kw s Hrefl).
  - intros directory kw.
    exact (preserves_from_virtual_environment w _ Hcreate directory kw s Hrefl).
  - intros config section kw.
    exact (preserves_from_section w _ Hcreate config section kw s Hrefl).
Qed.

(** ** Registration and the rest of the registry *)

Section Registration.

Context (w : World).

Lemma preserves_bind_on {A B} (I : state → Prop) (Q : A → Prop) (m : M A) (k : A → M B) :
  preserves I m →
  (∀ s s' a, m s = (s', Return a) → Q a) →
  (∀ a, Q a → preserves I (k a)) →
  preserves I (m ≫= k).
Proof.
  intros Hm HQ Hk s Hs. specialize (Hm s Hs). specialize (HQ s). unfold mbind, M_bind, bind.
  destruct (m s) as [s' [a|e]]; cbn [fst] in Hm |- *; [|exact Hm].
  exact (Hk a (HQ s' a eq_refl) s' Hm).
Qed.

Lemma CreateKey_handle (key : string) (s s' : state) (regkey : string) :
  winreg.CreateKey w key s = (s', Return regkey) → regkey = key.
Proof.
  unfold winreg.CreateKey. destruct (refused w _); [discriminate|]. congruence.
Qed.

Lemma set_value_keeps (skip : string → bool) (reg0 reg : gmap string regkey)
    (key name value : string) :
  skip key = true →
  values_kept skip reg0 reg → values_kept skip reg0 (winreg.set_value key name value reg).
Proof.
  intros Hskip H key' k Hskip' Hk. destruct (H key' k Hskip' Hk) as (k' & Hk' & Hv).
  exists k'. split; [|exact Hv]. unfold winreg.set_value.
  rewrite lookup_alter_ne by congruence. exact Hk'.
Qed.

Lemma preserves_SetValueEx_others (skip : string → bool) (reg0 : gmap string regkey)
    (key name value : string) :
  skip key = true →
  preserves (λ s, values_kept skip reg0 (registry s)) (winreg.SetValueEx w key name value).
Proof.
  intros Hskip s Hs. unfold winreg.SetValueEx. destruct (refused w _); [exact Hs|].
  destruct (registry s !! key); [|exact Hs]. apply set_value_keeps; assumption.
Qed.

Lemma preserves_SetValueEx_entry (key name value : string) :
  preserves (λ s, is_Some (registry s !! key)) (winreg.SetValueEx w key name value).
Proof.
  intros s [k Hk]. unfold winreg.SetValueEx. destruct (refused w _); [eexists; exact Hk|].
  rewrite Hk. cbn [fst registry]. rewrite (set_value_lookup _ _ _ _ _ Hk). eexists. reflexivity.
Qed.

Lemma preserves_writes (I : state → Prop) (self : PTVSInterpreter) (regkey : string) :
  (∀ name value, preserves I (winreg.SetValueEx w regkey name value)) →
  preserves I (writes w self regkey).
Proof.
  intros Hset. unfold writes.
  repeat (apply preserves_bind; [apply Hset|]; intros _).
  apply preserves_bind; [apply preserves_ret|]. intros _. apply preserves_ret.
Qed.

Lemma register_unfold (self : PTVSInterpreter) (s : state) :
  truthy (VSVersion self) = true →
  register w self s =
    (try_except (winreg.OpenKey w (ntpath.dirname (_regkey_name (default "" (VSVersion self)))))
       is_WindowsError
       (λ _, raise (ValueError ("Cannot register interpreter with Visual Studio " +:+
                                default "" (VSVersion self) +:+ " that is not installed.")));;
     try_except
       (regkey ← winreg.CreateKey w (interpreter_regkey_name self); writes w self regkey)
       is_WindowsError
       (λ _, mret false)) s.
Proof. intros Hv. unfold register. rewrite Hv. reflexivity. Qed.

Lemma preserves_register (I : state → Prop) (self : PTVSInterpreter) :
  preserves I (winreg.OpenKey w (ntpath.dirname (_regkey_name (default "" (VSVersion self))))) →
  preserves I (winreg.CreateKey w (interpreter_regkey_name self)) →
  (∀ name value, preserves I (winreg.SetValueEx w (interpreter_regkey_name self) name value)) →
  preserves I (register w self).
Proof.
  intros Hopen Hcreate Hset s Hs.
  destruct (truthy (VSVersion self)) eqn:Hv;
    [|unfold register; rewrite Hv; exact Hs].
  rewrite (register_unfold self s Hv). revert s Hs.
  apply preserves_bind.
  { apply preserves_try_except; [exact Hopen|]. intros e. apply preserves_raise. }
  intros _. apply preserves_try_except; [|intros e; apply preserves_ret].
  apply (preserves_bind_on I (λ regkey, regkey = interpreter_regkey_name self));
    [exact Hcreate | apply CreateKey_handle |].
  intros regkey ->. apply preserves_writes. exact Hset.
Qed.

End Registration.

(** X4. [register] touches one entry: whether it returns [True], returns
    [False] or raises, every other key of the registry is there after the
    call with the values it had. *)
Theorem register_keeps_other_entries (w : World) (self : PTVSInterpreter) (s : state) :
  values_kept (String.eqb (interpreter_regkey_name self)) (registry s)
    (registry (fst (register w self s))).
Proof.
  apply (preserves_register w
           (λ s', values_kept (String.eqb (interpreter_regkey_name self)) (registry s)
                    (registry s'))).
  - apply (preserves_reads (λ reg, values_kept _ (registry s) reg)), reads_catalog_OpenKey.
  - apply (preserves_CreateKey w (λ reg, values_kept _ (registry s) reg)).
    apply values_kept_create_key.
  - intros name value. apply preserves_SetValueEx_others. apply String.eqb_refl.
  - apply values_kept_refl.
Qed.

(** ** Registration: what stays, what repeats, what reads back *)

Section Entries.

Context (w : World).

Lemma set_value_exists (key name value key' : string) (reg : gmap string regkey) :
  is_Some (reg !! key') → is_Some (winreg.set_value key name value reg !! key').
Proof.
  intros [k Hk]. unfold winreg.set_value. destruct (decide (key = key')) as [->|Hne].
  - rewrite lookup_alter_eq, Hk. eexists. reflexivity.
  - rewrite lookup_alter_ne by exact Hne. eexists. exact Hk.
Qed.

Lemma preserves_register_exists (self : PTVSInterpreter) (key' : string) :
  preserves (λ s, is_Some (registry s !! key')) (register w self).
Proof.
  apply preserves_register.
  - apply (preserves_reads (λ reg, is_Some (reg !! key'))), reads_catalog_OpenKey.
  - apply (preserves_CreateKey w (λ reg, is_Some (reg !! key'))).
    intros fuel name reg [k Hk].
    destruct (create_key_keeps fuel name reg key' k Hk) as (k' & Hk' & _). eexists. exact Hk'.
  - intros name value s Hs. unfold winreg.SetValueEx. destruct (refused w _); [exact Hs|].
    destruct (registry s !! interpreter_regkey_name self); [|exact Hs].
    apply set_value_exists. exact Hs.
Qed.

Lemma create_key_existing (fuel : nat) (name : string) (reg : gmap string regkey)
    (k : regkey) :
  reg !! name = Some k → winreg.create_key fuel name reg = reg.
Proof. intros H. destruct fuel; cbn [winreg.create_key]; rewrite H; reflexivity. Qed.

Lemma set_value_same (key name value : string) (reg : gmap string regkey) (k : regkey) :
  reg !! key = Some k → values k !! name = Some value →
  winreg.set_value key name value reg = reg.
Proof.
  intros Hk Hv. unfold winreg.set_value. apply alter_id. intros k' Hk'.
  assert (k' = k) as -> by congruence.
  rewrite (insert_id _ _ _ Hv). destruct k. reflexivity.
Qed.

Lemma SetValueEx_same (key name value : string) (s : state) (k : regkey) :
  refused w (RegSet key name) = false →
  registry s !! key = Some k → values k !! name = Some value →
  winreg.SetValueEx w key name value s = (s, Return tt).
Proof.
  intros Hr Hk Hv. unfold winreg.SetValueEx. rewrite Hr, Hk.
  rewrite (set_value_same _ _ _ _ _ Hk Hv). destruct s. reflexivity.
Qed.

Lemma QueryValueEx_found (key name value : string) (s : state) (k : regkey) :
  refused w (RegQuery key name) = false →
  registry s !! key = Some k → values k !! name = Some value →
  winreg.QueryValueEx w key name s = (s, Return value).
Proof.
  intros Hr Hk Hv. unfold winreg.QueryValueEx. rewrite Hr, Hk, Hv. reflexivity.
Qed.

(** What a registration that returned [True] tells: its preconditions held,
    every write was let through, the clock did not move and the entry holds
    the six fields. *)
Lemma register_true_entry (self : PTVSInterpreter) (s s' : state) :
  register w self s = (s', Return true) →
  truthy (VSVersion self) = true
  ∧ refused w (RegOpen (ntpath.dirname (_regkey_name (default "" (VSVersion self))))) = false
  ∧ is_Some (registry s !! ntpath.dirname (_regkey_name (default "" (VSVersion self))))
  ∧ writes_allowed w self = true
  ∧ ∃ entry,
      registry s' !! interpreter_regkey_name self = Some entry
      ∧ values entry !! "Architecture" = Some (Architecture self)
      ∧ values entry !! "Description" = Some (Description self)
      ∧ values entry !! "InterpreterPath" = Some (InterpreterAbsPath self)
      ∧ values entry !! "Version" = Some (Version self)
      ∧ values entry !! "WindowsInterpreterPath" = Some (WindowsInterpreterAbsPath self)
      ∧ values entry !! "PathEnvironmentVariable" = Some (PathEnvironmentVariable self).
Proof.
  intros Hrun.
  destruct (truthy (VSVersion self)) eqn:Hv;
    [|unfold register in Hrun; rewrite Hv in Hrun; discriminate Hrun].
  destruct (refused w (RegOpen (ntpath.dirname (_regkey_name (default "" (VSVersion self))))))
    eqn:Hopen.
  { rewrite (register_unfold w self s Hv) in Hrun. revert Hrun.
    unfold mbind, M_bind, bind, try_except. unfold winreg.OpenKey at 1. rewrite Hopen.
    discriminate. }
  destruct (registry s !! ntpath.dirname (_regkey_name (default "" (VSVersion self))))
    as [root|] eqn:Hroot.
  - destruct (register_run w self s Hv Hopen (ex_intro _ root Hroot))
      as (s'' & Hrun' & Hentry).
    rewrite Hrun in Hrun'. injection Hrun' as <- Hallowed.
    split; [reflexivity|]. split; [reflexivity|]. split; [eexists; reflexivity|].
    split; [exact (eq_sym Hallowed)|]. exact (Hentry (eq_sym Hallowed)).
  - rewrite (register_unfold w self s Hv) in Hrun. revert Hrun.
    unfold mbind, M_bind, bind, try_except. unfold winreg.OpenKey at 1.
    rewrite Hopen, Hroot. discriminate.
Qed.

End Entries.

(** X5. [register] does not undo what it wrote: when its preconditions hold
    and the entry key can be created, the entry is in the registry after the
    call, also when a later write was refused and [register] returned
    [False]. *)
Theorem register_leaves_the_entry (w : World) (self : PTVSInterpreter) (s : state) :
  truthy (VSVersion self) = true →
  refused w (RegOpen (ntpath.dirname (_regkey_name (default "" (VSVersion self))))) = false →
  is_Some (registry s !! ntpath.dirname (_regkey_name (default "" (VSVersion self)))) →
  refused w (RegCreate (interpreter_regkey_name self)) = false →
  ∃ s', register w self s = (s', Return (writes_allowed w self))
        ∧ is_Some (registry s' !! interpreter_regkey_name self).
Proof.
  intros Hv Hopen Hroot Hcreate.
  destruct (register_run w self s Hv Hopen Hroot) as (s' & Hrun & _).
  exists s'. split; [exact Hrun|].
  replace s' with (fst (register w self s)) by (rewrite Hrun; reflexivity).
  rewrite (register_unfold w self s Hv).
  destruct Hroot as [root Hroot].
  unfold mbind, M_bind, bind at 1. unfold try_except at 1. unfold winreg.OpenKey at 1.
  rewrite Hopen, Hroot.
  unfold try_except, bind. unfold winreg.CreateKey at 1. rewrite Hcreate.
  pose proof (preserves_writes w (λ s, is_Some (registry s !! interpreter_regkey_name self))
                self (interpreter_regkey_name self)
                (λ name value, preserves_SetValueEx_entry w _ name value)
                (State (winreg.create_key (String.length (interpreter_regkey_name self))
                          (interpreter_regkey_name self) (registry s)) (uuid_clock s))
                (create_key_lookup _ _ _)) as Hkept.
  destruct (writes w self (interpreter_regkey_name self) _) as [s2 [b|e]];
    cbn [fst] in Hkept |- *; [exact Hkept|].
  destruct (is_WindowsError e); exact Hkept.
Qed.

Lemma register_leaves_the_entry_witness :
  ∃ s', register Sample.read_only Sample.python27 Sample.installed = (s', Return false)
        ∧ is_Some (registry s' !! interpreter_regkey_name Sample.python27).
Proof.
  exact (register_leaves_the_entry Sample.read_only Sample.python27 Sample.installed
           eq_refl eq_refl (ex_intro _ (RegKey [] ∅) eq_refl) eq_refl).
Defined.

Lemma writes_allowed_true (w : World) (self : PTVSInterpreter) :
  writes_allowed w self = true →
  let key := interpreter_regkey_name self in
  refused w (RegCreate key) = false
  ∧ refused w (RegSet key "Architecture") = false
  ∧ refused w (RegSet key "Description") = false
  ∧ refused w (RegSet key "InterpreterPath") = false
  ∧ refused w (RegSet key "Version") = false
  ∧ refused w (RegSet key "WindowsInterpreterPath") = false
  ∧ refused w (RegSet key "PathEnvironmentVariable") = false.
Proof.
  unfold writes_allowed, write_ops. cbv zeta. cbn [forallb]. intros H.
  repeat (apply andb_prop in H; destruct H as [?%negb_true_iff H]).
  repeat split; assumption.
Qed.

(** X6. Registering a descriptor a second time changes nothing: after a
    registration that returned [True], the same registration returns [True]
    again and leaves the state as it found it. *)
Theorem register_twice (w : World) (self : PTVSInterpreter) (s s1 : state) :
  register w self s = (s1, Return true) →
  register w self s1 = (s1, Return true).
Proof.
  intros Hrun.
  destruct (register_true_entry w self s s1 Hrun)
    as (Hv & Hopen & Hroot & Hallowed & entry & Hkey & Ha & Hd & Hp & Hn & Hw & He).
  destruct (writes_allowed_true w self Hallowed) as (Hc & H1 & H2 & H3 & H4 & H5 & H6).
  pose proof (preserves_register_exists w self _ s Hroot) as Hroot1.
  rewrite Hrun in Hroot1. cbn [fst] in Hroot1. destruct Hroot1 as [root Hroot1].
  rewrite (register_unfold w self s1 Hv).
  unfold mbind, M_bind, bind at 1. unfold try_except at 1. unfold winreg.OpenKey at 1.
  rewrite Hopen, Hroot1.
  unfold try_except, bind at 1. unfold winreg.CreateKey at 1. rewrite Hc.
  rewrite (create_key_existing _ _ _ _ Hkey).
  replace (State (registry s1) (uuid_clock s1)) with s1 by (destruct s1; reflexivity).
  unfold writes, mbind, M_bind, bind.
  rewrite (SetValueEx_same w _ _ _ _ _ H1 Hkey Ha).
  rewrite (SetValueEx_same w _ _ _ _ _ H2 Hkey Hd).
  rewrite (SetValueEx_same w _ _ _ _ _ H3 Hkey Hp).
  rewrite (SetValueEx_same w _ _ _ _ _ H4 Hkey Hn).
  rewrite (SetValueEx_same w _ _ _ _ _ H5 Hkey Hw).
  rewrite (SetValueEx_same w _ _ _ _ _ H6 Hkey He).
  reflexivity.
Qed.

Lemma register_twice_witness :
  let s1 := fst (register Sample.world Sample.python27 Sample.installed) in
  register Sample.world Sample.python27 s1 = (s1, Return true).
Proof.
  intros s1.
  apply (register_twice Sample.world Sample.python27 Sample.installed s1).
  vm_compute. reflexivity.
Defined.

(** ** Names of keys *)

Section KeyNames.

Lemma has_sep_app (s t : string) : has_sep (s +:+ t) = has_sep s || has_sep t.
Proof.
  induction s as [|c s IH]; [reflexivity|].
  rewrite str_app_cons. cbn [has_sep]. rewrite IH, orb_assoc. reflexivity.
Qed.

Lemma split_at_last_sep_plain (t : string) :
  has_sep t = false → ntpath.split_at_last_sep t = (EmptyString, t).
Proof.
  induction t as [|c t IH]; intros H; [reflexivity|].
  cbn [has_sep] in H. apply orb_false_elim in H. destruct H as [Hc Ht].
  cbn [ntpath.split_at_last_sep]. rewrite (IH Ht), Hc. reflexivity.
Qed.

Lemma split_at_last_sep_app (h t : string) :
  has_sep t = false →
  ntpath.split_at_last_sep (h +:+ ntpath.sep +:+ t) = (h +:+ ntpath.sep, t).
Proof.
  intros Ht. induction h as [|c h IH].
  - change ("" +:+ ntpath.sep +:+ t) with (String Str.bslash t).
    cbn [ntpath.split_at_last_sep]. rewrite (split_at_last_sep_plain t Ht). reflexivity.
  - rewrite !str_app_cons. cbn [ntpath.split_at_last_sep]. rewrite IH.
    destruct (h +:+ ntpath.sep) eqn:E; [|reflexivity].
    destruct h; discriminate E.
Qed.

Lemma rstrip_plain (p : ascii → bool) (s : string) (c : ascii) :
  Str.last s = Some c → p c = false → Str.rstrip_by p s = s.
Proof.
  revert c. induction s as [|a s IH]; intros c Hlast Hc; [reflexivity|].
  cbn [Str.rstrip_by]. destruct s as [|b s].
  - cbn [Str.last] in Hlast. injection Hlast as ->. cbn [Str.rstrip_by]. rewrite Hc.
    reflexivity.
  - rewrite (IH c Hlast Hc). reflexivity.
Qed.

Lemma rstrip_trailing (p : ascii → bool) (s : string) (c : ascii) :
  p c = true → Str.rstrip_by p (s +:+ String c "") = Str.rstrip_by p s.
Proof.
  intros Hc. induction s as [|a s IH].
  - change ("" +:+ String c "") with (String c ""). cbn [Str.rstrip_by]. rewrite Hc.
    reflexivity.
  - rewrite str_app_cons. cbn [Str.rstrip_by]. rewrite IH. reflexivity.
Qed.

Lemma str_length_app (s t : string) :
  String.length (s +:+ t) = (String.length s + String.length t)%nat.
Proof.
  induction s as [|c s IH]; [reflexivity|].
  rewrite str_app_cons. cbn [String.length]. rewrite IH. reflexivity.
Qed.

Lemma substring_prefix (g t : string) : String.substring 0 (String.length g) (g +:+ t) = g.
Proof.
  induction g as [|c g IH].
  - destruct t; reflexivity.
  - rewrite str_app_cons. cbn [String.length String.substring]. rewrite IH. reflexivity.
Qed.

Lemma strip_ends_braces (g : string) : Str.strip_ends ("{" +:+ g +:+ "}") = g.
Proof.
  change ("{" +:+ g +:+ "}") with (String "{" (g +:+ "}")). unfold Str.strip_ends.
  rewrite str_length_app. cbn [String.length].
  replace (String.length g + 1 - 1)%nat with (String.length g) by lia.
  apply substring_prefix.
Qed.

(** The last part of a key under the key of the interpreters *)
Lemma basename_under_regkey (version t : string) :
  has_sep t = false →
  ntpath.basename (_regkey_name version +:+ ntpath.sep +:+ t) = t.
Proof.
  intros Ht. unfold ntpath.basename, ntpath.split.
  assert (Hd : ntpath.splitdrive (_regkey_name version +:+ ntpath.sep +:+ t) =
               (EmptyString, _regkey_name version +:+ ntpath.sep +:+ t)) by reflexivity.
  rewrite Hd, (split_at_last_sep_app _ t Ht). reflexivity.
Qed.

(** The key above the key of the interpreters *)
Lemma dirname_regkey (version : string) :
  ntpath.dirname (_regkey_name version) =
    "Software\Microsoft\VisualStudio" +:+ ntpath.sep +:+ version +:+ "\PythonTools".
Proof.
  unfold ntpath.dirname, ntpath.split.
  assert (Hd : ntpath.splitdrive (_regkey_name version) = (EmptyString, _regkey_name version))
    by reflexivity.
  rewrite Hd.
  assert (Hname : _regkey_name version =
                  ("Software\Microsoft\VisualStudio" +:+ ntpath.sep +:+ version +:+ "\PythonTools")
                  +:+ ntpath.sep +:+ "Interpreters").
  { unfold _regkey_name. rewrite !str_app_assoc. reflexivity. }
  rewrite Hname at 1. rewrite (split_at_last_sep_app _ "Interpreters" eq_refl).
  unfold ntpath.sep at 3. rewrite (rstrip_trailing ntpath.is_sep _ Str.bslash eq_refl).
  rewrite (rstrip_plain ntpath.is_sep _ "s").
  - rewrite <- !str_app_assoc. reflexivity.
  - rewrite <- !str_app_assoc. apply last_app_plain. discriminate.
  - reflexivity.
Qed.

End KeyNames.

(** X7. For every Visual Studio version, whatever its text, the key the
    guards of [resolve] and [register] open is the [PythonTools] key of that
    version, the key just above the one the interpreters are written under. *)
Theorem guards_open_the_tools_key (w : World) (self : PTVSInterpreter) (s : state)
    (version : string) :
  VSVersion self = Some version →
  version ≠ "" →
  registry s !!
    ("Software\Microsoft\VisualStudio" +:+ ntpath.sep +:+ version +:+ "\PythonTools") = None →
  (∃ msg, resolve w self s = (s, Raise (ValueError msg)))
  ∧ (∃ msg, register w self s = (s, Raise (ValueError msg))).
Proof.
  intros Hversion Hne Hmissing.
  assert (Hv : truthy (VSVersion self) = true).
  { rewrite Hversion. cbn [truthy]. apply negb_true_iff, String.eqb_neq. exact Hne. }
  rewrite <- dirname_regkey in Hmissing.
  unfold resolve, register. rewrite Hv, Hversion. decide_tests.
  change (default "" (Some version)) with version. cbv zeta.
  unfold_M. unfold winreg.OpenKey. rewrite Hmissing.
  destruct (refused w _); split; eexists; reflexivity.
Qed.

Lemma guards_open_the_tools_key_witness :
  (∃ msg, resolve Sample.world Sample.python39 Sample.bare =
          (Sample.bare, Raise (ValueError msg)))
  ∧ (∃ msg, register Sample.world Sample.python39 Sample.bare =
            (Sample.bare, Raise (ValueError msg))).
Proof.
  apply (guards_open_the_tools_key Sample.world Sample.python39 Sample.bare "15.0");
    [reflexivity | discriminate | reflexivity].
Defined.

(** ** Loading an entry *)

(** X8. What [register] wrote, [from_registry_key] reads back.  After a
    registration that returned [True], loading the entry (when the system
    lets the reads through) gives a descriptor with the architecture, the
    description, the version and the search-path variable of the registered
    one; its [InterpreterPath] and [WindowsInterpreterPath] are the absolute
    paths of the registered one, its [Path] is the directory of that
    interpreter path, and its [InterpreterAbsPath] is that of the registered
    one when that is absolute; it has no Visual Studio version; its [GUID] is
    the lower-case text of the registered identity when that text holds no
    separator.  The registry is as the registration left it. *)
Theorem register_then_load (w : World) (self : PTVSInterpreter) (s s1 : state) :
  let key := interpreter_regkey_name self in
  register w self s = (s1, Return true) →
  refused w (RegOpen key) = false →
  (∀ name, refused w (RegQuery key name) = false) →
  ∃ s2 loaded,
    from_registry_key w key s1 = (s2, Return (Some loaded))
    ∧ registry s2 = registry s1
    ∧ Architecture loaded = Architecture self
    ∧ Description loaded = Description self
    ∧ Version loaded = Version self
    ∧ PathEnvironmentVariable loaded = PathEnvironmentVariable self
    ∧ InterpreterPath loaded = InterpreterAbsPath self
    ∧ WindowsInterpreterPath loaded = WindowsInterpreterAbsPath self
    ∧ Path loaded = ntpath.dirname (InterpreterAbsPath self)
    ∧ (ntpath.isabs (InterpreterAbsPath self) = true →
       InterpreterAbsPath loaded = InterpreterAbsPath self)
    ∧ VSVersion loaded = None
    ∧ (has_sep (lower (GUID self)) = false →
       GUID loaded = Token (lower (GUID self))
       ∧ BaseInterpreter loaded = Token (lower (GUID self))).
Proof.
  intros key Hrun Hopen Hquery.
  destruct (register_true_entry w self s s1 Hrun)
    as (_ & _ & _ & _ & entry & Hkey & Ha & Hd & Hp & Hn & Hw & He).
  fold key in Hkey.
  unfold from_registry_key, value_names. cbn [read_values name_of].
  unfold mbind, M_bind, bind, attempt. unfold winreg.OpenKey at 1.
  rewrite Hopen, Hkey.
  rewrite (QueryValueEx_found w _ _ _ _ _ (Hquery _) Hkey Ha).
  rewrite (QueryValueEx_found w _ _ _ _ _ (Hquery _) Hkey Hd).
  rewrite (QueryValueEx_found w _ _ _ _ _ (Hquery _) Hkey Hp).
  rewrite (QueryValueEx_found w _ _ _ _ _ (Hquery _) Hkey Hn).
  rewrite (QueryValueEx_found w _ _ _ _ _ (Hquery _) Hkey Hw).
  rewrite (QueryValueEx_found w _ _ _ _ _ (Hquery _) Hkey He).
  cbn [set_named]. unfold winreg.CloseKey, __init__, uuid.uuid1. unfold_M.
  cbn [kw_InterpreterPath set_PathEnvironmentVariable set_WindowsInterpreterPath set_Version
       set_InterpreterPath set_Description set_Architecture no_kwargs].
  eexists. eexists. split; [reflexivity|]. split; [reflexivity|].
  unfold _import.
  cbn [kw_Id kw_BaseInterpreter kw_Architecture kw_Version kw_Path kw_Description
       kw_InterpreterPath kw_InterpreterAbsPath kw_WindowsInterpreterPath
       kw_WindowsInterpreterAbsPath kw_PathEnvironmentVariable kw_VSVersion set_Id set_Path
       Architecture Description Version PathEnvironmentVariable InterpreterPath
       WindowsInterpreterPath Path InterpreterAbsPath VSVersion GUID BaseInterpreter
       from_option id].
  repeat (split; [reflexivity|]).
  split.
  { intros Habs.
    transitivity (if ntpath.isabs (InterpreterAbsPath self) then InterpreterAbsPath self
                  else abspath w (ntpath.join (ntpath.dirname (InterpreterAbsPath self))
                                    [InterpreterAbsPath self]));
      [reflexivity | rewrite Habs; reflexivity]. }
  split; [reflexivity|].
  intros Hsep. unfold key, interpreter_regkey_name.
  rewrite basename_under_regkey.
  - rewrite strip_ends_braces. split; reflexivity.
  - rewrite !has_sep_app, Hsep. reflexivity.
Qed.

Lemma register_then_load_witness :
  ∃ s2 loaded,
    from_registry_key Sample.world (interpreter_regkey_name Sample.python27)
      (fst (register Sample.world Sample.python27 Sample.installed)) =
      (s2, Return (Some loaded))
    ∧ Description loaded = "Python27"
    ∧ InterpreterAbsPath loaded = "C:\Python27\python.exe"
    ∧ GUID loaded = Token "00000000-0000-0000-0000-000000000001".
Proof.
  destruct (register_then_load Sample.world Sample.python27 Sample.installed
              (fst (register Sample.world Sample.python27 Sample.installed)))
    as (s2 & loaded & Hload & _ & _ & Hd & _ & _ & _ & _ & _ & Habs & _ & Hguid);
    [vm_compute; reflexivity | reflexivity | reflexivity |].
  exists s2, loaded. split; [exact Hload|]. split; [exact Hd|].
  split; [exact (Habs eq_refl)|]. exact (proj1 (Hguid eq_refl)).
Defined.

Section Loading.

Context (w : World).

Lemma set_named_keeps_version (k : value_name) (v : string) (args : kwargs) :
  kw_VSVersion (set_named k v args) = kw_VSVersion args.
Proof. destruct k; reflexivity. Qed.

(** The loop of [from_registry_key] returns, leaves the state alone and does
    not set a Visual Studio version. *)
Lemma read_values_returns (regkey : string) (names : list value_name) (args : kwargs)
    (s : state) :
  ∃ args', read_values w regkey names args s = (s, Return args')
           ∧ kw_VSVersion args' = kw_VSVersion args.
Proof.
  revert args. induction names as [|k rest IH]; intros args.
  - exists args. split; reflexivity.
  - cbn [read_values]. unfold mbind, M_bind, bind, attempt, winreg.QueryValueEx.
    destruct (refused w _); [exists args; split; reflexivity|].
    destruct (registry s !! regkey) as [entry|]; [|exists args; split; reflexivity].
    destruct (values entry !! name_of k) as [v|]; [|exists args; split; reflexivity].
    destruct (IH (set_named k v args)) as (args' & Hrun & Hversion).
    exists args'. split; [exact Hrun|]. rewrite Hversion. apply set_named_keeps_version.
Qed.

End Loading.

(** X9. [from_registry_key] returns for every key name and never raises; it
    never changes the registry.  For a key that is missing or cannot be
    opened it returns [None] and leaves the state alone.  A descriptor it
    returns has the key's last part without its first and last character as
    its [GUID], the directory of its [InterpreterPath] as its [Path], and no
    Visual Studio version. *)
Theorem from_registry_key_returns (w : World) (keyname : string) (s : state) :
  ∃ s' r,
    from_registry_key w keyname s = (s', Return r)
    ∧ registry s' = registry s
    ∧ (refused w (RegOpen keyname) = true ∨ registry s !! keyname = None →
       r = None ∧ s' = s)
    ∧ (∀ loaded, r = Some loaded →
         GUID loaded = Token (Str.strip_ends (ntpath.basename keyname))
         ∧ Path loaded = ntpath.dirname (InterpreterPath loaded)
         ∧ VSVersion loaded = None).
Proof.
  unfold from_registry_key. unfold mbind, M_bind, bind, attempt, winreg.OpenKey.
  destruct (refused w (RegOpen keyname)) eqn:Hopen.
  { exists s, None. split; [reflexivity|]. split; [reflexivity|].
    split; [split; reflexivity | discriminate]. }
  destruct (registry s !! keyname) as [entry|] eqn:Hkey.
  - destruct (read_values_returns w keyname value_names no_kwargs s)
      as (args & Hrun & Hversion).
    rewrite Hrun. unfold winreg.CloseKey. unfold_M.
    destruct (kw_InterpreterPath args) as [path|] eqn:Hpath.
    + unfold __init__, uuid.uuid1. unfold_M. eexists. eexists.
      split; [reflexivity|]. split; [reflexivity|].
      split; [intros [H|H]; discriminate H|].
      intros loaded Hloaded. injection Hloaded as <-. unfold _import.
      destruct args. cbn in Hpath, Hversion |- *. subst. repeat split.
    + exists s, None. split; [reflexivity|]. split; [reflexivity|].
      split; [split; reflexivity | discriminate].
  - exists s, None. split; [reflexivity|]. split; [reflexivity|].
    split; [split; reflexivity | discriminate].
Qed.

(** ** Reconciling twice *)

Section Idempotence.

Context (w : World).

Lemma resolve_returned (self : PTVSInterpreter) (s s' : state) (d : PTVSInterpreter) :
  resolve w self s = (s', Return d) →
  let regkey_name := _regkey_name (default "" (VSVersion self)) in
  truthy (VSVersion self) = true
  ∧ refused w (RegOpen (ntpath.dirname regkey_name)) = false
  ∧ is_Some (registry s !! ntpath.dirname regkey_name)
  ∧ refused w (RegCreate regkey_name) = false.
Proof.
  intros Hrun regkey_name. unfold resolve in Hrun. fold regkey_name in Hrun.
  destruct (truthy (VSVersion self)); [|discriminate Hrun].
  revert Hrun. decide_tests. unfold mbind, M_bind, bind, try_except.
  unfold winreg.OpenKey at 1. unfold winreg.CreateKey at 1.
  destruct (refused w (RegOpen _)); [discriminate|].
  destruct (registry s !! ntpath.dirname regkey_name); [|discriminate].
  destruct (refused w (RegCreate _)); [discriminate|].
  intros _. repeat split. eexists. reflexivity.
Qed.

Lemma same_path_only (self self' interpreter : PTVSInterpreter) :
  InterpreterAbsPath self' = InterpreterAbsPath self →
  same_path self' interpreter = same_path self interpreter.
Proof. intros H. unfold same_path. rewrite H. reflexivity. Qed.

(** The scan looks at the descriptor's interpreter path only: it leaves the
    descriptor as it is or gives it an identity of the catalog, the same for
    every descriptor with that path. *)
Lemma scan_by_path (entries : list (outcome (option PTVSInterpreter)))
    (self d : PTVSInterpreter) :
  scan self entries = Return d →
  (d = self
   ∧ ∀ self', InterpreterAbsPath self' = InterpreterAbsPath self →
              scan self' entries = Return self')
  ∨ (∃ int, d = with_identity (UUID int) self
            ∧ ∀ self', InterpreterAbsPath self' = InterpreterAbsPath self →
                       scan self' entries = Return (with_identity (UUID int) self')).
Proof.
  induction entries as [|e rest IH]; intros H.
  - left. cbn [scan] in H. injection H as <-. split; reflexivity.
  - destruct e as [[interpreter|]|e]; cbn [scan] in H.
    + destruct (same_path self interpreter) eqn:Hsame.
      * destruct (GUID interpreter) as [|hex] eqn:Hguid; [discriminate H|].
        destruct (uuid.UUID_of hex) as [int|] eqn:Hint; [|discriminate H].
        right. exists int. injection H as <-. split; [reflexivity|].
        intros self' Hpath. cbn [scan].
        rewrite (same_path_only self self' interpreter Hpath), Hsame, Hguid, Hint.
        reflexivity.
      * destruct (IH H) as [[Hd Hall]|(int & Hd & Hall)]; [left|right; exists int];
          (split; [exact Hd|]); intros self' Hpath; cbn [scan];
          rewrite (same_path_only self self' interpreter Hpath), Hsame; exact (Hall self' Hpath).
    + destruct (IH H) as [[Hd Hall]|(int & Hd & Hall)]; [left|right; exists int];
        (split; [exact Hd|]); intros self' Hpath; cbn [scan]; exact (Hall self' Hpath).
    + discriminate H.
Qed.

Lemma scan_again (entries : list (outcome (option PTVSInterpreter)))
    (self d : PTVSInterpreter) :
  scan self entries = Return d → scan d entries = Return d.
Proof.
  intros H. destruct (scan_by_path entries self d H) as [[-> _]|(int & -> & Hall)].
  - exact H.
  - exact (Hall (with_identity (UUID int) self) eq_refl).
Qed.

End Idempotence.

(** X10. Reconciliation is idempotent: when [resolve] returns a descriptor,
    resolving that descriptor again against the registry the first call left
    returns the same descriptor and leaves the registry as it is. *)
Theorem resolve_twice (w : World) (self : PTVSInterpreter) (s s1 : state)
    (d : PTVSInterpreter) :
  resolve w self s = (s1, Return d) →
  ∃ s2, resolve w d s1 = (s2, Return d) ∧ registry s2 = registry s1.
Proof.
  intros Hrun.
  destruct (resolve_returned w self s s1 d Hrun) as (Hv & Hopen & Hroot & Hcreate).
  destruct (resolve_run w self s Hv Hopen Hroot Hcreate) as (clock & Hrun1).
  rewrite Hrun in Hrun1. injection Hrun1 as -> Hd.
  assert (Hversion : VSVersion d = VSVersion self).
  { destruct (resolve_result w self s _ d Hrun) as [->|[g ->]]; reflexivity. }
  set (regkey_name := _regkey_name (default "" (VSVersion self))) in *.
  assert (Hcatalog : catalog (State (catalog s regkey_name) clock) regkey_name =
                     catalog s regkey_name).
  { unfold catalog at 1. cbn [registry].
    destruct (create_key_lookup (String.length regkey_name) regkey_name (registry s))
      as [k Hk].
    exact (create_key_existing _ _ _ k Hk). }
  assert (Hentries : entries w d (State (catalog s regkey_name) clock) = entries w self s).
  { unfold entries. rewrite Hversion. fold regkey_name. rewrite Hcatalog. reflexivity. }
  destruct (resolve_run w d (State (catalog s regkey_name) clock)) as (clock' & Hrun2).
  - rewrite Hversion. exact Hv.
  - rewrite Hversion. exact Hopen.
  - rewrite Hversion. fold regkey_name. cbn [registry]. destruct Hroot as [root Hroot].
    destruct (create_key_keeps (String.length regkey_name) regkey_name (registry s) _ root
                Hroot) as (root' & Hroot' & _).
    eexists. exact Hroot'.
  - rewrite Hversion. exact Hcreate.
  - rewrite Hversion in Hrun2. fold regkey_name in Hrun2.
    rewrite Hcatalog, Hentries in Hrun2.
    exists (State (catalog s regkey_name) clock'). split; [|reflexivity].
    rewrite Hrun2. f_equal.
    destruct (refused w (RegQueryInfo regkey_name)).
    + injection Hd as ->. reflexivity.
    + destruct (scan self (entries w self s)) as [d0|e] eqn:Hscan.
      * injection Hd as ->. rewrite (scan_again _ _ _ Hscan). reflexivity.
      * destruct (is_WindowsError e) eqn:He; [|discriminate Hd].
        injection Hd as ->. rewrite Hscan, He. reflexivity.
Qed.

Lemma resolve_twice_witness :
  let first := resolve Sample.world Sample.python39 Sample.registered in
  ∃ s2, resolve Sample.world (with_identity (UUID 143098242404177361603877621312831893704)
                                Sample.python39) (fst first) =
        (s2, Return (with_identity (UUID 143098242404177361603877621312831893704)
                       Sample.python39))
        ∧ registry s2 = registry (fst first).
Proof.
  intros first.
  apply (resolve_twice Sample.world Sample.python39 Sample.registered (fst first)).
  vm_compute. reflexivity.
Defined.

(** X11. Reconciliation changes nothing but the identity: a descriptor that
    [resolve] returns has every other field of the one it was called on, and
    either keeps [GUID] and [BaseInterpreter] or has both set to one
    [uuid.UUID] read from the catalog. *)
Theorem resolve_changes_the_identity_only (w : World) (self : PTVSInterpreter) (s s' : state)
    (d : PTVSInterpreter) :
  resolve w self s = (s', Return d) →
  (d = self ∨ ∃ int, d = with_identity (UUID int) self)
  ∧ Architecture d = Architecture self
  ∧ Version d = Version self
  ∧ Path d = Path self
  ∧ Description d = Description self
  ∧ InterpreterPath d = InterpreterPath self
  ∧ InterpreterAbsPath d = InterpreterAbsPath self
  ∧ WindowsInterpreterPath d = WindowsInterpreterPath self
  ∧ WindowsInterpreterAbsPath d = WindowsInterpreterAbsPath self
  ∧ PathEnvironmentVariable d = PathEnvironmentVariable self
  ∧ VSVersion d = VSVersion self.
Proof.
  intros Hrun.
  assert (H : d = self ∨ ∃ int, d = with_identity (UUID int) self).
  { destruct (resolve_returned w self s s' d Hrun) as (Hv & Hopen & Hroot & Hcreate).
    destruct (resolve_run w self s Hv Hopen Hroot Hcreate) as (clock & Hrun1).
    rewrite Hrun in Hrun1. injection Hrun1 as _ Hd.
    destruct (refused w (RegQueryInfo _)); [left; congruence|].
    destruct (scan self (entries w self s)) as [d0|e] eqn:Hscan.
    - injection Hd as ->.
      destruct (scan_by_path _ _ _ Hscan) as [[-> _]|(int & -> & _)]; eauto.
    - destruct (is_WindowsError e); [left; congruence | discriminate Hd]. }
  split; [exact H|].
  destruct H as [->|[int ->]]; repeat split.
Qed.

Lemma resolve_changes_the_identity_only_witness :
  ∃ d, snd (resolve Sample.world Sample.python39 Sample.registered) = Return d
       ∧ Description d = "Python39"
       ∧ WindowsInterpreterAbsPath d = "C:\Python39\pythonw.exe".
Proof.
  destruct (resolve_changes_the_identity_only Sample.world Sample.python39 Sample.registered
              (fst (resolve Sample.world Sample.python39 Sample.registered))
              (with_identity (UUID 143098242404177361603877621312831893704) Sample.python39))
    as (_ & _ & _ & _ & Hd & _ & _ & _ & Hw & _); [vm_compute; reflexivity|].
  eexists. split; [vm_compute; reflexivity|]. split; [exact Hd | exact Hw].
Defined.

(** ** The fields of an installation *)

(** X12. A descriptor [from_python_installation] returns has the absolute
    directory as [Path], [python.exe] as [InterpreterPath] and the Visual
    Studio version of the keyword arguments, which is set.  It names
    [pythonw.exe] when that file lies in the directory and otherwise the
    windowed path passed in, if any.  Its version and architecture are the
    answers of the probes where a probe answered with text; where a probe
    failed or printed nothing they are those passed in, or empty.  Built
    without a base interpreter, it is its own base. *)
Theorem installation_fields (w : World) (directory : string) (kw : kwargs) (s s' : state)
    (d : PTVSInterpreter) :
  let root := abspath w directory in
  let python := abspath w (ntpath.join root ["python.exe"]) in
  from_python_installation w directory kw s = (s', Return (Some d)) →
  exists_ w python = true
  ∧ Path d = root
  ∧ InterpreterPath d = "python.exe"
  ∧ VSVersion d = kw_VSVersion kw
  ∧ truthy (VSVersion d) = true
  ∧ WindowsInterpreterPath d =
      (if exists_ w (ntpath.join root ["pythonw.exe"]) then "pythonw.exe"
       else default "" (kw_WindowsInterpreterPath kw))
  ∧ (∀ answer, python_version w python s = (s, Return answer) →
       Version d = if truthy answer then default "" answer
                   else default "" (kw_Version kw))
  ∧ (∀ answer, python_architecture w python s = (s, Return answer) →
       Architecture d = if truthy answer then default "" answer
                        else default "" (kw_Architecture kw))
  ∧ (kw_BaseInterpreter kw = None → BaseInterpreter d = GUID d).
Proof.
  intros root python Hrun. unfold from_python_installation in Hrun.
  fold root in Hrun. fold python in Hrun.
  destruct (exists_ w python) eqn:Hpy; revert Hrun; decide_tests;
    [|unfold mret, M_ret, ret; discriminate].
  destruct (python_version_returns w python s) as [version Hversion].
  destruct (python_architecture_returns w python s) as [architecture Harch].
  unfold __init__, uuid.uuid1. unfold_M.
  rewrite Hversion. cbv beta iota. rewrite Harch. cbv beta iota.
  destruct (resolve w _ _) as [s1 [d'|e]] eqn:E; [|discriminate].
  intros Hrun. injection Hrun as _ ->.
  destruct (resolve_returned w _ _ _ _ E) as (Hv & _).
  split; [reflexivity|].
  assert (Hfields :
    ∀ self, (d = self ∨ ∃ g, d = with_identity g self) →
            Path d = Path self ∧ InterpreterPath d = InterpreterPath self
            ∧ VSVersion d = VSVersion self
            ∧ WindowsInterpreterPath d = WindowsInterpreterPath self
            ∧ Version d = Version self ∧ Architecture d = Architecture self
            ∧ (BaseInterpreter self = GUID self → BaseInterpreter d = GUID d)).
  { intros self [->|[g ->]]; repeat split; intros H; exact H. }
  destruct (Hfields _ (resolve_result w _ _ _ _ E)) as (-> & -> & HV & -> & -> & -> & Hbase).
  rewrite HV. clear Hfields E.
  unfold with_probe, setdefault_Description, _import in Hv, Hbase |- *.
  split; [|split; [|split; [|split; [|split; [|split; [|split]]]]]].
  - destruct (truthy architecture), (truthy version), (exists_ w (ntpath.join root _)),
      kw as [? ? ? ? ? [?|] ? ? ? ? ? ?]; reflexivity.
  - destruct (truthy architecture), (truthy version), (exists_ w (ntpath.join root _)),
      kw as [? ? ? ? ? [?|] ? ? ? ? ? ?]; reflexivity.
  - destruct (truthy architecture), (truthy version), (exists_ w (ntpath.join root _)),
      kw as [? ? ? ? ? [?|] ? ? ? ? ? ?]; reflexivity.
  - destruct (truthy architecture), (truthy version), (exists_ w (ntpath.join root _)),
      kw as [? ? ? ? ? [?|] ? ? ? ? ? ?]; exact Hv.
  - destruct (truthy architecture), (truthy version), (exists_ w (ntpath.join root _)),
      kw as [? ? ? ? ? [?|] ? ? ? ? ? ?]; reflexivity.
  - intros answer Hanswer. rewrite ?Hversion in Hanswer. injection Hanswer as <-.
    destruct (truthy architecture), (truthy version), (exists_ w (ntpath.join root _)),
      kw as [? ? ? ? ? [?|] ? ? ? ? ? ?]; reflexivity.
  - intros answer Hanswer. rewrite ?Harch in Hanswer. injection Hanswer as <-.
    destruct (truthy architecture), (truthy version), (exists_ w (ntpath.join root _)),
      kw as [? ? ? ? ? [?|] ? ? ? ? ? ?]; reflexivity.
  - intros Hnone. apply Hbase.
    destruct (truthy architecture), (truthy version), (exists_ w (ntpath.join root _)),
      kw as [? ? ? ? ? [?|] ? ? ? ? ? ?]; cbn in Hnone; subst; reflexivity.
Qed.

Lemma installation_fields_witness :
  ∃ d, snd (from_python_installation Sample.world "C:\Python27" Sample.vs15 Sample.installed)
       = Return (Some d)
       ∧ Version d = "" ∧ Architecture d = "" ∧ WindowsInterpreterPath d = ""
       ∧ BaseInterpreter d = GUID d.
Proof.
  destruct (installation_fields Sample.world "C:\Python27" Sample.vs15 Sample.installed
              (fst (from_python_installation Sample.world "C:\Python27" Sample.vs15
                      Sample.installed))
              Sample.python27)
    as (_ & _ & _ & _ & _ & Hw & Hv & Ha & Hb); [vm_compute; reflexivity|].
  exists Sample.python27. split; [vm_compute; reflexivity|].
  split; [exact (Hv None eq_refl)|]. split; [exact (Ha None eq_refl)|].
  split; [exact Hw | exact (Hb eq_refl)].
Defined.

(** ** The markers of a virtual environment *)

(** X13. For an environment directory that holds [Scripts\python.exe] and a
    [Lib\orig-prefix.txt], when [pyvenv.cfg] is missing or names no home, the
    base installation is the one [from_python_installation] resolves from the
    first line of [orig-prefix.txt] with its trailing whitespace removed:
    what that resolution raises is raised, when it finds no installation
    there is no descriptor, and when it returns a base the environment's
    descriptor names that base.  When that file is empty the base directory
    is [None] and the call raises the [TypeError] of [os.path.abspath]. *)
Theorem legacy_marker_names_the_base (w : World) (directory : string) (kw : kwargs)
    (s : state) (legacy : list string) :
  let root := abspath w directory in
  let python := abspath w (ntpath.join root ["Scripts"; "python.exe"]) in
  let origprefix := abspath w (ntpath.join root ["Lib"; "orig-prefix.txt"]) in
  let pyvenvcfg := abspath w (ntpath.join root ["pyvenv.cfg"]) in
  exists_ w python = true →
  fs w !! origprefix = Some (File legacy) →
  (fs w !! pyvenvcfg = None
   ∨ ∃ modern, fs w !! pyvenvcfg = Some (File modern) ∧ home_value modern = None) →
  (∀ line rest, legacy = line :: rest →
     match from_python_installation w (Str.rstrip line) kw s with
     | (s1, Raise e) => from_virtual_environment w directory kw s = (s1, Raise e)
     | (s1, Return None) => from_virtual_environment w directory kw s = (s1, Return None)
     | (s1, Return (Some base)) =>
         ∃ s2 interpreter,
           from_virtual_environment w directory kw s = (s2, Return (Some interpreter))
           ∧ BaseInterpreter interpreter = GUID base
     end)
  ∧ (legacy = [] → from_virtual_environment w directory kw s = (s, Raise TypeError)).
Proof.
  intros root python origprefix pyvenvcfg Hpy Ho Hc.
  assert (Hfrom : from_virtual_environment w directory kw s =
                  from_basedir w root python kw
                    (Bound (match legacy with
                            | line :: _ => Some (Str.rstrip line)
                            | [] => None
                            end)) s).
  { unfold from_virtual_environment.
    fold root. fold python. fold origprefix. fold pyvenvcfg.
    rewrite Hpy. unfold locate_basedir, exists_, open. rewrite Ho.
    destruct Hc as [Hc|(modern & Hc & Hhome)]; rewrite Hc; decide_tests; unfold_M;
      rewrite ?read_home_value, ?Hhome; reflexivity. }
  rewrite Hfrom. split.
  - intros line rest ->. apply from_basedir_follows.
  - intros ->. reflexivity.
Qed.

Lemma legacy_marker_names_the_base_witness :
  let machine (marker : list string) : World :=
    {| cwd := "C:\work";
       fs := {[ "C:\Python39\python.exe" := File [];
                "C:\envs\old\Scripts\python.exe" := File [];
                "C:\envs\old\Lib\orig-prefix.txt" := File marker ]};
       communicate := Sample.child;
       decode_utf8 := Return;
       refused := λ _, false |} in
  (∃ s2 interpreter,
     from_virtual_environment (machine ["C:\Python39  " +:+ Sample.nl]) "C:\envs\old"
       Sample.vs15 Sample.installed = (s2, Return (Some interpreter))
     ∧ BaseInterpreter interpreter = UUID 1)
  ∧ from_virtual_environment (machine []) "C:\envs\old" Sample.vs15 Sample.installed =
    (Sample.installed, Raise TypeError).
Proof.
  intros machine. split.
  - destruct (legacy_marker_names_the_base (machine ["C:\Python39  " +:+ Sample.nl])
                "C:\envs\old" Sample.vs15 Sample.installed ["C:\Python39  " +:+ Sample.nl])
      as [H _];
      [vm_compute; reflexivity | vm_compute; reflexivity | left; vm_compute; reflexivity |].
    specialize (H _ _ eq_refl).
    set (base := from_python_installation (machine ["C:\Python39  " +:+ Sample.nl])
                   (Str.rstrip ("C:\Python39  " +:+ Sample.nl)) Sample.vs15 Sample.installed)
      in H.
    assert (Hbase : ∃ d, base = (fst base, Return (Some d)) ∧ GUID d = UUID 1)
      by (eexists; split; vm_compute; reflexivity).
    destruct Hbase as (d & Hbase & Hguid). rewrite Hbase in H.
    destruct H as (s2 & interpreter & Hrun & Hnames).
    exists s2, interpreter. split; [exact Hrun|]. rewrite Hnames. exact Hguid.
  - destruct (legacy_marker_names_the_base (machine []) "C:\envs\old" Sample.vs15
                Sample.installed [])
      as [_ H];
      [vm_compute; reflexivity | vm_compute; reflexivity | left; vm_compute; reflexivity |].
    exact (H eq_refl).
Defined.

Section EnvironmentPaths.

(** The interpreter of an environment, joined in one step or in two *)
Lemma join_scripts (root : string) :
  ntpath.join root ["Scripts"; "python.exe"] =
  ntpath.join root [ntpath.join "Scripts" ["python.exe"]].
Proof.
  unfold ntpath.join at 1 2. cbn [fold_left].
  destruct (ntpath.splitdrive root) as [d p].
  change (ntpath.join "Scripts" ["python.exe"]) with ("Scripts" +:+ ntpath.sep +:+ "python.exe").
  unfold ntpath.join_step at 2 3.
  change (ntpath.splitdrive "Scripts") with (EmptyString, "Scripts").
  change (ntpath.splitdrive ("Scripts" +:+ ntpath.sep +:+ "python.exe"))
    with (EmptyString, "Scripts" +:+ ntpath.sep +:+ "python.exe").
  cbv beta iota.
  change (ntpath.starts_with_sep "Scripts") with false.
  change (ntpath.starts_with_sep ("Scripts" +:+ ntpath.sep +:+ "python.exe")) with false.
  change (String.eqb "" "") with true. decide_tests.
  set (p' := if negb (String.eqb p "") && negb (ntpath.ends_with_sep p)
             then p +:+ ntpath.sep else p).
  unfold ntpath.join_step.
  change (ntpath.splitdrive "python.exe") with (EmptyString, "python.exe").
  cbv beta iota. change (ntpath.starts_with_sep "python.exe") with false.
  change (String.eqb "" "") with true. decide_tests.
  rewrite ends_plain_test, (ends_plain_app p' "Scripts" eq_refl).
  rewrite !str_app_assoc. reflexivity.
Qed.

End EnvironmentPaths.

(** X14. The descriptor of a virtual environment is built on the resolved
    base without a reconciliation of its own: the registry is as the
    resolution of the base left it, its [GUID] is the [Id] passed in or the
    next identity drawn, and its [BaseInterpreter] is the [GUID] of the base.
    Its [Path] is the environment directory, its [InterpreterPath] is
    [Scripts\python.exe], and its [InterpreterAbsPath], unless one was passed
    in, is the path of the [python.exe] the factory found. *)
Theorem environment_fields (w : World) (root : string) (kw : kwargs) (home : string)
    (s s1 : state) (base : PTVSInterpreter) :
  let python := abspath w (ntpath.join root ["Scripts"; "python.exe"]) in
  from_python_installation w home kw s = (s1, Return (Some base)) →
  ∃ d,
    from_basedir w root python kw (Bound (Some home)) s =
      (State (registry s1) (uuid_clock s1 + 1), Return (Some d))
    ∧ GUID d = default (UUID (uuid_clock s1)) (kw_Id kw)
    ∧ BaseInterpreter d = GUID base
    ∧ Path d = root
    ∧ InterpreterPath d = "Scripts\python.exe"
    ∧ VSVersion d = kw_VSVersion kw
    ∧ (kw_InterpreterAbsPath kw = None → InterpreterAbsPath d = python).
Proof.
  intros python Hbase. unfold from_basedir.
  unfold mbind, M_bind, bind at 1. rewrite Hbase.
  destruct (python_version_returns w python s1) as [version Hversion].
  destruct (python_architecture_returns w python s1) as [architecture Harch].
  unfold bind at 1. rewrite Hversion. unfold bind at 1. rewrite Harch.
  unfold __init__, uuid.uuid1, with_probe, setdefault_Description, _import. unfold_M.
  eexists. split; [reflexivity|].
  unfold python. rewrite join_scripts.
  destruct (truthy architecture), (truthy version),
    (exists_ w (ntpath.join root ["Scripts"; "pythonw.exe"]));
    destruct kw as [? ? ? ? ? [description|] ? [?|] ? ? ? ?];
    repeat split; intros H; first [discriminate H | reflexivity].
Qed.

Lemma environment_fields_witness :
  ∃ d,
    from_basedir Sample.world "C:\envs\myenv" "C:\envs\myenv\Scripts\python.exe" Sample.vs15
      (Bound (Some "C:\Python39")) Sample.installed =
      (State (registry (fst (from_python_installation Sample.world "C:\Python39" Sample.vs15
                               Sample.installed))) 3,
       Return (Some d))
    ∧ GUID d = UUID 2
    ∧ InterpreterAbsPath d = "C:\envs\myenv\Scripts\python.exe".
Proof.
  destruct (environment_fields Sample.world "C:\envs\myenv" Sample.vs15 "C:\Python39"
              Sample.installed
              (fst (from_python_installation Sample.world "C:\Python39" Sample.vs15
                      Sample.installed))
              Sample.python39)
    as (d & Hrun & Hguid & _ & _ & _ & _ & Habs); [vm_compute; reflexivity|].
  exists d. split; [exact Hrun|]. split; [exact Hguid | exact (Habs eq_refl)].
Defined.

(** ** The lines of [pyvenv.cfg] *)

Section ConfigLines.

Lemma contains_app (c : ascii) (k v : string) : Str.contains c (k +:+ String c v) = true.
Proof.
  induction k as [|a k IH].
  - change ("" +:+ String c v) with (String c v). cbn [Str.contains].
    rewrite Ascii.eqb_refl. reflexivity.
  - rewrite str_app_cons. cbn [Str.contains]. rewrite IH. apply orb_true_r.
Qed.

(** The split is at the first occurrence. *)
Lemma partition_app (c : ascii) (k v : string) :
  Str.contains c k = false → Str.partition c (k +:+ String c v) = (k, v).
Proof.
  induction k as [|a k IH]; intros H.
  - change ("" +:+ String c v) with (String c v). cbn [Str.partition].
    rewrite Ascii.eqb_refl. reflexivity.
  - cbn [Str.contains] in H. apply orb_false_elim in H. destruct H as [Ha Hk].
    rewrite str_app_cons. cbn [Str.partition]. rewrite Ha, (IH Hk). reflexivity.
Qed.

Lemma home_value_app (before after : list string) :
  home_value (before ++ after)%list =
  match home_value after with
  | Some v => Some v
  | None => home_value before
  end.
Proof. unfold home_value. rewrite omap_app. apply last_app. Qed.

End ConfigLines.

(** X15. In [pyvenv.cfg] the last line that sets [home] decides, wherever it
    stands: its key is compared without case and without the whitespace
    around it, the line is split at its first [=], so that the value may hold
    further [=] signs, and the value loses the whitespace around it.  What
    [basedir] held before, and any earlier home, is overwritten. *)
Theorem last_home_line_decides (before after : list string) (key value : string)
    (basedir : local (option string)) :
  Str.contains "=" key = false →
  Str.lower (Str.strip key) = "home" →
  home_value after = None →
  read_home (before ++ (key +:+ "=" +:+ value) :: after) basedir =
    Bound (Some (Str.strip value)).
Proof.
  intros Hkey Hhome Hafter.
  rewrite read_home_value.
  change (before ++ (key +:+ "=" +:+ value) :: after)%list
    with (before ++ [key +:+ "=" +:+ value] ++ after)%list.
  rewrite !home_value_app, Hafter.
  assert (Hline : home_value [key +:+ "=" +:+ value] = Some (Str.strip value)).
  { unfold home_value. cbn [omap list_omap]. unfold home_of_line.
    change (key +:+ "=" +:+ value) with (key +:+ String "=" value).
    rewrite contains_app, (partition_app _ _ _ Hkey), Hhome. reflexivity. }
  rewrite Hline. reflexivity.
Qed.

Lemma last_home_line_decides_witness :
  read_home ["home = C:\Python27"; "include = false"; "  HOME =  C:\tools\py=39  ";
             "version = 3.9.1"] (Bound (Some "C:\Legacy")) =
    Bound (Some "C:\tools\py=39").
Proof.
  apply (last_home_line_decides ["home = C:\Python27"; "include = false"]
           ["version = 3.9.1"] "  HOME " "  C:\tools\py=39  "); reflexivity.
Defined.

(** ** The size of a section's answer *)

Lemma omap_length {A} (l : list (option A)) : (length (omap id l) ≤ length l)%nat.
Proof.
  induction l as [|[x|] l IH]; cbn [omap list_omap length id]; simpl; lia.
Qed.

(** X16. [from_section] never makes, and never hands back, more descriptors
    than the list it resolves has paths, the installation list when that is
    not empty and the environment list otherwise; for a section that sets
    neither list it returns the empty list and leaves the state alone. *)
Theorem from_section_is_bounded (w : World) (config : Config) (section : string)
    (kw : kwargs) (s s' : state) (interpreters : sequence) :
  from_section w config section kw s = (s', Return interpreters) →
  let interpreter_paths := getdirs config section "interpreter_paths" [] in
  let environment_paths := getdirs config section "environment_paths" [] in
  let bound := match interpreter_paths with
               | _ :: _ => length interpreter_paths
               | [] => length environment_paths
               end in
  (length (objects interpreters) ≤ bound)%nat
  ∧ (length (remaining interpreters) ≤ bound)%nat
  ∧ (interpreter_paths = [] → environment_paths = [] → interpreters = PyList [] ∧ s' = s).
Proof.
  intros Hrun interpreter_paths environment_paths bound. subst bound.
  destruct (in_config config section) eqn:Hin;
    [|unfold from_section in Hrun; rewrite Hin in Hrun; discriminate Hrun].
  rewrite (from_section_present w config section kw s Hin) in Hrun. cbv zeta in Hrun.
  fold interpreter_paths in Hrun. fold environment_paths in Hrun.
  destruct interpreter_paths as [|p ps].
  - destruct environment_paths as [|p ps].
    + injection Hrun as <- <-. split; [cbn; lia|]. split; [cbn; lia|]. split; reflexivity.
    + destruct (comprehension _ (p :: ps) s) as [s1 [l|e]] eqn:E; [|discriminate].
      destruct (for_each_filter
                  (λ i, with_Description (get config section "description" (Description i)) i)
                  l) as [Ho Hr].
      assert (Hi : interpreters =
                   for_each (λ i, with_Description
                                    (get config section "description" (Description i)) i)
                            (filter_None l)) by congruence.
      rewrite Hi, Ho, Hr, length_map, <- (comprehension_length _ _ _ _ _ E).
      split; [apply omap_length|]. split; [cbn; lia|discriminate].
  - destruct (comprehension _ (p :: ps) s) as [s1 [l|e]] eqn:E; [|discriminate].
    destruct (for_each_filter
                (λ i, with_Description (get config section "description" (Description i)) i)
                l) as [Ho Hr].
    assert (Hi : interpreters =
                 for_each (λ i, with_Description
                                  (get config section "description" (Description i)) i)
                          (filter_None l)) by congruence.
    rewrite Hi, Ho, Hr, length_map, <- (comprehension_length _ _ _ _ _ E).
    split; [apply omap_length|]. split; [cbn; lia|discriminate].
Qed.

Lemma from_section_is_bounded_witness :
  ∃ interpreters,
    snd (from_section Sample.world Sample.config "vsgen.ptvs" Sample.vs15 Sample.installed) =
      Return interpreters
    ∧ (length (objects interpreters) ≤ 2)%nat.
Proof.
  eexists. split; [vm_compute; reflexivity|].
  refine (proj1 (from_section_is_bounded Sample.world Sample.config "vsgen.ptvs" Sample.vs15
                   Sample.installed _ _ _)).
  vm_compute. reflexivity.
Defined.

(** ** The text of an identity and its reading *)

Section IdentityText.

Lemma uuid_char_facts (c : ascii) :
  is_uuid_char c = true →
  Str.lower_char c = c ∧ ntpath.is_sep c = false ∧ uuid.is_brace c = false
  ∧ Ascii.eqb "u" c = false.
Proof.
  destruct c as [[] [] [] [] [] [] [] []]; vm_compute; intros H;
    first [discriminate H | repeat split].
Qed.

Lemma lower_hex_facts (c : ascii) :
  is_lower_hex c = true → is_uuid_char c = true ∧ Ascii.eqb "-" c = false.
Proof.
  destruct c as [[] [] [] [] [] [] [] []]; vm_compute; intros H;
    first [discriminate H | repeat split].
Qed.

(** A hexadecimal digit is no blank, no sign, no underscore and no letter of
    a prefix. *)
Lemma digit_facts (c : ascii) :
  is_lower_hex c = true →
  uuid.int_space c = false ∧ Ascii.eqb c "+" = false ∧ Ascii.eqb c "-" = false
  ∧ Ascii.eqb c "_" = false ∧ Ascii.eqb c "x" = false ∧ Ascii.eqb c "X" = false
  ∧ uuid.digit_value c ≠ None.
Proof.
  destruct c as [[] [] [] [] [] [] [] []]; vm_compute; intros H;
    first [discriminate H | repeat split; discriminate].
Qed.

Lemma hex_digit_facts (m : N) :
  is_lower_hex (uuid.hex_digit m) = true
  ∧ ((m < 16)%N → uuid.digit_value (uuid.hex_digit m) = Some m).
Proof.
  destruct (N.lt_ge_cases m 16) as [Hlt|Hge].
  - assert (H : (m = 0 ∨ m = 1 ∨ m = 2 ∨ m = 3 ∨ m = 4 ∨ m = 5 ∨ m = 6 ∨ m = 7 ∨ m = 8
                 ∨ m = 9 ∨ m = 10 ∨ m = 11 ∨ m = 12 ∨ m = 13 ∨ m = 14 ∨ m = 15)%N) by lia.
    repeat (destruct H as [->|H]; [split; reflexivity|]). subst. split; reflexivity.
  - split; [|lia].
    assert (H : uuid.hex_digit m = "f"%char); [|rewrite H; reflexivity].
    destruct m as [|p]; [lia|].
    do 5 (destruct p as [p|p|]; try lia; try reflexivity).
Qed.

Lemma all_chars_app (P : ascii → bool) (s t : string) :
  all_chars P (s +:+ t) = all_chars P s && all_chars P t.
Proof.
  induction s as [|c s IH]; [reflexivity|].
  rewrite str_app_cons. cbn [all_chars]. rewrite IH, andb_assoc. reflexivity.
Qed.

Lemma all_chars_impl (P Q : ascii → bool) (s : string) :
  (∀ c, P c = true → Q c = true) → all_chars P s = true → all_chars Q s = true.
Proof.
  intros HPQ. induction s as [|c s IH]; [reflexivity|].
  cbn [all_chars]. intros H. apply andb_prop in H. destruct H as [Hc Hs].
  rewrite (HPQ c Hc), (IH Hs). reflexivity.
Qed.

Lemma all_chars_substring (P : ascii → bool) (s : string) (a b : nat) :
  all_chars P s = true → all_chars P (String.substring a b s) = true.
Proof.
  revert a b. induction s as [|c s IH]; intros a b H.
  - destruct a, b; reflexivity.
  - cbn [all_chars] in H. apply andb_prop in H. destruct H as [Hc Hs].
    destruct a as [|a]; [destruct b as [|b]|]; cbn [String.substring].
    + reflexivity.
    + cbn [all_chars]. rewrite Hc, (IH 0%nat b Hs). reflexivity.
    + exact (IH a b Hs).
Qed.

Lemma all_chars_hex_of (digits : nat) (n : N) (acc : string) :
  all_chars is_lower_hex acc = true →
  all_chars is_lower_hex (uuid.hex_of digits n acc) = true.
Proof.
  revert n acc. induction digits as [|d IH]; intros n acc H; [exact H|].
  cbn [uuid.hex_of]. apply IH. cbn [all_chars].
  rewrite (proj1 (hex_digit_facts _)), H. reflexivity.
Qed.

Lemma length_hex_of (digits : nat) (n : N) (acc : string) :
  String.length (uuid.hex_of digits n acc) = (digits + String.length acc)%nat.
Proof.
  revert n acc. induction digits as [|d IH]; intros n acc; [reflexivity|].
  cbn [uuid.hex_of]. rewrite IH. cbn [String.length]. lia.
Qed.

(** The digits written are read back as the number they stand for. *)
Lemma hex_value_hex_of (digits : nat) (n a : N) (acc : string) :
  hex_value a (uuid.hex_of digits n acc) =
  hex_value (a * 16 ^ N.of_nat digits + n mod 16 ^ N.of_nat digits)%N acc.
Proof.
  revert n acc. induction digits as [|d IH]; intros n acc.
  - cbn [uuid.hex_of]. change (N.of_nat 0) with 0%N. rewrite N.pow_0_r, N.mod_1_r.
    f_equal. lia.
  - cbn [uuid.hex_of]. rewrite IH. cbn [hex_value].
    rewrite (proj2 (hex_digit_facts (n mod 16)%N)) by (apply N.mod_lt; lia).
    f_equal. rewrite Nat2N.inj_succ, N.pow_succ_r'.
    rewrite (N.Div0.mod_mul_r n 16 (16 ^ N.of_nat d)). lia.
Qed.

(** On digits alone the scan of [int] reads the number and leaves nothing. *)
Lemma digits16_hex (s : string) (acc : N) (prev : ascii) :
  all_chars is_lower_hex s = true → Ascii.eqb prev "_" = false →
  uuid.digits16 acc prev s = (λ n, (n, "")) <$> hex_value acc s.
Proof.
  revert acc prev. induction s as [|c s IH]; intros acc prev H Hprev.
  - cbn [uuid.digits16 hex_value]. rewrite Hprev. reflexivity.
  - cbn [all_chars] in H. apply andb_prop in H. destruct H as [Hc Hs].
    destruct (digit_facts c Hc) as (_ & _ & _ & Hu & _ & _ & Hd).
    cbn [uuid.digits16 hex_value]. rewrite Hu.
    destruct (uuid.digit_value c) as [d|]; [|destruct Hd; reflexivity].
    exact (IH _ c Hs Hu).
Qed.

(** [int(hex, 16)] on digits alone *)
Lemma int16_hex (s : string) :
  all_chars is_lower_hex s = true → s ≠ "" →
  uuid.int16 s = Z.of_N <$> hex_value 0 s.
Proof.
  intros H Hne. destruct s as [|c s]; [destruct Hne; reflexivity|].
  pose proof H as Hall. cbn [all_chars] in H. apply andb_prop in H. destruct H as [Hc Hs].
  destruct (digit_facts c Hc) as (Hsp & Hplus & Hminus & Hu & _ & _ & _).
  assert (Hprefix : uuid.head_is "x" s || uuid.head_is "X" s = false).
  { destruct s as [|c' s]; [reflexivity|]. cbn [all_chars] in Hs.
    apply andb_prop in Hs. destruct Hs as [Hc' _].
    destruct (digit_facts c' Hc') as (_ & _ & _ & _ & Hx & HX & _).
    cbn [uuid.head_is]. rewrite Hx, HX. reflexivity. }
  unfold uuid.int16. cbn [Str.lstrip_by]. rewrite Hsp. cbv zeta.
  change (uuid.head_is "+" (String c s)) with (Ascii.eqb c "+").
  change (uuid.head_is "-" (String c s)) with (Ascii.eqb c "-").
  rewrite Hplus, Hminus. cbn [orb]. cbv beta iota.
  change (uuid.tail (String c s)) with s.
  rewrite Hprefix, andb_false_r.
  change (uuid.head_is "_" (String c s)) with (Ascii.eqb c "_"). rewrite Hu.
  rewrite (digits16_hex _ 0 Ascii.zero Hall eq_refl).
  destruct (hex_value 0 (String c s)) as [n|]; [|reflexivity].
  cbn [fmap option_fmap option_map]. reflexivity.
Qed.

Lemma lower_identity (s : string) : all_chars is_uuid_char s = true → Str.lower s = s.
Proof.
  induction s as [|c s IH]; [reflexivity|]. cbn [all_chars Str.lower]. intros H.
  apply andb_prop in H. destruct H as [Hc Hs].
  rewrite (proj1 (uuid_char_facts c Hc)), (IH Hs). reflexivity.
Qed.

Lemma has_sep_identity (s : string) : all_chars is_uuid_char s = true → has_sep s = false.
Proof.
  induction s as [|c s IH]; [reflexivity|]. cbn [all_chars has_sep]. intros H.
  apply andb_prop in H. destruct H as [Hc Hs].
  destruct (uuid_char_facts c Hc) as (_ & -> & _). exact (IH Hs).
Qed.

Lemma prefix_other (a c : ascii) (p rest : string) :
  Ascii.eqb a c = false → String.prefix (String a p) (String c rest) = false.
Proof.
  intros H. cbn [String.prefix]. destruct (Ascii.ascii_dec a c) as [->|_]; [|reflexivity].
  rewrite Ascii.eqb_refl in H. discriminate H.
Qed.

(** Nothing is removed from a string that lacks the first character of the
    pattern. *)
Lemma remove_absent (a : ascii) (p s : string) :
  all_chars (λ c, negb (Ascii.eqb a c)) s = true → uuid.remove (String a p) 0 s = s.
Proof.
  induction s as [|c s IH]; [reflexivity|]. cbn [all_chars]. intros H.
  apply andb_prop in H. destruct H as [Hc Hs]. apply negb_true_iff in Hc.
  cbn [uuid.remove]. rewrite (prefix_other a c p s Hc), (IH Hs). reflexivity.
Qed.

Lemma prefix_one (a : ascii) (rest : string) : String.prefix (String a "") (String a rest) = true.
Proof.
  cbn [String.prefix]. destruct (Ascii.ascii_dec a a) as [_|Hne]; [|destruct Hne; reflexivity].
  destruct rest; reflexivity.
Qed.

Lemma remove_hyphen_app (a b : string) :
  all_chars is_lower_hex a = true →
  uuid.remove "-" 0 (a +:+ String "-" b) = a +:+ uuid.remove "-" 0 b.
Proof.
  induction a as [|c a IH]; intros H.
  - change ("" +:+ String "-" b) with (String "-" b). cbn [uuid.remove].
    rewrite prefix_one. reflexivity.
  - cbn [all_chars] in H. apply andb_prop in H. destruct H as [Hc Ha].
    rewrite !str_app_cons. cbn [uuid.remove].
    rewrite (prefix_other "-" c "" _ (proj2 (lower_hex_facts c Hc))), (IH Ha). reflexivity.
Qed.

Lemma strip_braces_identity (s : string) :
  all_chars is_uuid_char s = true →
  Str.lstrip_by uuid.is_brace (Str.rstrip_by uuid.is_brace s) = s.
Proof.
  intros H.
  assert (Hr : Str.rstrip_by uuid.is_brace s = s).
  { induction s as [|c s IH]; [reflexivity|]. cbn [all_chars] in H.
    apply andb_prop in H. destruct H as [Hc Hs]. cbn [Str.rstrip_by]. rewrite (IH Hs).
    destruct (uuid_char_facts c Hc) as (_ & _ & -> & _). destruct s; reflexivity. }
  rewrite Hr. destruct s as [|c s]; [reflexivity|]. cbn [all_chars] in H.
  apply andb_prop in H. destruct H as [Hc _]. cbn [Str.lstrip_by].
  destruct (uuid_char_facts c Hc) as (_ & _ & -> & _). reflexivity.
Qed.

Lemma pieces_of_32 (h : string) :
  String.length h = 32%nat →
  String.substring 0 8 h +:+ String.substring 8 4 h +:+ String.substring 12 4 h +:+
  String.substring 16 4 h +:+ String.substring 20 12 h = h.
Proof.
  intros H. do 32 (destruct h as [|? h]; [discriminate H|]).
  destruct h; [reflexivity | discriminate H].
Qed.

Lemma str_chars (int : N) : all_chars is_uuid_char (uuid.str int) = true.
Proof.
  unfold uuid.str. cbv zeta.
  assert (Hh : all_chars is_uuid_char (uuid.hex_of 32 int "") = true).
  { apply (all_chars_impl is_lower_hex); [intros c Hc; exact (proj1 (lower_hex_facts c Hc))|].
    apply all_chars_hex_of. reflexivity. }
  rewrite !all_chars_app, !(all_chars_substring _ _ _ _ Hh). reflexivity.
Qed.

(** [uuid.UUID(str(u).lower())] is [u]. *)
Lemma UUID_of_str (int : N) :
  uuid.UUID_of (Str.lower (uuid.str int)) = Return (int mod 2 ^ 128)%N.
Proof.
  pose proof (str_chars int) as Hchars.
  rewrite (lower_identity _ Hchars). unfold uuid.UUID_of.
  assert (Hu : all_chars (λ c, negb (Ascii.eqb "u" c)) (uuid.str int) = true).
  { apply (all_chars_impl is_uuid_char); [|exact Hchars].
    intros c Hc. destruct (uuid_char_facts c Hc) as (_ & _ & _ & ->). reflexivity. }
  rewrite (remove_absent "u" "rn:" _ Hu), (remove_absent "u" "uid:" _ Hu).
  rewrite (strip_braces_identity _ Hchars).
  assert (Hhex : all_chars is_lower_hex (uuid.hex_of 32 int "") = true)
    by (apply all_chars_hex_of; reflexivity).
  assert (Hremoved : uuid.remove "-" 0 (uuid.str int) = uuid.hex_of 32 int "").
  { unfold uuid.str. cbv zeta.
    change (String.append "-") with (String "-"%char).
    rewrite !remove_hyphen_app by (apply all_chars_substring; exact Hhex).
    rewrite (remove_absent "-" "" (String.substring 20 12 _)).
    - apply pieces_of_32. rewrite length_hex_of. reflexivity.
    - apply (all_chars_impl is_lower_hex); [|apply all_chars_substring; exact Hhex].
      intros c Hc. rewrite (proj2 (lower_hex_facts c Hc)). reflexivity. }
  cbv zeta. rewrite Hremoved, length_hex_of. cbn [String.length Nat.add Nat.eqb negb].
  rewrite (int16_hex _ Hhex)
    by (intros E; apply (f_equal String.length) in E; rewrite length_hex_of in E;
        discriminate E).
  rewrite hex_value_hex_of. cbn [hex_value fmap option_fmap option_map].
  change (16 ^ N.of_nat 32)%N with (2 ^ 128)%N. rewrite N.mul_0_l, N.add_0_l.
  assert (Hlt : (int mod 2 ^ 128 < 2 ^ 128)%N) by (apply N.mod_lt; discriminate).
  assert (Hrange : (0 <=? Z.of_N (int mod 2 ^ 128))%Z
                   && (Z.of_N (int mod 2 ^ 128) <? 2 ^ 128)%Z = true).
  { apply andb_true_intro. split; [apply Z.leb_le, N2Z.is_nonneg|apply Z.ltb_lt].
    change (2 ^ 128)%Z with (Z.of_N (2 ^ 128)%N). apply N2Z.inj_lt. exact Hlt. }
  rewrite Hrange, N2Z.id. reflexivity.
Qed.

End IdentityText.

(** X17. The name of the entry [register] writes for a descriptor whose
    identity is a [uuid.UUID] reads back as that identity: the last part of
    the key, without its braces, is the text of the identity, and
    [uuid.UUID] of it is the identity (taken in 128 bits). *)
Theorem entry_name_reads_back (self : PTVSInterpreter) (int : N) (s : state) :
  GUID self = UUID int →
  Str.strip_ends (ntpath.basename (interpreter_regkey_name self)) = uuid.str int
  ∧ uuid.UUID_ (Token (Str.strip_ends (ntpath.basename (interpreter_regkey_name self)))) s =
    (s, Return (UUID (int mod 2 ^ 128)%N)).
Proof.
  intros Hguid.
  assert (Hname : Str.strip_ends (ntpath.basename (interpreter_regkey_name self)) =
                  Str.lower (uuid.str int)).
  { unfold interpreter_regkey_name, lower. rewrite Hguid. cbn [text].
    rewrite basename_under_regkey.
    - apply strip_ends_braces.
    - rewrite !has_sep_app, (lower_identity _ (str_chars int)),
        (has_sep_identity _ (str_chars int)). reflexivity. }
  rewrite Hname. split; [exact (lower_identity _ (str_chars int))|].
  unfold uuid.UUID_. rewrite UUID_of_str. reflexivity.
Qed.

Lemma entry_name_reads_back_witness :
  Str.strip_ends (ntpath.basename (interpreter_regkey_name Sample.python27)) =
    "00000000-0000-0000-0000-000000000001"
  ∧ uuid.UUID_ (Token (Str.strip_ends (ntpath.basename
                                          (interpreter_regkey_name Sample.python27))))
      Sample.installed = (Sample.installed, Return (UUID 1)).
Proof.
  exact (entry_name_reads_back Sample.python27 1 Sample.installed eq_refl).
Defined.

(** ** Registering, then reconciling *)

Section RegisterThenResolve.

Context (w : World).

Lemma rsplit_plain (t : string) : has_sep t = false → winreg.rsplit t = None.
Proof.
  induction t as [|c t IH]; intros H; [reflexivity|].
  cbn [has_sep] in H. apply orb_false_elim in H. destruct H as [Hc Ht].
  unfold ntpath.is_sep in Hc. apply orb_false_elim in Hc. destruct Hc as [Hc _].
  cbn [winreg.rsplit]. rewrite (IH Ht), Hc. reflexivity.
Qed.

Lemma rsplit_app (h t : string) :
  has_sep t = false → winreg.rsplit (h +:+ ntpath.sep +:+ t) = Some (h, t).
Proof.
  intros Ht. induction h as [|c h IH].
  - change ("" +:+ ntpath.sep +:+ t) with (String Str.bslash t).
    cbn [winreg.rsplit]. rewrite (rsplit_plain t Ht), Ascii.eqb_refl. reflexivity.
  - rewrite !str_app_cons. cbn [winreg.rsplit]. rewrite IH. reflexivity.
Qed.

Lemma app_longer (h t : string) : h +:+ ntpath.sep +:+ t ≠ h.
Proof.
  intros H. apply (f_equal String.length) in H. rewrite !str_length_app in H.
  cbn [String.length ntpath.sep] in H. lia.
Qed.

(** Creating a key that is new under a key without subkeys leaves that key
    with the new key as its one subkey. *)
Lemma create_key_first_subkey (parent leaf : string) (reg : gmap string regkey) :
  has_sep leaf = false →
  reg !! (parent +:+ ntpath.sep +:+ leaf) = None →
  (reg !! parent = None ∨ ∃ k, reg !! parent = Some k ∧ subkeys k = []) →
  ∃ k1, winreg.create_key (String.length (parent +:+ ntpath.sep +:+ leaf))
          (parent +:+ ntpath.sep +:+ leaf) reg !! parent = Some k1
        ∧ subkeys k1 = [leaf].
Proof.
  intros Hleaf Hnew Hparent.
  destruct (String.length (parent +:+ ntpath.sep +:+ leaf)) as [|fuel] eqn:Hlen.
  { rewrite !str_length_app in Hlen. cbn [String.length ntpath.sep] in Hlen. lia. }
  cbn [winreg.create_key]. rewrite Hnew, (rsplit_app parent leaf Hleaf).
  rewrite lookup_insert_ne by apply app_longer.
  rewrite lookup_alter_eq.
  assert (H0 : ∃ k0, winreg.create_key fuel parent reg !! parent = Some k0 ∧ subkeys k0 = []).
  { destruct Hparent as [Hnone|(k & Hk & Hsub)].
    - exists (RegKey [] ∅). split; [|reflexivity].
      destruct fuel; cbn [winreg.create_key]; rewrite Hnone; apply lookup_insert_eq.
    - exists k. rewrite (create_key_existing _ _ _ k Hk). split; assumption. }
  destruct H0 as (k0 & -> & Hsub). eexists. split; [reflexivity|].
  unfold winreg.add_subkey. cbn [subkeys]. rewrite Hsub. reflexivity.
Qed.

Lemma preserves_SetValueEx_subkeys (parent : string) (names : list string)
    (key name value : string) :
  preserves (λ s, ∃ k, registry s !! parent = Some k ∧ subkeys k = names)
    (winreg.SetValueEx w key name value).
Proof.
  intros s (k & Hk & Hsub). unfold winreg.SetValueEx.
  destruct (refused w _); [eauto|]. destruct (registry s !! key) eqn:E; [|eauto].
  cbn [fst registry]. unfold winreg.set_value.
  destruct (decide (key = parent)) as [->|Hne].
  - rewrite lookup_alter_eq, Hk. eexists. split; [reflexivity|exact Hsub].
  - rewrite lookup_alter_ne by exact Hne. eauto.
Qed.

(** What [from_registry_key] makes of an entry that holds the six fields of
    a descriptor, on a registry that refuses nothing. *)
Lemma load_written (self : PTVSInterpreter) (key : string) (s1 : state) (entry : regkey) :
  (∀ op, refused w op = false) →
  registry s1 !! key = Some entry →
  values entry !! "Architecture" = Some (Architecture self) →
  values entry !! "Description" = Some (Description self) →
  values entry !! "InterpreterPath" = Some (InterpreterAbsPath self) →
  values entry !! "Version" = Some (Version self) →
  values entry !! "WindowsInterpreterPath" = Some (WindowsInterpreterAbsPath self) →
  values entry !! "PathEnvironmentVariable" = Some (PathEnvironmentVariable self) →
  ∃ loaded,
    from_registry_key w key s1 =
      (State (registry s1) (uuid_clock s1 + 1), Return (Some loaded))
    ∧ GUID loaded = Token (Str.strip_ends (ntpath.basename key))
    ∧ (ntpath.isabs (InterpreterAbsPath self) = true →
       InterpreterAbsPath loaded = InterpreterAbsPath self).
Proof.
  intros Hfree Hkey Ha Hd Hp Hn Hw He.
  unfold from_registry_key, value_names. cbn [read_values name_of].
  unfold mbind, M_bind, bind, attempt. unfold winreg.OpenKey at 1.
  rewrite Hfree, Hkey.
  rewrite (QueryValueEx_found w _ _ _ _ _ (Hfree _) Hkey Ha).
  rewrite (QueryValueEx_found w _ _ _ _ _ (Hfree _) Hkey Hd).
  rewrite (QueryValueEx_found w _ _ _ _ _ (Hfree _) Hkey Hp).
  rewrite (QueryValueEx_found w _ _ _ _ _ (Hfree _) Hkey Hn).
  rewrite (QueryValueEx_found w _ _ _ _ _ (Hfree _) Hkey Hw).
  rewrite (QueryValueEx_found w _ _ _ _ _ (Hfree _) Hkey He).
  cbn [set_named]. unfold winreg.CloseKey, __init__, uuid.uuid1. unfold_M.
  cbn [kw_InterpreterPath set_PathEnvironmentVariable set_WindowsInterpreterPath set_Version
       set_InterpreterPath set_Description set_Architecture no_kwargs].
  eexists. split; [reflexivity|]. split; [reflexivity|].
  intros Habs.
  transitivity (if ntpath.isabs (InterpreterAbsPath self) then InterpreterAbsPath self
                else abspath w (ntpath.join (ntpath.dirname (InterpreterAbsPath self))
                                  [InterpreterAbsPath self]));
    [reflexivity | rewrite Habs; reflexivity].
Qed.

Lemma entry_name_identity (self : PTVSInterpreter) (int : N) :
  GUID self = UUID int →
  has_sep ("{" +:+ lower (GUID self) +:+ "}") = false
  ∧ uuid.UUID_of (Str.strip_ends (ntpath.basename (interpreter_regkey_name self))) =
    Return (int mod 2 ^ 128)%N.
Proof.
  intros Hguid.
  assert (Hsep : has_sep ("{" +:+ lower (GUID self) +:+ "}") = false).
  { unfold lower. rewrite Hguid. cbn [text].
    rewrite !has_sep_app, (lower_identity _ (str_chars int)),
      (has_sep_identity _ (str_chars int)). reflexivity. }
  split; [exact Hsep|].
  unfold interpreter_regkey_name. rewrite (basename_under_regkey _ _ Hsep), strip_ends_braces.
  unfold lower. rewrite Hguid. cbn [text]. apply UUID_of_str.
Qed.

End RegisterThenResolve.

(** X18. What [register] wrote, [resolve] finds.  On a registry that refuses
    no call: after a descriptor with a [uuid.UUID] identity and an absolute
    interpreter path was registered as the first entry of its catalog, every
    descriptor of the same Visual Studio version whose absolute interpreter
    path is the same without regard to case is reconciled to the registered
    identity, as [GUID] and as [BaseInterpreter]. *)
Theorem register_then_resolve (w : World) (self other : PTVSInterpreter) (s s1 : state)
    (int : N) :
  let regkey_name := _regkey_name (default "" (VSVersion self)) in
  (∀ op, refused w op = false) →
  GUID self = UUID int →
  (int < 2 ^ 128)%N →
  ntpath.isabs (InterpreterAbsPath self) = true →
  registry s !! interpreter_regkey_name self = None →
  (registry s !! regkey_name = None
   ∨ ∃ k, registry s !! regkey_name = Some k ∧ subkeys k = []) →
  register w self s = (s1, Return true) →
  VSVersion other = VSVersion self →
  Str.lower (InterpreterAbsPath other) = Str.lower (InterpreterAbsPath self) →
  ∃ s2, resolve w other s1 = (s2, Return (with_identity (GUID self) other)).
Proof.
  intros regkey_name Hfree Hguid Hint Habs Hnew Hempty Hrun Hversion Hpath.
  destruct (register_true_entry w self s s1 Hrun)
    as (Hv & Hopen & Hroot & _ & entry & Hkey & Ha & Hd & Hp & Hn & Hw & He).
  destruct (entry_name_identity self int Hguid) as [Hsep Hname].
  set (leaf := "{" +:+ lower (GUID self) +:+ "}") in *.
  assert (Hkeyname : interpreter_regkey_name self = regkey_name +:+ ntpath.sep +:+ leaf)
    by reflexivity.
  (* the key of the interpreters has the entry as its one subkey *)
  assert (Hsub : ∃ k1, registry s1 !! regkey_name = Some k1 ∧ subkeys k1 = [leaf]).
  { replace s1 with (fst (register w self s)) by (rewrite Hrun; reflexivity).
    rewrite (register_unfold w self s Hv). destruct Hroot as [root Hroot].
    unfold mbind, M_bind, bind at 1. unfold try_except at 1. unfold winreg.OpenKey at 1.
    rewrite Hopen, Hroot.
    unfold try_except, bind. unfold winreg.CreateKey at 1. rewrite Hfree.
    assert (Hcreated : ∃ k1, registry (State (winreg.create_key
                                 (String.length (interpreter_regkey_name self))
                                 (interpreter_regkey_name self) (registry s)) (uuid_clock s))
                             !! regkey_name = Some k1 ∧ subkeys k1 = [leaf]).
    { cbn [registry]. rewrite Hkeyname. rewrite Hkeyname in Hnew.
      exact (create_key_first_subkey regkey_name leaf (registry s) Hsep Hnew Hempty). }
    pose proof (preserves_writes w
                  (λ s, ∃ k, registry s !! regkey_name = Some k ∧ subkeys k = [leaf])
                  self (interpreter_regkey_name self)
                  (λ name value, preserves_SetValueEx_subkeys w _ _ _ name value)
                  _ Hcreated) as Hkept.
    destruct (writes w self (interpreter_regkey_name self) _) as [s2 [b|e]];
      cbn [fst] in Hkept |- *; [exact Hkept|].
    destruct (is_WindowsError e); exact Hkept. }
  destruct Hsub as (k1 & Hk1 & Hsub).
  (* the Python tools key is still there *)
  pose proof (preserves_register_exists w self _ s Hroot) as Hroot1.
  rewrite Hrun in Hroot1. cbn [fst] in Hroot1.
  (* the run of resolve *)
  destruct (resolve_run w other s1) as (clock & Hres).
  - rewrite Hversion. exact Hv.
  - apply Hfree.
  - rewrite Hversion. exact Hroot1.
  - apply Hfree.
  - rewrite Hversion in Hres. fold regkey_name in Hres. rewrite Hfree in Hres.
    eexists. rewrite Hres. f_equal.
    unfold entries. rewrite Hversion. fold regkey_name.
    unfold catalog. rewrite (create_key_existing _ _ _ k1 Hk1), Hk1, Hsub.
    cbn [length seq map].
    destruct (load_written w self (interpreter_regkey_name self) (State (registry s1) 0)
                entry Hfree Hkey Ha Hd Hp Hn Hw He) as (loaded & Hload & Hid & Hloaded).
    assert (Hentry : entry_at w (registry s1) regkey_name 0 = Return (Some loaded)).
    { unfold entry_at. unfold mbind, M_bind, bind. unfold winreg.EnumKey.
      rewrite Hfree. cbn [registry]. rewrite Hk1, Hsub. cbn [lookup list_lookup].
      fold leaf. rewrite <- Hkeyname, Hload. reflexivity. }
    rewrite Hentry. cbn [scan]. unfold same_path.
    rewrite (Hloaded Habs), Hpath, String.eqb_refl, Hid, Hname, Hguid.
    rewrite (N.mod_small _ _ Hint). reflexivity.
Qed.

Lemma register_then_resolve_witness :
  let other :=
    _import Sample.world (UUID 2)
      (Kwargs None None None None (Some "c:\PYTHON39") (Some "Another name")
         (Some "Python.exe") None None None None (Some "15.0")) in
  let s1 := fst (register Sample.world Sample.python39 Sample.installed) in
  ∃ s2, resolve Sample.world other s1 = (s2, Return (with_identity (UUID 1) other)).
Proof.
  intros other s1.
  apply (register_then_resolve Sample.world Sample.python39 other Sample.installed s1 1).
  - intros op. reflexivity.
  - reflexivity.
  - reflexivity.
  - vm_compute. reflexivity.
  - vm_compute. reflexivity.
  - left. vm_compute. reflexivity.
  - vm_compute. reflexivity.
  - reflexivity.
  - vm_compute. reflexivity.
Defined.

(** ** What a section's answer still yields *)

(** X19. The answer of [from_section] yields no descriptor.  The loop that
    sets the descriptions runs the iterator [filter] made to its end before
    the [return], so that iterating the answer gives nothing, whatever was
    resolved; a section that sets neither list gives the empty list. *)
Theorem from_section_yields_nothing (w : World) (config : Config) (section : string)
    (kw : kwargs) (s s' : state) (interpreters : sequence) :
  from_section w config section kw s = (s', Return interpreters) →
  remaining interpreters = [].
Proof.
  intros Hrun.
  destruct (in_config config section) eqn:Hin;
    [|unfold from_section in Hrun; rewrite Hin in Hrun; discriminate Hrun].
  rewrite (from_section_present w config section kw s Hin) in Hrun. cbv zeta in Hrun.
  destruct (getdirs config section "interpreter_paths" []) as [|p ps].
  - destruct (getdirs config section "environment_paths" []) as [|p ps].
    + injection Hrun as _ <-. reflexivity.
    + destruct (comprehension _ (p :: ps) s) as [s1 [l|e]]; [|discriminate].
      assert (Hi : interpreters =
                   for_each (λ i, with_Description
                                    (get config section "description" (Description i)) i)
                            (filter_None l)) by congruence.
      rewrite Hi. apply for_each_filter.
  - destruct (comprehension _ (p :: ps) s) as [s1 [l|e]]; [|discriminate].
    assert (Hi : interpreters =
                 for_each (λ i, with_Description
                                  (get config section "description" (Description i)) i)
                          (filter_None l)) by congruence.
    rewrite Hi. apply for_each_filter.
Qed.

Lemma from_section_yields_nothing_witness :
  ∃ interpreters,
    snd (from_section Sample.world Sample.config "vsgen.ptvs" Sample.vs15 Sample.installed) =
      Return interpreters
    ∧ Path <$> objects interpreters = ["C:\Python39"]
    ∧ remaining interpreters = [].
Proof.
  eexists. split; [vm_compute; reflexivity|]. split; [vm_compute; reflexivity|].
  refine (from_section_yields_nothing Sample.world Sample.config "vsgen.ptvs" Sample.vs15
            Sample.installed _ _ _).
  vm_compute. reflexivity.
Defined.
